(** * Banking document pipeline: KYC/AML validator, KYC pre-screen,
      confidence gate, invoice cross-check and MICR extractor

    A shallow embedding of the rule-based core of the pipeline
    ([src/services/validator.py], [kyc_processor.py], [extractor.py],
    [invoice_processor.py], [cheque_processor.py]) together with the
    properties its specification states about it, and of the code around
    that core (the conversion of the service's fields, the form and invoice
    results, [src/routers/documents.py] and the helpers it calls) with
    further properties read off the code.

    Modelling conventions.
    - Python [float] is IEEE-754 binary64, which is exactly Rocq's primitive
      [float]; every score and every confidence is computed with [PrimFloat].
    - Python [str] is modelled by [string] (the UTF-8 bytes of the text);
      [lower], [strip], [\d] and [\s] act on the ASCII range, which is where
      all the keyword tables of the program live.
    - A [dict] is a [gmap]; the lists that the checks receive by reference and
      append to are the state of a small state-and-exception monad.
    - [date.today()] is a parameter of the validator.
    - Calls to the logger are modelled where a property speaks of them (the
      invoice cross-check); elsewhere they are left out, as they touch
      neither the arguments nor the result.
    - An object of the analysis service is a record of the attributes that
      the code reads; such an object, when present, is truthy. The calls to
      the outside (analysis, language model, classifier, preprocessing,
      storage) are parameters that return a value or raise. *)

From Stdlib Require Import ZArith List String Ascii Bool Lia Floats DecimalString.
From stdpp Require Import base option list strings gmap.
Set Warnings "-inexact-float".

Local Open Scope string_scope.

(* ===================================================================== *)
(** ** Python strings *)
(* ===================================================================== *)

Module Py.

(** [str.isspace] on ASCII: TAB, LF, VT, FF, CR, FS, GS, RS, US, SPACE. *)
Definition isspace (c : ascii) : bool :=
  let n := nat_of_ascii c in
  ((9 <=? n)%nat && (n <=? 13)%nat) || ((28 <=? n)%nat && (n <=? 32)%nat).

Definition isdigit (c : ascii) : bool :=
  let n := nat_of_ascii c in (48 <=? n)%nat && (n <=? 57)%nat.

Definition digit_val (c : ascii) : Z := Z.of_nat (nat_of_ascii c) - 48.

Definition lower_char (c : ascii) : ascii :=
  let n := nat_of_ascii c in
  if ((65 <=? n)%nat && (n <=? 90)%nat)%bool then ascii_of_nat (n + 32) else c.

(** [s.lower()] *)
Fixpoint lower (s : string) : string :=
  match s with
  | EmptyString => EmptyString
  | String c s' => String (lower_char c) (lower s')
  end.

(** [s.lstrip()] *)
Fixpoint lstrip (s : string) : string :=
  match s with
  | EmptyString => EmptyString
  | String c s' => if isspace c then lstrip s' else s
  end.

(** [s.rstrip()] *)
Fixpoint rstrip (s : string) : string :=
  match s with
  | EmptyString => EmptyString
  | String c s' =>
      match rstrip s' with
      | EmptyString => if isspace c then EmptyString else String c EmptyString
      | r => String c r
      end
  end.

(** [s.strip()] *)
Definition strip (s : string) : string := rstrip (lstrip s).

(** [sub in s] on strings *)
Fixpoint contains (sub s : string) : bool :=
  if String.prefix sub s then true
  else match s with
       | EmptyString => false
       | String _ s' => contains sub s'
       end.

(** [x in l] on a list or tuple of strings *)
Definition in_list (x : string) (l : list string) : bool :=
  existsb (String.eqb x) l.

(** [sep.join(l)] *)
Fixpoint join (sep : string) (l : list string) : string :=
  match l with
  | [] => ""
  | [x] => x
  | x :: rest => x +:+ sep +:+ join sep rest
  end.

(** [s.replace(c, "")] for a one-character [c] *)
Fixpoint remove_char (c : ascii) (s : string) : string :=
  match s with
  | EmptyString => EmptyString
  | String a s' => if Ascii.eqb a c then remove_char c s' else String a (remove_char c s')
  end.

(** [s[:n]] *)
Fixpoint take (n : nat) (s : string) : string :=
  match n, s with
  | S n', String c s' => String c (take n' s')
  | _, _ => EmptyString
  end.




(** Truth value of an [Optional[str]]: [None] and [""] are falsy. *)
Definition truthy (v : option string) : bool :=
  match v with
  | Some (String _ _) => true
  | _ => false
  end.

(** [a or b] where [a], [b] are [Optional[object]] and every object is
    truthy (a pydantic model defines neither [__bool__] nor [__len__]). *)
Definition or_obj {A} (a b : option A) : option A :=
  match a with
  | Some _ => a
  | None => b
  end.

(** [v or ""] on an [Optional[str]]. *)
Definition or_empty (v : option string) : string :=
  match v with
  | Some s => s
  | None => ""
  end.

End Py.

(* ===================================================================== *)
(** ** Exceptions and the state-and-exception monad *)
(* ===================================================================== *)

Inductive exn := ValueError | AttributeError | TypeError | KeyError.

Inductive outcome (A : Type) :=
| Ret (a : A)
| Raise (e : exn).
Arguments Ret {A} a.
Arguments Raise {A} e.

(** A computation over a mutable store [S]: the store survives an exception,
    as the contents of a Python list do. *)
Definition M (S A : Type) : Type := S -> outcome A * S.

Definition ret {S A} (a : A) : M S A := fun s => (Ret a, s).

Definition bind {S A B} (m : M S A) (k : A -> M S B) : M S B :=
  fun s => match m s with
           | (Ret a, s') => k a s'
           | (Raise e, s') => (Raise e, s')
           end.

Definition raise {S A} (e : exn) : M S A := fun s => (Raise e, s).

Definition lift {S A} (o : outcome A) : M S A := fun s => (o, s).

Definition modify {S} (f : S -> S) : M S unit := fun s => (Ret tt, f s).

Definition get {S} : M S S := fun s => (Ret s, s).

(** [try: body  except <caught>: handler] *)
Definition try_except {S A} (body : M S A) (caught : exn -> bool) (handler : M S A) : M S A :=
  fun s => match body s with
           | (Ret a, s') => (Ret a, s')
           | (Raise e, s') => if caught e then handler s' else (Raise e, s')
           end.

Notation "'do' x <- m ; k" := (bind m (fun x => k))
  (at level 10, x name, m at level 100, k at level 200).
Notation "'run' m ; k" := (bind m (fun _ => k))
  (at level 10, m at level 100, k at level 200).

Definition is_ValueError (e : exn) : bool :=
  match e with ValueError => true | _ => false end.

Definition any_Exception (e : exn) : bool := true.

(* ===================================================================== *)
(** ** models/enums.py and models/schemas.py *)
(* ===================================================================== *)

Module Schemas.

Inductive ValidationStatus := PASSED | FAILED | NEEDS_MANUAL_REVIEW | PENDING.

Record ExtractedField := {
  field_name : string;
  value : option string;
  confidence : float;
  bounding_box : option (list float);
  page_number : option Z;
}.

(** [ExtractedField(field_name=.., value=.., confidence=..)] *)
Definition mkField (name : string) (v : option string) (c : float) : ExtractedField :=
  {| field_name := name; value := v; confidence := c;
     bounding_box := None; page_number := None |}.

Record ValidationResult := {
  status : ValidationStatus;
  checks_passed : list string;
  checks_failed : list string;
  risk_score : float;
  flags : list string;
  recommendation : string;
}.

Inductive item_value := IStr (s : string) | INum (x : float).

Record InvoiceResult := {
  vendor_name : option ExtractedField;
  vendor_address : option ExtractedField;
  invoice_number : option ExtractedField;
  invoice_date : option ExtractedField;
  due_date : option ExtractedField;
  subtotal : option ExtractedField;
  tax_amount : option ExtractedField;
  total_amount : option ExtractedField;
  currency : option ExtractedField;
  purchase_order : option ExtractedField;
  line_items : list (gmap string item_value);
}.

Record ChequeResult := {
  payee_name : option ExtractedField;
  amount_in_words : option ExtractedField;
  amount_in_figures : option ExtractedField;
  cheque_date : option ExtractedField;
  bank_name : option ExtractedField;
  branch_name : option ExtractedField;
  account_number : option ExtractedField;
  cheque_number : option ExtractedField;
  micr_code : option ExtractedField;
  ifsc_code : option ExtractedField;
  signature_detected : bool;
}.

(** [{f.field_name: f for f in extracted_fields}]: a later field of the same
    name overwrites an earlier one. *)
Definition build_field_map (fields : list ExtractedField) : gmap string ExtractedField :=
  fold_left (fun m f => <[field_name f := f]> m) fields ∅.

End Schemas.
Import Schemas.

(* ===================================================================== *)
(** ** datetime: dates and [datetime.strptime] *)
(* ===================================================================== *)

Module Datetime.

Record date := { year : Z; month : Z; day : Z }.

(** [a < b] on [datetime.date] *)
Definition date_ltb (a b : date) : bool :=
  (year a <? year b)%Z
  || ((year a =? year b)%Z
      && ((month a <? month b)%Z
          || ((month a =? month b)%Z && (day a <? day b)%Z))).

Definition is_leap (y : Z) : bool :=
  ((y mod 4 =? 0) && (negb (y mod 100 =? 0) || (y mod 400 =? 0)))%Z.

Definition days_in_month (y m : Z) : Z :=
  if (m =? 2)%Z then (if is_leap y then 29 else 28)%Z
  else if ((m =? 4) || (m =? 6) || (m =? 9) || (m =? 11))%Z then 30%Z
  else 31%Z.

(** The directives used by the validator's formats, and literal characters. *)
Inductive directive := Dir_Y | Dir_m | Dir_d | Lit (c : ascii).

Definition between (lo hi c : ascii) : bool :=
  ((nat_of_ascii lo <=? nat_of_ascii c)%nat && (nat_of_ascii c <=? nat_of_ascii hi)%nat)%bool.

(** One regex alternative made of two character classes, read as a number. *)
Definition two_chars (p1 p2 : ascii -> bool) (s : string) : list (Z * string) :=
  match s with
  | String a (String b rest) =>
      if (p1 a && p2 b)%bool then [((10 * Py.digit_val a + Py.digit_val b)%Z, rest)] else []
  | _ => []
  end.

Definition one_char (p : ascii -> bool) (s : string) : list (Z * string) :=
  match s with
  | String a rest => if p a then [(Py.digit_val a, rest)] else []
  | _ => []
  end.

(** [" [1-9]"]: a space then a digit; [int(" 5")] is 5. *)
Definition space_digit (s : string) : list (Z * string) :=
  match s with
  | String a (String b rest) =>
      if (Ascii.eqb a " " && between "1" "9" b)%bool then [(Py.digit_val b, rest)] else []
  | _ => []
  end.

(** The candidate matches of a directive's group at the head of [s], in the
    order the regex engine tries them:
    [%Y] is [\d\d\d\d], [%m] is [1[0-2]|0[1-9]|[1-9]],
    [%d] is [3[0-1]|[1-2]\d|0[1-9]|[1-9]| [1-9]]. *)
Definition alternatives (d : directive) (s : string) : list (Z * string) :=
  match d with
  | Dir_Y =>
      match s with
      | String a (String b (String c (String e rest))) =>
          if (Py.isdigit a && Py.isdigit b && Py.isdigit c && Py.isdigit e)%bool
          then [((1000 * Py.digit_val a + 100 * Py.digit_val b
                  + 10 * Py.digit_val c + Py.digit_val e)%Z, rest)]
          else []
      | _ => []
      end
  | Dir_m =>
      two_chars (Ascii.eqb "1") (between "0" "2") s
      ++ two_chars (Ascii.eqb "0") (between "1" "9") s
      ++ one_char (between "1" "9") s
  | Dir_d =>
      two_chars (Ascii.eqb "3") (between "0" "1") s
      ++ two_chars (between "1" "2") Py.isdigit s
      ++ two_chars (Ascii.eqb "0") (between "1" "9") s
      ++ one_char (between "1" "9") s
      ++ space_digit s
  | Lit c =>
      match s with
      | String a rest => if Ascii.eqb a c then [(0%Z, rest)] else []
      | _ => []
      end
  end.

Definition first_some {A B} (f : A -> option B) : list A -> option B :=
  fix go (l : list A) : option B :=
    match l with
    | [] => None
    | x :: l' => match f x with Some b => Some b | None => go l' end
    end.

Definition set_part (d : directive) (v : Z) (acc : date) : date :=
  match d with
  | Dir_Y => {| year := v; month := month acc; day := day acc |}
  | Dir_m => {| year := year acc; month := v; day := day acc |}
  | Dir_d => {| year := year acc; month := month acc; day := v |}
  | Lit _ => acc
  end.

(** [format_regex.match(data_string)]: the first match in backtracking
    order, not anchored at the end. *)
Fixpoint re_match (fmt : list directive) (s : string) (acc : date) : option (date * string) :=
  match fmt with
  | [] => Some (acc, s)
  | d :: fmt' =>
      first_some (fun '(v, rest) => re_match fmt' rest (set_part d v acc)) (alternatives d s)
  end.

(** [datetime.strptime(data, fmt).date()]: [ValueError] when the data does
    not match, when unconverted data remains, and when the triple is not a
    date of the calendar (year 0, day past the end of the month). *)
Definition strptime (data : string) (fmt : list directive) : outcome date :=
  match re_match fmt data {| year := 1900; month := 1; day := 1 |} with
  | None => Raise ValueError
  | Some (d, String _ _) => Raise ValueError
  | Some (d, EmptyString) =>
      if ((1 <=? year d) && (day d <=? days_in_month (year d) (month d)))%Z
      then Ret d else Raise ValueError
  end.

(** ["%Y-%m-%d"], ["%d/%m/%Y"], ["%m/%d/%Y"] *)
Definition fmt_Ymd : list directive := [Dir_Y; Lit "-"; Dir_m; Lit "-"; Dir_d].
Definition fmt_dmY : list directive := [Dir_d; Lit "/"; Dir_m; Lit "/"; Dir_Y].
Definition fmt_mdY : list directive := [Dir_m; Lit "/"; Dir_d; Lit "/"; Dir_Y].

End Datetime.

(* ===================================================================== *)
(** ** services/validator.py *)
(* ===================================================================== *)

Module Validator.

Import Datetime.

Definition REQUIRED_KYC_FIELDS : list string :=
  ["customer_name"; "date_of_birth"; "nationality"; "source_of_funds"; "occupation"].

Definition SANCTIONS_KEYWORDS : list string :=
  ["sanctioned_entity_1"; "sanctioned_entity_2"].

Definition FATF_HIGH_RISK : list string := ["Iran"; "North Korea"; "Myanmar"].

Definition FATF_INCREASED_MONITORING : list string :=
  ["Syria"; "Yemen"; "South Sudan"; "Libya"; "Haiti"; "Nigeria"; "Philippines"].

(** The three lists that [validate_kyc] creates and every check appends to. *)
Record Lists := { passed : list string; failed : list string; flags : list string }.

Definition passed_append (x : string) : M Lists unit :=
  modify (fun st => {| passed := (passed st ++ [x])%list; failed := failed st; flags := flags st |}).
Definition failed_append (x : string) : M Lists unit :=
  modify (fun st => {| passed := passed st; failed := (failed st ++ [x])%list; flags := flags st |}).
Definition flags_append (x : string) : M Lists unit :=
  modify (fun st => {| passed := passed st; failed := failed st; flags := (flags st ++ [x])%list |}).

(** [min(a, b)] of Python: [b] when [b < a], else [a]. *)
Definition py_min (a b : float) : float := if PrimFloat.ltb b a then b else a.

Section WithClock.

(** [date.today()] *)
Variable today : date.

Definition _check_field_completeness (field_map : gmap string ExtractedField) : M Lists bool :=
  let missing :=
    fold_left
      (fun missing field =>
         match field_map !! field with
         | None => (missing ++ [field])%list
         | Some f => if negb (Py.truthy (value f)) then (missing ++ [field])%list else missing
         end)
      REQUIRED_KYC_FIELDS [] in
  match missing with
  | _ :: _ =>
      run failed_append ("Missing required fields: " +:+ Py.join ", " missing);
      ret false
  | [] =>
      run passed_append "All required KYC fields present";
      ret true
  end.

(** The [for fmt in (...)] loop of [_check_id_validity]; the handler of
    the inner [except ValueError: continue] is the rest of the loop. *)
Fixpoint try_formats (expiry_value : string) (fmts : list (list directive)) : M Lists bool :=
  match fmts with
  | [] =>
      run passed_append "ID expiry date format unrecognized — manual check needed";
      ret true
  | fmt :: rest =>
      try_except
        (do expiry <- lift (strptime expiry_value fmt);
         if date_ltb expiry today
         then (run failed_append ("ID document expired: " +:+ expiry_value); ret false)
         else (run passed_append "ID document is valid and not expired"; ret true))
        is_ValueError
        (try_formats expiry_value rest)
  end.

Definition _check_id_validity (field_map : gmap string ExtractedField) : M Lists bool :=
  let expiry_field := Py.or_obj (field_map !! "expiry_date") (field_map !! "id_expiry") in
  match expiry_field with
  | Some f =>
      match value f with
      | Some (String c v') =>
          try_except
            (try_formats (String c v') [fmt_Ymd; fmt_dmY; fmt_mdY])
            any_Exception
            (run passed_append "ID expiry check skipped — parsing error"; ret true)
      | _ =>
          run passed_append "ID expiry check skipped — no expiry field found"; ret true
      end
  | None =>
      run passed_append "ID expiry check skipped — no expiry field found"; ret true
  end.

(** The [for sanctioned in SANCTIONS_KEYWORDS] loop with its early return. *)
Fixpoint sanctions_loop (name_value name_lower : string) (keywords : list string) : M Lists bool :=
  match keywords with
  | [] =>
      run passed_append "Sanctions screening: CLEAR";
      ret true
  | sanctioned :: rest =>
      if Py.contains (Py.lower sanctioned) name_lower
      then (run failed_append ("SANCTIONS MATCH: " +:+ name_value);
            run flags_append "SANCTIONS_HIT";
            ret false)
      else sanctions_loop name_value name_lower rest
  end.

Definition _check_sanctions (field_map : gmap string ExtractedField) : M Lists bool :=
  let name_field := Py.or_obj (field_map !! "customer_name") (field_map !! "full_name") in
  match name_field with
  | Some f =>
      match value f with
      | Some (String c v') =>
          let name_lower := Py.lower (String c v') in
          sanctions_loop (String c v') name_lower SANCTIONS_KEYWORDS
      | _ => run passed_append "Sanctions screening skipped — no name found"; ret true
      end
  | None => run passed_append "Sanctions screening skipped — no name found"; ret true
  end.

Definition _check_jurisdiction (field_map : gmap string ExtractedField) : M Lists bool :=
  let nationality := field_map !! "nationality" in
  match nationality with
  | Some f =>
      match value f with
      | Some (String c v') =>
          let country := Py.strip (String c v') in
          if Py.in_list country FATF_HIGH_RISK then
            run failed_append ("FATF High-Risk Jurisdiction: " +:+ country);
            run flags_append "FATF_HIGH_RISK";
            ret false
          else if Py.in_list country FATF_INCREASED_MONITORING then
            run failed_append ("FATF Increased Monitoring: " +:+ country);
            run flags_append "FATF_MONITORING";
            ret false
          else
            run passed_append ("Jurisdiction check: " +:+ country +:+ " — CLEAR");
            ret true
      | _ => run passed_append "Jurisdiction check skipped — no nationality found"; ret true
      end
  | None => run passed_append "Jurisdiction check skipped — no nationality found"; ret true
  end.

Definition _check_pep_status (field_map : gmap string ExtractedField) : M Lists bool :=
  let pep_field := field_map !! "politically_exposed" in
  match pep_field with
  | Some f =>
      match value f with
      | Some (String c v') =>
          if Py.in_list (Py.lower (String c v')) ["yes"; "true"; "1"] then
            run failed_append "Customer is a Politically Exposed Person (PEP)";
            run flags_append "PEP_IDENTIFIED";
            ret false
          else
            run passed_append "PEP check: Not a PEP";
            ret true
      | _ => run passed_append "PEP check skipped — no PEP field found"; ret true
      end
  | None => run passed_append "PEP check skipped — no PEP field found"; ret true
  end.

Definition _check_confidence_levels (fields : list ExtractedField) : M Lists bool :=
  let low_confidence_fields :=
    List.filter
      (fun f => PrimFloat.ltb (confidence f) 0.80 && Py.in_list (field_name f) REQUIRED_KYC_FIELDS)
      fields in
  match low_confidence_fields with
  | _ :: _ =>
      let names := List.map field_name low_confidence_fields in
      run failed_append ("Low confidence on critical fields: " +:+ Py.join ", " names);
      ret false
  | [] =>
      run passed_append "All critical fields meet confidence threshold";
      ret true
  end.

(** The body of [validate_kyc], run on the three lists. *)
Definition validate_kyc_body (extracted_fields : list ExtractedField) (document_type : string)
  : M Lists ValidationResult :=
  let risk_score := 0.0%float in
  let field_map := build_field_map extracted_fields in
  do completeness_ok <- _check_field_completeness field_map;
  let risk_score := if negb completeness_ok then (risk_score + 0.15)%float else risk_score in
  do id_valid <- _check_id_validity field_map;
  let risk_score := if negb id_valid then (risk_score + 0.1)%float else risk_score in
  do sanctions_clear <- _check_sanctions field_map;
  let risk_score := if negb sanctions_clear then (risk_score + 0.5)%float else risk_score in
  do jurisdiction_ok <- _check_jurisdiction field_map;
  let risk_score := if negb jurisdiction_ok then (risk_score + 0.3)%float else risk_score in
  do pep_clear <- _check_pep_status field_map;
  let risk_score := if negb pep_clear then (risk_score + 0.25)%float else risk_score in
  do confidence_ok <- _check_confidence_levels extracted_fields;
  let risk_score := if negb confidence_ok then (risk_score + 0.1)%float else risk_score in
  let risk_score := py_min risk_score 1.0 in
  do st <- get;
  let verdict :=
    match failed st with
    | _ :: _ =>
        if PrimFloat.leb 0.5 risk_score
        then (FAILED, "REJECT — High-risk indicators detected. Escalate to compliance.")
        else (NEEDS_MANUAL_REVIEW,
              "REVIEW — Some checks failed. Manual review required by compliance officer.")
    | [] => (PASSED, "APPROVED — All compliance checks passed.")
    end in
  ret {| status := fst verdict;
         checks_passed := passed st;
         checks_failed := failed st;
         risk_score := risk_score;
         Schemas.flags := flags st;
         recommendation := snd verdict |}.

(** [validate_kyc]: fresh empty lists, then the body. *)
Definition validate_kyc (extracted_fields : list ExtractedField) (document_type : string)
  : outcome ValidationResult :=
  fst (validate_kyc_body extracted_fields document_type
         {| passed := []; failed := []; flags := [] |}).

End WithClock.

End Validator.

(* ===================================================================== *)
(** ** services/kyc_processor.py: the pre-screen risk rating *)
(* ===================================================================== *)

Module KYCProcessor.

Record risk_factors := {
  high_risk_countries : list string;
  high_risk_occupations : list string;
  pep_risk_multiplier : float;
  missing_field_penalty : float;
}.

Definition RISK_FACTORS : risk_factors := {|
  high_risk_countries :=
    ["Iran"; "North Korea"; "Syria"; "Yemen"; "Libya"; "Somalia"; "South Sudan"; "Myanmar"];
  high_risk_occupations :=
    ["money exchanger"; "casino"; "gambling"; "cryptocurrency";
     "arms dealer"; "precious metals"; "real estate agent"];
  pep_risk_multiplier := 2.0;
  missing_field_penalty := 0.1;
|}.

(** [kyc_data.get(key)]: [None] for a missing key and for a JSON [null]. *)
Definition dict_get (kyc_data : gmap string (option string)) (key : string) : option string :=
  match kyc_data !! key with
  | Some v => v
  | None => None
  end.

(** [for high_risk_occ in ...: if high_risk_occ in occupation: risk_score += 0.3; break] *)
Fixpoint occupation_loop (occupation : string) (occs : list string) (risk_score : float) : float :=
  match occs with
  | [] => risk_score
  | high_risk_occ :: rest =>
      if Py.contains high_risk_occ occupation then (risk_score + 0.3)%float
      else occupation_loop occupation rest risk_score
  end.

Definition critical_fields : list string :=
  ["customer_name"; "date_of_birth"; "nationality"; "source_of_funds"; "occupation"].

(** The local [risk_score] of [_calculate_risk_rating] when the mapping to
    a rating starts. *)
Definition _calculate_risk_score (kyc_data : gmap string (option string)) : float :=
  let risk_score := 0.0%float in
  let nationality := Py.strip (Py.or_empty (dict_get kyc_data "nationality")) in
  let risk_score :=
    if Py.in_list nationality (high_risk_countries RISK_FACTORS)
    then (risk_score + 0.4)%float else risk_score in
  let occupation := Py.lower (Py.or_empty (dict_get kyc_data "occupation")) in
  let risk_score := occupation_loop occupation (high_risk_occupations RISK_FACTORS) risk_score in
  let pep := Py.lower (Py.or_empty (dict_get kyc_data "politically_exposed")) in
  let risk_score :=
    if Py.in_list pep ["yes"; "true"; "1"]
    then (risk_score * pep_risk_multiplier RISK_FACTORS + 0.3)%float
    else risk_score in
  fold_left
    (fun risk_score field =>
       if negb (Py.truthy (dict_get kyc_data field))
       then (risk_score + missing_field_penalty RISK_FACTORS)%float
       else risk_score)
    critical_fields risk_score.

Definition _calculate_risk_rating (kyc_data : gmap string (option string)) : string :=
  let risk_score := _calculate_risk_score kyc_data in
  if PrimFloat.leb 0.7 risk_score then "very_high"
  else if PrimFloat.leb 0.4 risk_score then "high"
  else if PrimFloat.leb 0.2 risk_score then "medium"
  else "low".

End KYCProcessor.

(** The pre-screen as the specification words it, to be compared with
    [KYCProcessor._calculate_risk_rating]. *)
Module PrescreenSpec.

Import KYCProcessor.

(** Nationality (surrounding blanks removed) is on the high-risk list. *)
Definition nationality_high_risk (kyc_data : gmap string (option string)) : bool :=
  Py.in_list (Py.strip (Py.or_empty (dict_get kyc_data "nationality")))
             (high_risk_countries RISK_FACTORS).

(** Occupation text (case folded) contains some high-risk occupation. *)
Definition occupation_high_risk (kyc_data : gmap string (option string)) : bool :=
  existsb (fun occ => Py.contains occ (Py.lower (Py.or_empty (dict_get kyc_data "occupation"))))
          (high_risk_occupations RISK_FACTORS).

(** The PEP answer is yes / true / 1, whatever its case. *)
Definition pep_flag (kyc_data : gmap string (option string)) : bool :=
  Py.in_list (Py.lower (Py.or_empty (dict_get kyc_data "politically_exposed")))
             ["yes"; "true"; "1"].

(** A critical field is absent: no key, a null, or an empty text. *)
Definition absent (kyc_data : gmap string (option string)) (field : string) : bool :=
  negb (Py.truthy (dict_get kyc_data field)).

Definition absent_count (kyc_data : gmap string (option string)) : nat :=
  length (List.filter (absent kyc_data) critical_fields).

Definition prescreen_score (kyc_data : gmap string (option string)) : float :=
  let s := 0.0%float in
  let s := if nationality_high_risk kyc_data then (s + 0.4)%float else s in
  let s := if occupation_high_risk kyc_data then (s + 0.3)%float else s in
  let s := if pep_flag kyc_data then (s * 2.0 + 0.3)%float else s in
  Nat.iter (absent_count kyc_data) (fun s => (s + 0.1)%float) s.


End PrescreenSpec.

(* ===================================================================== *)
(** ** services/extractor.py: the confidence gate *)
(* ===================================================================== *)

Module DocumentExtractor.

Section WithSettings.

(** [settings.confidence_threshold] *)
Variable confidence_threshold : float.
(** [f"{x:.2f}"] and [f"{x}"] on a float. *)
Variable format_2f : float -> string.
Variable format_float : float -> string.

(** The text appended for a field below the threshold. *)
Definition low_confidence_entry (field : ExtractedField) : string :=
  field_name field +:+ ": " +:+ format_2f (confidence field)
  +:+ " (threshold: " +:+ format_float confidence_threshold +:+ ")".

Definition check_confidence (fields : list ExtractedField) : bool * list string :=
  let low_confidence :=
    fold_left
      (fun low_confidence field =>
         if PrimFloat.ltb (confidence field) confidence_threshold
            && negb (String.eqb (field_name field) "text_line")
         then (low_confidence ++ [low_confidence_entry field])%list
         else low_confidence)
      fields [] in
  (Nat.eqb (length low_confidence) 0, low_confidence).

End WithSettings.

End DocumentExtractor.

(* ===================================================================== *)
(** ** services/invoice_processor.py: the totals cross-check *)
(* ===================================================================== *)

Module InvoiceProcessor.

Inductive log_record := Warning (msg : string) | Info (msg : string).

(** What [_validate_totals] can reach: the result object it is handed and
    the logger. *)
Record Store := { result : InvoiceResult; logged : list log_record }.

Definition logger_warning (msg : string) : M Store unit :=
  modify (fun st => {| result := result st; logged := (logged st ++ [Warning msg])%list |}).

Section WithFloat.

(** [float(s)] on a [str]: the number, or [None] when the text is not
    that of a number and Python raises [ValueError]. *)
Variable py_float : string -> option float.
(** [f"{x}"] on a float. *)
Variable format_float : float -> string.

Definition float_of_str (s : string) : outcome float :=
  match py_float s with
  | Some x => Ret x
  | None => Raise ValueError
  end.

(** [field.value.replace(",", "").replace("$", "")]; on a [None] value
    the attribute lookup raises [AttributeError]. *)
Definition cleaned (field : ExtractedField) : outcome string :=
  match value field with
  | Some s => Ret (Py.remove_char "$" (Py.remove_char "," s))
  | None => Raise AttributeError
  end.

Definition amount_of (field : ExtractedField) : M Store float :=
  do s <- lift (cleaned field);
  lift (float_of_str s).

(** [except (ValueError, TypeError, AttributeError)] *)
Definition caught_by_validate_totals (e : exn) : bool :=
  match e with
  | ValueError | TypeError | AttributeError => true
  | KeyError => false
  end.

Definition mismatch_message (subtotal tax expected total : float) : string :=
  "Invoice total mismatch: subtotal(" +:+ format_float subtotal +:+ ") + tax("
  +:+ format_float tax +:+ ") = " +:+ format_float expected
  +:+ ", but total = " +:+ format_float total.

Definition _validate_totals : M Store unit :=
  try_except
    (do st <- get;
     match subtotal (result st), tax_amount (result st), total_amount (result st) with
     | Some f_subtotal, Some f_tax, Some f_total =>
         do subtotal <- amount_of f_subtotal;
         do tax <- amount_of f_tax;
         do total <- amount_of f_total;
         let expected := (subtotal + tax)%float in
         if PrimFloat.ltb 0.01 (PrimFloat.abs (expected - total))
         then logger_warning (mismatch_message subtotal tax expected total)
         else ret tt
     | _, _, _ => ret tt
     end)
    caught_by_validate_totals
    (ret tt).

(** The number an amount field stands for, when it has a value that
    parses once commas and dollar signs are removed. *)
Definition parsed_amount (field : option ExtractedField) : option float :=
  match field with
  | Some f =>
      match value f with
      | Some s => py_float (Py.remove_char "$" (Py.remove_char "," s))
      | None => None
      end
  | None => None
  end.

End WithFloat.

(** [abs(subtotal + tax - total) > 0.01] *)
Definition totals_mismatch (subtotal tax total : float) : bool :=
  PrimFloat.ltb 0.01 (PrimFloat.abs (subtotal + tax - total)).

End InvoiceProcessor.

(* ===================================================================== *)
(** ** re: the fragment of regular expressions the MICR patterns use *)
(* ===================================================================== *)

Module Re.

(** A pattern is a sequence of atoms. [cls{lo,hi}] is greedy; [hi = None]
    is unbounded, so [\s*] is [Rep isspace 0 None] and [\s+] is
    [Rep isspace 1 None]. [Capture] is a parenthesised [cls{lo,hi}]. *)
Inductive atom :=
| OptLit (lit : string)
| Rep (cls : ascii -> bool) (lo : nat) (hi : option nat)
| Capture (cls : ascii -> bool) (lo : nat) (hi : option nat).

Fixpoint drop (n : nat) (s : string) : string :=
  match n, s with
  | S n', String _ s' => drop n' s'
  | _, _ => s
  end.

(** Greedy bounded repetition with backtracking: take a character while the
    bound allows and the continuation then succeeds, else stop here if the
    lower bound is met. [acc] is the text matched so far. *)
Definition rep_match {R} (cls : ascii -> bool) (k : string -> string -> option R)
  : nat -> nat -> string -> string -> option R :=
  fix go (hi lo : nat) (acc s : string) : option R :=
    let stop := if Nat.eqb lo 0 then k acc s else None in
    match hi with
    | O => stop
    | S hi' =>
        match s with
        | String c s' =>
            if cls c then
              match go hi' (Nat.pred lo) (acc +:+ String c EmptyString) s' with
              | Some r => Some r
              | None => stop
              end
            else stop
        | EmptyString => stop
        end
    end.

Definition bound (hi : option nat) (s : string) : nat :=
  match hi with
  | Some n => n
  | None => String.length s
  end.

(** Match the atoms at the head of [s]; on success the captured groups in
    order and the unread rest. *)
Fixpoint match_here (atoms : list atom) (s : string) (groups : list string)
  : option (list string * string) :=
  match atoms with
  | [] => Some (groups, s)
  | OptLit lit :: rest =>
      match (if String.prefix lit s
             then match_here rest (drop (String.length lit) s) groups
             else None) with
      | Some r => Some r
      | None => match_here rest s groups
      end
  | Rep cls lo hi :: rest =>
      rep_match cls (fun _ s' => match_here rest s' groups) (bound hi s) lo "" s
  | Capture cls lo hi :: rest =>
      rep_match cls (fun m s' => match_here rest s' (groups ++ [m])%list) (bound hi s) lo "" s
  end.

(** [re.search(pattern, text)]: the match at the leftmost position that has
    one. *)
Fixpoint search (atoms : list atom) (text : string) : option (list string) :=
  match match_here atoms text [] with
  | Some (groups, _) => Some groups
  | None =>
      match text with
      | EmptyString => None
      | String _ text' => search atoms text'
      end
  end.

End Re.

(* ===================================================================== *)
(** ** services/cheque_processor.py: MICR extraction *)
(* ===================================================================== *)

Module ChequeProcessor.

(** U+2446 and U+2447, as their UTF-8 bytes. *)
Definition u2446 : string :=
  String (ascii_of_nat 226) (String (ascii_of_nat 145) (String (ascii_of_nat 134) EmptyString)).
Definition u2447 : string :=
  String (ascii_of_nat 226) (String (ascii_of_nat 145) (String (ascii_of_nat 135) EmptyString)).

(** [[⑆]?(\d{6})[⑆]?\s*[⑇]?(\d{9})[⑇]?\s*(\d{6,12})] *)
Definition MICR_PATTERN : list Re.atom :=
  [Re.OptLit u2446; Re.Capture Py.isdigit 6 (Some 6); Re.OptLit u2446;
   Re.Rep Py.isspace 0 None;
   Re.OptLit u2447; Re.Capture Py.isdigit 9 (Some 9); Re.OptLit u2447;
   Re.Rep Py.isspace 0 None;
   Re.Capture Py.isdigit 6 (Some 12)].

(** [(\d{6})\s+(\d{9})\s+(\d{6,12})] *)
Definition alt_pattern : list Re.atom :=
  [Re.Capture Py.isdigit 6 (Some 6); Re.Rep Py.isspace 1 None;
   Re.Capture Py.isdigit 9 (Some 9); Re.Rep Py.isspace 1 None;
   Re.Capture Py.isdigit 6 (Some 12)].

Definition BANK_ROUTING_CODES : gmap string string :=
  list_to_map
    [("033", "ADCB - Abu Dhabi Commercial Bank");
     ("044", "Emirates NBD");
     ("046", "Abu Dhabi Islamic Bank");
     ("035", "First Abu Dhabi Bank (FAB)");
     ("050", "Mashreq Bank");
     ("060", "State Bank of India");
     ("002", "HDFC Bank");
     ("004", "ICICI Bank");
     ("029", "Axis Bank")].

(** The dict returned by [_extract_micr]. *)
Module Micr.
Record data := {
  cheque_number : string;
  routing_code : string;
  account_number : string;
  full_micr : string;
}.
End Micr.

(** [match.group(i)] for [i] = 1, 2, 3. *)
Definition group (groups : list string) (i : nat) : string := nth (i - 1) groups "".

Definition micr_of_match (groups : list string) : Micr.data :=
  {| Micr.cheque_number := group groups 1;
     Micr.routing_code := group groups 2;
     Micr.account_number := group groups 3;
     Micr.full_micr := group groups 1 +:+ " " +:+ group groups 2 +:+ " " +:+ group groups 3 |}.

Definition _extract_micr (text : string) : option Micr.data :=
  match Re.search MICR_PATTERN text with
  | Some groups => Some (micr_of_match groups)
  | None =>
      match Re.search alt_pattern text with
      | Some groups => Some (micr_of_match groups)
      | None => None
      end
  end.

(** ["\n".join(f.value for f in fields if f.value and f.field_name == "text_line")] *)
Definition _build_text_content (fields : list ExtractedField) : string :=
  Py.join (String (ascii_of_nat 10) EmptyString)
    (List.map (fun f => Py.or_empty (value f))
       (List.filter (fun f => Py.truthy (value f) && String.eqb (field_name f) "text_line")
          fields)).

Section WithOtherExtractors.

(** The extractors of the other slots and the signature heuristic: the
    MICR slots do not depend on what they return. *)
Variable RawResult : Type.
Variable _extract_amount_figures : string -> option ExtractedField.
Variable _extract_amount_words : string -> option ExtractedField.
Variable _extract_date : string -> option ExtractedField.
Variable _extract_payee : string -> option ExtractedField.
Variable _detect_signature_region : RawResult -> bool.

Definition process (extracted_fields : list ExtractedField) (raw_result : RawResult)
  : ChequeResult :=
  let text_content := _build_text_content extracted_fields in
  let micr_data := _extract_micr text_content in
  {| payee_name := _extract_payee text_content;
     amount_in_words := _extract_amount_words text_content;
     amount_in_figures := _extract_amount_figures text_content;
     cheque_date := _extract_date text_content;
     bank_name :=
       match micr_data with
       | Some md =>
           let bank_info :=
             default "Unknown Bank" (BANK_ROUTING_CODES !! Py.take 3 (Micr.routing_code md)) in
           Some (mkField "bank_name" (Some bank_info) 0.85)
       | None => None
       end;
     branch_name := None;
     account_number :=
       match micr_data with
       | Some md => Some (mkField "account_number" (Some (Micr.account_number md)) 0.90)
       | None => None
       end;
     cheque_number :=
       match micr_data with
       | Some md => Some (mkField "cheque_number" (Some (Micr.cheque_number md)) 0.90)
       | None => None
       end;
     micr_code :=
       match micr_data with
       | Some md => Some (mkField "micr_code" (Some (Micr.full_micr md)) 0.88)
       | None => None
       end;
     ifsc_code := None;
     signature_detected := _detect_signature_region raw_result |}.

End WithOtherExtractors.

End ChequeProcessor.

(* ===================================================================== *)
(** ** What each check of the validator records *)
(* ===================================================================== *)

(** One check leaves one entry: a line in [checks_passed], or a line in
    [checks_failed] with at most one flag. *)
Inductive entry :=
| Passes (msg : string)
| Fails (msg : string) (flag : option string).

Definition passes (e : entry) : bool :=
  match e with Passes _ => true | Fails _ _ => false end.

Definition fails (e : entry) : bool := negb (passes e).

Definition entry_flags (e : entry) : list string :=
  match e with
  | Fails _ (Some f) => [f]
  | _ => []
  end.

Definition entry_msg (e : entry) : string :=
  match e with Passes msg => msg | Fails msg _ => msg end.

(** The three lists after the entry has been recorded. *)
Definition after (e : entry) (st : Validator.Lists) : Validator.Lists :=
  match e with
  | Passes msg =>
      {| Validator.passed := (Validator.passed st ++ [msg])%list;
         Validator.failed := Validator.failed st;
         Validator.flags := Validator.flags st |}
  | Fails msg None =>
      {| Validator.passed := Validator.passed st;
         Validator.failed := (Validator.failed st ++ [msg])%list;
         Validator.flags := Validator.flags st |}
  | Fails msg (Some f) =>
      {| Validator.passed := Validator.passed st;
         Validator.failed := (Validator.failed st ++ [msg])%list;
         Validator.flags := (Validator.flags st ++ [f])%list |}
  end.

(** A check that returns normally, with [True] for a passed entry and
    [False] for a failed one, and has recorded the entry. *)
Definition records (e : entry) (st : Validator.Lists) : outcome bool * Validator.Lists :=
  (Ret (passes e), after e st).

(** A check appends exactly one line: to [passed] and returns [True], or to
    [failed] (with at most one flag) and returns [False]; the other of the
    two lists is left as it was. *)
Definition appends_exactly_one (check : M Validator.Lists bool) : Prop :=
  forall st, exists msg,
    check st = (Ret true,
                {| Validator.passed := (Validator.passed st ++ [msg])%list;
                   Validator.failed := Validator.failed st;
                   Validator.flags := Validator.flags st |})
    \/ exists fl,
        (length fl <= 1)%nat
        /\ check st = (Ret false,
                       {| Validator.passed := Validator.passed st;
                          Validator.failed := (Validator.failed st ++ [msg])%list;
                          Validator.flags := (Validator.flags st ++ fl)%list |}).

Module Entries.

Import Datetime Validator.

Definition missing_fields (field_map : gmap string ExtractedField) : list string :=
  fold_left
    (fun missing field =>
       match field_map !! field with
       | None => (missing ++ [field])%list
       | Some f => if negb (Py.truthy (value f)) then (missing ++ [field])%list else missing
       end)
    REQUIRED_KYC_FIELDS [].

Definition completeness (field_map : gmap string ExtractedField) : entry :=
  match missing_fields field_map with
  | (_ :: _) as missing => Fails ("Missing required fields: " +:+ Py.join ", " missing) None
  | [] => Passes "All required KYC fields present"
  end.

(** The non-empty value of the field a check reads: the field under the
    first name when there is one, else the field under the second. *)
Definition read_value (field_map : gmap string ExtractedField) (first second : string)
  : option string :=
  match Py.or_obj (field_map !! first) (field_map !! second) with
  | Some f => if Py.truthy (value f) then value f else None
  | None => None
  end.

(** The date of the first format, in the order tried, under which the text
    parses. *)
Fixpoint first_parse (text : string) (fmts : list (list directive)) : option date :=
  match fmts with
  | [] => None
  | fmt :: rest =>
      match strptime text fmt with
      | Ret d => Some d
      | Raise _ => first_parse text rest
      end
  end.

Definition expiry_formats : list (list directive) := [fmt_Ymd; fmt_dmY; fmt_mdY].

Definition expiry_entry (today : date) (text : string) (parsed : option date) : entry :=
  match parsed with
  | Some d =>
      if date_ltb d today then Fails ("ID document expired: " +:+ text) None
      else Passes "ID document is valid and not expired"
  | None => Passes "ID expiry date format unrecognized — manual check needed"
  end.

Definition id_validity (today : date) (field_map : gmap string ExtractedField) : entry :=
  match read_value field_map "expiry_date" "id_expiry" with
  | Some text => expiry_entry today text (first_parse text expiry_formats)
  | None => Passes "ID expiry check skipped — no expiry field found"
  end.


Definition sanctions_hit (name : string) : bool :=
  existsb (fun sanctioned => Py.contains (Py.lower sanctioned) (Py.lower name))
          SANCTIONS_KEYWORDS.

Definition sanctions (field_map : gmap string ExtractedField) : entry :=
  match read_value field_map "customer_name" "full_name" with
  | Some name =>
      if sanctions_hit name
      then Fails ("SANCTIONS MATCH: " +:+ name) (Some "SANCTIONS_HIT")
      else Passes "Sanctions screening: CLEAR"
  | None => Passes "Sanctions screening skipped — no name found"
  end.

Definition jurisdiction (field_map : gmap string ExtractedField) : entry :=
  match read_value field_map "nationality" "nationality" with
  | Some text =>
      let country := Py.strip text in
      if Py.in_list country FATF_HIGH_RISK
      then Fails ("FATF High-Risk Jurisdiction: " +:+ country) (Some "FATF_HIGH_RISK")
      else if Py.in_list country FATF_INCREASED_MONITORING
      then Fails ("FATF Increased Monitoring: " +:+ country) (Some "FATF_MONITORING")
      else Passes ("Jurisdiction check: " +:+ country +:+ " — CLEAR")
  | None => Passes "Jurisdiction check skipped — no nationality found"
  end.

Definition pep_truthy (text : string) : bool :=
  Py.in_list (Py.lower text) ["yes"; "true"; "1"].

Definition pep_status (field_map : gmap string ExtractedField) : entry :=
  match read_value field_map "politically_exposed" "politically_exposed" with
  | Some text =>
      if pep_truthy text
      then Fails "Customer is a Politically Exposed Person (PEP)" (Some "PEP_IDENTIFIED")
      else Passes "PEP check: Not a PEP"
  | None => Passes "PEP check skipped — no PEP field found"
  end.

Definition low_confidence (f : ExtractedField) : bool :=
  PrimFloat.ltb (confidence f) 0.80 && Py.in_list (field_name f) REQUIRED_KYC_FIELDS.

Definition confidence_levels (fields : list ExtractedField) : entry :=
  match List.filter low_confidence fields with
  | (_ :: _) as low =>
      Fails ("Low confidence on critical fields: " +:+ Py.join ", " (List.map field_name low)) None
  | [] => Passes "All critical fields meet confidence threshold"
  end.

(** The six entries of one call, in the order of the checks. *)
Definition all (today : date) (fields : list ExtractedField) : list entry :=
  let field_map := build_field_map fields in
  [completeness field_map; id_validity today field_map; sanctions field_map;
   jurisdiction field_map; pep_status field_map; confidence_levels fields].

End Entries.

(** The score of [validate_kyc] from the results of the six checks. *)
Definition clamped_score (b1 b2 b3 b4 b5 b6 : bool) : float :=
  let rs := 0.0%float in
  let rs := if negb b1 then (rs + 0.15)%float else rs in
  let rs := if negb b2 then (rs + 0.1)%float else rs in
  let rs := if negb b3 then (rs + 0.5)%float else rs in
  let rs := if negb b4 then (rs + 0.3)%float else rs in
  let rs := if negb b5 then (rs + 0.25)%float else rs in
  let rs := if negb b6 then (rs + 0.1)%float else rs in
  Validator.py_min rs 1.0.

Definition empty_lists : Validator.Lists :=
  {| Validator.passed := []; Validator.failed := []; Validator.flags := [] |}.

(** The result [validate_kyc] builds from the final score and lists. *)
Definition finish (rs : float) (st : Validator.Lists) : ValidationResult :=
  {| status :=
       match Validator.failed st with
       | _ :: _ => if PrimFloat.leb 0.5 rs then FAILED else NEEDS_MANUAL_REVIEW
       | [] => PASSED
       end;
     checks_passed := Validator.passed st;
     checks_failed := Validator.failed st;
     risk_score := rs;
     Schemas.flags := Validator.flags st;
     recommendation :=
       match Validator.failed st with
       | _ :: _ =>
           if PrimFloat.leb 0.5 rs
           then "REJECT — High-risk indicators detected. Escalate to compliance."
           else "REVIEW — Some checks failed. Manual review required by compliance officer."
       | [] => "APPROVED — All compliance checks passed."
       end |}.



(* ===================================================================== *)
(** ** Concrete inputs *)
(* ===================================================================== *)

Module Examples.

Definition today : Datetime.date :=
  {| Datetime.year := 2026; Datetime.month := 11; Datetime.day := 3 |}.


(** An input on which every one of the six checks fails. *)
Definition everything_fails : list ExtractedField :=
  [mkField "customer_name" (Some "Sanctioned_Entity_1 Ltd") 0.50;
   mkField "date_of_birth" (Some "") 0.90;
   mkField "nationality" (Some "Iran") 0.90;
   mkField "source_of_funds" (Some "Business") 0.90;
   mkField "occupation" (Some "Trader") 0.90;
   mkField "politically_exposed" (Some "YES") 0.90;
   mkField "id_expiry" (Some "31/12/2020") 0.90].


(** The MICR line of the specification's example and what it holds. *)
Definition micr_line : string := "123456 789012345 1234567890".


End Examples.

(* ===================================================================== *)
(** ** Fields with a value, and the inputs of the tests *)
(* ===================================================================== *)

(** A field of that name is in the map and has a non-empty value. *)
Definition has_value (field_map : gmap string ExtractedField) (name : string) : bool :=
  match field_map !! name with
  | Some f => Py.truthy (value f)
  | None => false
  end.

(** The inputs of tests/test_validator.py. *)
Module Tests.

Definition missing_fields : list ExtractedField :=
  [mkField "customer_name" (Some "Ahmed Ali") 0.90].

Definition high_risk_country : list ExtractedField :=
  [mkField "customer_name" (Some "Test User") 0.90;
   mkField "date_of_birth" (Some "1990-01-01") 0.90;
   mkField "nationality" (Some "Iran") 0.90;
   mkField "source_of_funds" (Some "Business") 0.90;
   mkField "occupation" (Some "Trader") 0.90].

Definition pep_identified : list ExtractedField :=
  [mkField "customer_name" (Some "Minister Example") 0.90;
   mkField "date_of_birth" (Some "1975-03-20") 0.90;
   mkField "nationality" (Some "Bahrain") 0.90;
   mkField "source_of_funds" (Some "Government salary") 0.90;
   mkField "occupation" (Some "Government official") 0.90;
   mkField "politically_exposed" (Some "yes") 0.90].

Definition low_confidence : list ExtractedField :=
  [mkField "customer_name" (Some "Test") 0.50;
   mkField "date_of_birth" (Some "1990-01-01") 0.75;
   mkField "nationality" (Some "UAE") 0.60;
   mkField "source_of_funds" (Some "Salary") 0.90;
   mkField "occupation" (Some "Engineer") 0.90].

(** A reply of the language model that answers every field with a
    placeholder. *)
Definition not_available : gmap string (option string) :=
  list_to_map
    [("customer_name", Some "N/A");
     ("date_of_birth", Some "null");
     ("nationality", Some "None");
     ("source_of_funds", Some "n/a");
     ("occupation", Some "N/A");
     ("politically_exposed", Some "N/A")].

End Tests.

(* ===================================================================== *)
(** ** azure.ai.documentintelligence: an analysis, as the code reads it *)
(* ===================================================================== *)

(** The objects of the analysis service with the attributes that the code
    reads. An attribute that the service leaves out is [None]. An object of
    the service, when present, is truthy: it holds at least the data it was
    built from. *)
Module Azure.

Set Warnings "-register-all".

Record CurrencyValue := { symbol : option string; amount : float }.

Record BoundingRegion := { polygon : option (list float) }.

(** A field of the service: scalar representations of one value, and for a
    list or dictionary value its items. *)
Inductive DocumentField :=
| Field (value_string : option string)
        (value_number : option float)
        (value_date : option Datetime.date)
        (value_currency : option CurrencyValue)
        (content : option string)
        (confidence : option float)
        (bounding_regions : option (list BoundingRegion))
        (value_array : option (list DocumentField))
        (value_object : option (list (string * DocumentField))).

Definition value_string (f : DocumentField) := let 'Field x _ _ _ _ _ _ _ _ := f in x.
Definition value_number (f : DocumentField) := let 'Field _ x _ _ _ _ _ _ _ := f in x.
Definition value_date (f : DocumentField) := let 'Field _ _ x _ _ _ _ _ _ := f in x.
Definition value_currency (f : DocumentField) := let 'Field _ _ _ x _ _ _ _ _ := f in x.
Definition content (f : DocumentField) := let 'Field _ _ _ _ x _ _ _ _ := f in x.
Definition confidence (f : DocumentField) := let 'Field _ _ _ _ _ x _ _ _ := f in x.
Definition bounding_regions (f : DocumentField) := let 'Field _ _ _ _ _ _ x _ _ := f in x.
Definition value_array (f : DocumentField) := let 'Field _ _ _ _ _ _ _ x _ := f in x.
Definition value_object (f : DocumentField) := let 'Field _ _ _ _ _ _ _ _ x := f in x.

Record DocumentLine := { line_content : string; line_polygon : option (list float) }.

Record DocumentPage := {
  page_number : Z;
  lines : option (list DocumentLine);
  height : option float;
  width : option float;
}.

Record DocumentTableCell := {
  row_index : Z;
  column_index : Z;
  cell_content : string;
  kind : option string;
}.

Record DocumentTable := { cells : list DocumentTableCell }.

(** [doc.fields] is a dict: its items in insertion order. *)
Record AnalyzedDocument := { fields : option (list (string * DocumentField)) }.

Record AnalyzeResult := {
  documents : option (list AnalyzedDocument);
  pages : option (list DocumentPage);
  tables : option (list DocumentTable);
}.

End Azure.

(* ===================================================================== *)
(** ** services/extractor.py: conversion of the service's fields *)
(* ===================================================================== *)

Module Extractor.

(** Truth value of a float: zero (of either sign) is falsy. *)
Definition float_truthy (x : float) : bool := negb (PrimFloat.eqb x 0).

Definition digit_char (n : Z) : ascii := ascii_of_nat (48 + Z.to_nat n).

(** ["%02d" % n] and ["%04d" % n] for [n] in range. *)
Definition two_digits (n : Z) : string :=
  String (digit_char (n / 10 mod 10)) (String (digit_char (n mod 10)) EmptyString).

Definition four_digits (n : Z) : string :=
  String (digit_char (n / 1000 mod 10))
    (String (digit_char (n / 100 mod 10)) (two_digits n)).

(** [d.isoformat()] on a [datetime.date]: YYYY-MM-DD. *)
Definition isoformat (d : Datetime.date) : string :=
  four_digits (Datetime.year d) +:+ "-" +:+ two_digits (Datetime.month d)
  +:+ "-" +:+ two_digits (Datetime.day d).

(** What a [datetime.date] can hold: a day of the calendar, years 1 to 9999. *)
Definition valid_date (d : Datetime.date) : bool :=
  ((1 <=? Datetime.year d) && (Datetime.year d <=? 9999)
   && (1 <=? Datetime.month d) && (Datetime.month d <=? 12)
   && (1 <=? Datetime.day d)
   && (Datetime.day d <=? Datetime.days_in_month (Datetime.year d) (Datetime.month d)))%Z.

(** [ExtractedField(...)]: the model checks the bounds [ge=0.0] and
    [le=1.0] of the confidence and raises [ValidationError], a [ValueError],
    on a confidence below 0.0 or above 1.0. *)
Definition new_ExtractedField (field_name : string) (value : option string)
    (confidence : float) (bounding_box : option (list float)) (page_number : option Z)
  : outcome ExtractedField :=
  if PrimFloat.ltb confidence 0.0 || PrimFloat.ltb 1.0 confidence
  then Raise ValueError
  else Ret {| field_name := field_name; value := value; Schemas.confidence := confidence;
              bounding_box := bounding_box; Schemas.page_number := page_number |}.

Section WithFormats.

(** [str(x)] and [f"{x}"] on a float; [str(table_data)] on the cells of a
    table. *)
Variable float_str : float -> string.
Variable table_str : list Azure.DocumentTableCell -> string.

(** The [if]/[elif] chain of [_convert_field] from [value_date] on. *)
Definition value_after_number (field : Azure.DocumentField) : option string :=
  match Azure.value_date field with
  | Some d => Some (isoformat d)
  | None =>
      match Azure.value_currency field with
      | Some c =>
          Some ((if Py.truthy (Azure.symbol c) then Py.or_empty (Azure.symbol c) else "")
                +:+ float_str (Azure.amount c))
      | None => if Py.truthy (Azure.content field) then Azure.content field else None
      end
  end.

Definition converted_value (field : Azure.DocumentField) : option string :=
  if Py.truthy (Azure.value_string field) then Azure.value_string field
  else
    match Azure.value_number field with
    | Some x => if float_truthy x then Some (float_str x) else value_after_number field
    | None => value_after_number field
    end.

Definition _convert_field (field_name : string) (field : Azure.DocumentField)
    (page_number : Z) : outcome ExtractedField :=
  let value := converted_value field in
  let bounding_box :=
    match Azure.bounding_regions field with
    | Some (region :: _) =>
        match Azure.polygon region with
        | Some (_ :: _) => Azure.polygon region
        | _ => None
        end
    | _ => None
    end in
  new_ExtractedField field_name value
    (match Azure.confidence field with
     | Some c => if float_truthy c then c else 0.0%float
     | None => 0.0%float
     end)
    bounding_box (Some page_number).

(** [for field_name, field in doc.fields.items(): ... append(self._convert_field(..))];
    the first conversion that raises ends the loop. *)
Fixpoint convert_items (items : list (string * Azure.DocumentField))
  : outcome (list ExtractedField) :=
  match items with
  | [] => Ret []
  | (field_name, field) :: rest =>
      match _convert_field field_name field 1 with
      | Ret extracted =>
          match convert_items rest with
          | Ret more => Ret (extracted :: more)
          | Raise e => Raise e
          end
      | Raise e => Raise e
      end
  end.

Fixpoint convert_documents (docs : list Azure.AnalyzedDocument) : outcome (list ExtractedField) :=
  match docs with
  | [] => Ret []
  | doc :: rest =>
      match convert_items (default [] (Azure.fields doc)) with
      | Ret here =>
          match convert_documents rest with
          | Ret more => Ret (here ++ more)%list
          | Raise e => Raise e
          end
      | Raise e => Raise e
      end
  end.

(** The [text_line] field of a line of a page. *)
Definition line_field (page : Azure.DocumentPage) (line : Azure.DocumentLine) : ExtractedField :=
  {| field_name := "text_line";
     value := Some (Azure.line_content line);
     Schemas.confidence := 1.0;
     bounding_box := None;
     Schemas.page_number := Some (Azure.page_number page) |}.

Definition page_fields (pages : list Azure.DocumentPage) : list ExtractedField :=
  List.concat
    (List.map (fun page => List.map (line_field page) (default [] (Azure.lines page))) pages).

(** [f"table_{table_idx}"] *)
Definition table_name (table_idx : nat) : string :=
  "table_" +:+ NilEmpty.string_of_uint (Nat.to_uint table_idx).

Definition table_fields (tables : list Azure.DocumentTable) : list ExtractedField :=
  List.map
    (fun '(table_idx, table) =>
       mkField (table_name table_idx) (Some (table_str (Azure.cells table))) 1.0)
    (List.combine (List.seq 0 (length tables)) tables).

(** [extract] from the point where the service has answered: [analysis] is
    the result of [poller.result()], or the exception of the call, which the
    handler logs and raises again. *)
Definition extract (analysis : outcome Azure.AnalyzeResult)
  : outcome (list ExtractedField * Azure.AnalyzeResult) :=
  match analysis with
  | Raise e => Raise e
  | Ret result =>
      match convert_documents (default [] (Azure.documents result)) with
      | Raise e => Raise e
      | Ret from_documents =>
          Ret ((from_documents
                ++ page_fields (default [] (Azure.pages result))
                ++ table_fields (default [] (Azure.tables result)))%list,
               result)
      end
  end.

End WithFormats.

End Extractor.

(* ===================================================================== *)
(** ** What a pattern matches *)
(* ===================================================================== *)

(** The texts a pattern of [Re] stands for, stated without a matching
    order: [Re.match_here] is compared with it. *)
Module ReSpec.

Import Re.

(** Every character of [s] is in the class. *)
Fixpoint all_in (cls : ascii -> bool) (s : string) : bool :=
  match s with
  | EmptyString => true
  | String c s' => cls c && all_in cls s'
  end.

Definition within (hi : option nat) (n : nat) : Prop :=
  match hi with
  | Some h => (n <= h)%nat
  | None => True
  end.

(** [matches atoms s groups rest]: the atoms match a prefix of [s], capture
    [groups] and leave [rest]. *)
Fixpoint matches (atoms : list atom) (s : string) (groups : list string) (rest : string) : Prop :=
  match atoms with
  | [] => groups = [] /\ rest = s
  | OptLit lit :: atoms' =>
      (exists s', s = lit +:+ s' /\ matches atoms' s' groups rest)
      \/ matches atoms' s groups rest
  | Rep cls lo hi :: atoms' =>
      exists m s',
        s = m +:+ s' /\ all_in cls m = true
        /\ (lo <= String.length m)%nat /\ within hi (String.length m)
        /\ matches atoms' s' groups rest
  | Capture cls lo hi :: atoms' =>
      exists m s' groups',
        s = m +:+ s' /\ all_in cls m = true
        /\ (lo <= String.length m)%nat /\ within hi (String.length m)
        /\ groups = m :: groups' /\ matches atoms' s' groups' rest
  end.

End ReSpec.

(** The shape of a MICR line, as [MICR_PATTERN] reads it. *)
Module MicrShape.

Import ChequeProcessor.

(** Only digits, between [lo] and [hi] of them. *)
Definition digit_string (lo hi : nat) (s : string) : Prop :=
  ReSpec.all_in Py.isdigit s = true /\ (lo <= String.length s <= hi)%nat.

(** Only white space, possibly none. *)
Definition blank (s : string) : Prop := ReSpec.all_in Py.isspace s = true.

(** The symbol [lit], or nothing. *)
Definition optional (lit o : string) : Prop := o = "" \/ o = lit.

(** [s] starts with a cheque number [c], a routing code [r] and an account
    number [a], each possibly wrapped in its MICR symbol and separated by
    white space, and goes on with [rest]. *)
Definition micr_shaped (s c r a rest : string) : Prop :=
  exists o1 o2 w1 o3 o4 w2,
    s = o1 +:+ c +:+ o2 +:+ w1 +:+ o3 +:+ r +:+ o4 +:+ w2 +:+ a +:+ rest
    /\ optional u2446 o1 /\ digit_string 6 6 c /\ optional u2446 o2 /\ blank w1
    /\ optional u2447 o3 /\ digit_string 9 9 r /\ optional u2447 o4 /\ blank w2
    /\ digit_string 6 12 a.

End MicrShape.

(* ===================================================================== *)
(** ** The validator's score in exact arithmetic *)
(* ===================================================================== *)

(** The increments of [validate_kyc] in hundredths, in the order of the six
    checks, and the clamped sum over the checks that failed: the score as
    decimal arithmetic without rounding gives it. *)
Module ExactScore.

Definition increments : list Z := [15; 10; 50; 30; 25; 10]%Z.

Fixpoint failed_sum (results : list bool) (weights : list Z) : Z :=
  match results, weights with
  | ok :: results', w :: weights' => ((if ok then 0 else w) + failed_sum results' weights')%Z
  | _, _ => 0%Z
  end.

Definition hundredths (results : list bool) : Z := Z.min 100 (failed_sum results increments).

End ExactScore.

(* ===================================================================== *)
(** ** services/kyc_processor.py: the form result *)
(* ===================================================================== *)

Module KYCForm.

Import KYCProcessor.

(** One entry of [id_documents]. *)
Record id_document := {
  doc_type : option string;
  doc_number : option string;
  doc_expiry : option string;
}.

Record KYCFormResult := {
  customer_name : option ExtractedField;
  date_of_birth : option ExtractedField;
  nationality : option ExtractedField;
  occupation : option ExtractedField;
  employer : option ExtractedField;
  annual_income : option ExtractedField;
  source_of_funds : option ExtractedField;
  purpose_of_account : option ExtractedField;
  politically_exposed : option ExtractedField;
  risk_rating : option string;
  id_documents : list id_document;
}.

(** The answers that stand for no answer. *)
Definition placeholders : list string := ["null"; "none"; "n/a"; ""].

Definition _make_field (field_name : string) (value : option string) : option ExtractedField :=
  match value with
  | Some v =>
      if Py.truthy value && negb (Py.in_list (Py.lower v) placeholders)
      then Some (mkField field_name value 0.85)
      else None
  | None => None
  end.

(** [kyc_data.get(key, default)]: the default only for a missing key. *)
Definition dict_get_default (kyc_data : gmap string (option string)) (key default : string)
  : option string :=
  match kyc_data !! key with
  | Some v => v
  | None => Some default
  end.

(** ["\n".join(f.value for f in extracted_fields if f.value and f.field_name == "text_line")] *)
Definition full_text (extracted_fields : list ExtractedField) : string :=
  Py.join (String (ascii_of_nat 10) EmptyString)
    (List.map (fun f => Py.or_empty (value f))
       (List.filter (fun f => Py.truthy (value f) && String.eqb (field_name f) "text_line")
          extracted_fields)).

Section WithModel.

(** The chat completion on the document text, parsed by [json.loads]: the
    JSON object of the reply (texts and nulls), or the exception of the call
    or of the parse. *)
Variable completion : string -> outcome (gmap string (option string)).

Definition _extract_with_gpt (document_text : string) : gmap string (option string) :=
  match completion document_text with
  | Ret kyc_data => kyc_data
  | Raise _ => ∅
  end.

Definition process (extracted_fields : list ExtractedField) : KYCFormResult :=
  let kyc_data := _extract_with_gpt (full_text extracted_fields) in
  {| customer_name := _make_field "customer_name" (dict_get kyc_data "customer_name");
     date_of_birth := _make_field "date_of_birth" (dict_get kyc_data "date_of_birth");
     nationality := _make_field "nationality" (dict_get kyc_data "nationality");
     occupation := _make_field "occupation" (dict_get kyc_data "occupation");
     employer := _make_field "employer" (dict_get kyc_data "employer");
     annual_income := _make_field "annual_income" (dict_get kyc_data "annual_income");
     source_of_funds := _make_field "source_of_funds" (dict_get kyc_data "source_of_funds");
     purpose_of_account :=
       _make_field "purpose_of_account" (dict_get kyc_data "purpose_of_account");
     politically_exposed :=
       _make_field "politically_exposed" (dict_get kyc_data "politically_exposed");
     risk_rating := Some (_calculate_risk_rating kyc_data);
     id_documents :=
       if Py.truthy (dict_get kyc_data "id_type") || Py.truthy (dict_get kyc_data "id_number")
       then [{| doc_type := dict_get_default kyc_data "id_type" "Unknown";
                doc_number := dict_get_default kyc_data "id_number" "";
                doc_expiry := dict_get_default kyc_data "id_expiry" "" |}]
       else [] |}.

End WithModel.

End KYCForm.

(** The pre-screen score in tenths, as decimal arithmetic without rounding
    gives it, and the rating of a number of tenths. *)
Module ExactPrescreen.



End ExactPrescreen.

(** What the form result holds when nothing was extracted. *)
Definition empty_form (rating : string) : KYCForm.KYCFormResult :=
  {| KYCForm.customer_name := None; KYCForm.date_of_birth := None;
     KYCForm.nationality := None; KYCForm.occupation := None;
     KYCForm.employer := None; KYCForm.annual_income := None;
     KYCForm.source_of_funds := None; KYCForm.purpose_of_account := None;
     KYCForm.politically_exposed := None;
     KYCForm.risk_rating := Some rating;
     KYCForm.id_documents := [] |}.

(** An answer that [_make_field] drops although it is not empty. *)
Definition placeholder (v : string) : bool := Py.in_list (Py.lower v) ["null"; "none"; "n/a"].

(** A result of the layout model and the texts of its lines. *)
Module Samples.

Definition newline : string := String (ascii_of_nat 10) EmptyString.

Definition line (text : string) : Azure.DocumentLine :=
  {| Azure.line_content := text; Azure.line_polygon := None |}.

Definition cheque_page : Azure.DocumentPage :=
  {| Azure.page_number := 1;
     Azure.lines := Some [line "Pay: Ahmed Ali or bearer"; line ""; line Examples.micr_line];
     Azure.height := None;
     Azure.width := None |}.

Definition layout_result : Azure.AnalyzeResult :=
  {| Azure.documents := None;
     Azure.pages := Some [cheque_page];
     Azure.tables := Some [{| Azure.cells := [] |}] |}.

(** A date field as the identity-document model returns it. *)
Definition expiry_field : Azure.DocumentField :=
  Azure.Field None None
    (Some {| Datetime.year := 2030; Datetime.month := 1; Datetime.day := 31 |})
    None (Some "31 JAN 2030") (Some 0.98%float) None None None.

Definition text_field (text : string) (confidence : float) : Azure.DocumentField :=
  Azure.Field (Some text) None None None (Some text) (Some confidence) None None None.


(** An invoice as the invoice model returns it: three amounts, no layout. *)
Definition invoice_result : Azure.AnalyzeResult :=
  {| Azure.documents :=
       Some [{| Azure.fields :=
                  Some [("SubTotal", text_field "100.00" 0.97);
                        ("TotalTax", text_field "5.00" 0.95);
                        ("InvoiceTotal", text_field "110.00" 0.99)] |}];
     Azure.pages := None;
     Azure.tables := None |}.

(** What [extract] returns on it. *)
Definition invoice_fields : list ExtractedField * Azure.AnalyzeResult :=
  ([{| field_name := "SubTotal"; value := Some "100.00"; confidence := 0.97;
       bounding_box := None; page_number := Some 1%Z |};
    {| field_name := "TotalTax"; value := Some "5.00"; confidence := 0.95;
       bounding_box := None; page_number := Some 1%Z |};
    {| field_name := "InvoiceTotal"; value := Some "110.00"; confidence := 0.99;
       bounding_box := None; page_number := Some 1%Z |}],
   invoice_result).

End Samples.

(** The texts of the lines of a result, page after page. *)
Definition line_texts (result : Azure.AnalyzeResult) : list string :=
  List.concat
    (List.map (fun page => List.map Azure.line_content (default [] (Azure.lines page)))
       (default [] (Azure.pages result))).

Definition nonempty (s : string) : bool := negb (String.eqb s "").

(** A field that [extract] makes of a line or of a table. *)
Definition layout_field (f : ExtractedField) : Prop :=
  (field_name f = "text_line" \/ String.prefix "table_" (field_name f) = true)
  /\ confidence f = 1.0%float.

(** A confidence that the models accept: not below 0.0 and not above 1.0. *)
Definition in_unit_range (c : float) : Prop :=
  PrimFloat.ltb c 0.0 = false /\ PrimFloat.ltb 1.0 c = false.

(* ===================================================================== *)
(** ** services/invoice_processor.py: the invoice result *)
(* ===================================================================== *)

Module InvoiceForm.

Import InvoiceProcessor.

(** The [if]/[elif] chain of [_extract_line_items]: what a key of a line
    item gets from its field, if anything. *)
Definition item_entry (val : Azure.DocumentField) : option item_value :=
  let after_number :=
    match Azure.value_currency val with
    | Some c => Some (INum (Azure.amount c))
    | None =>
        if Py.truthy (Azure.content val) then option_map IStr (Azure.content val) else None
    end in
  if Py.truthy (Azure.value_string val) then option_map IStr (Azure.value_string val)
  else
    match Azure.value_number val with
    | Some x => if Extractor.float_truthy x then Some (INum x) else after_number
    | None => after_number
    end.

(** [line_item = {}; for key, val in item.value_object.items(): ...] *)
Definition line_item (object : list (string * Azure.DocumentField)) : gmap string item_value :=
  fold_left
    (fun line_item '(key, val) =>
       match item_entry val with
       | Some v => <[key := v]> line_item
       | None => line_item
       end)
    object ∅.

(** [doc.fields.get("Items") if doc.fields else None] *)
Definition items_field (doc : Azure.AnalyzedDocument) : option Azure.DocumentField :=
  match Azure.fields doc with
  | Some fields =>
      option_map snd (List.find (fun '(key, _) => String.eqb key "Items") fields)
  | None => None
  end.

Definition document_items (doc : Azure.AnalyzedDocument) : list (gmap string item_value) :=
  match items_field doc with
  | Some field =>
      List.concat
        (List.map
           (fun item =>
              match Azure.value_object item with
              | Some ((_ :: _) as object) => [line_item object]
              | _ => []
              end)
           (default [] (Azure.value_array field)))
  | None => []
  end.

(** A result object of the service is truthy; [None] stands for no result. *)
Definition _extract_line_items (raw_result : option Azure.AnalyzeResult)
  : list (gmap string item_value) :=
  match raw_result with
  | Some result =>
      List.concat (List.map document_items (default [] (Azure.documents result)))
  | None => []
  end.

Section WithFloat.

Variable py_float : string -> option float.
Variable format_float : float -> string.

(** [process], with the warnings logged before and after the call. *)
Definition process (extracted_fields : list ExtractedField) (raw_result : option Azure.AnalyzeResult)
    (logged : list log_record) : outcome InvoiceResult * list log_record :=
  let field_map := build_field_map extracted_fields in
  let result :=
    {| vendor_name := field_map !! "VendorName";
       vendor_address := field_map !! "VendorAddress";
       invoice_number := field_map !! "InvoiceId";
       invoice_date := field_map !! "InvoiceDate";
       due_date := field_map !! "DueDate";
       subtotal := field_map !! "SubTotal";
       tax_amount := field_map !! "TotalTax";
       total_amount := field_map !! "InvoiceTotal";
       currency := field_map !! "CurrencyCode";
       purchase_order := field_map !! "PurchaseOrder";
       line_items := _extract_line_items raw_result |} in
  match _validate_totals py_float format_float {| result := result; logged := logged |} with
  | (Ret _, st) => (Ret (InvoiceProcessor.result st), InvoiceProcessor.logged st)
  | (Raise e, st) => (Raise e, InvoiceProcessor.logged st)
  end.

End WithFloat.

End InvoiceForm.

(** The last field of a list under a name. *)
Definition last_named (name : string) (fields : list ExtractedField) : option ExtractedField :=
  List.find (fun f => String.eqb (field_name f) name) (rev fields).

(** An invoice with one line item, and the items read from it. *)
Module InvoiceSamples.

Definition first_item : list (string * Azure.DocumentField) :=
  [("Description", Samples.text_field "Consulting" 0.93);
   ("Quantity", Azure.Field None (Some 0%float) None None (Some "0") (Some 0.9%float)
                  None None None);
   ("Amount",
    Azure.Field None None None
      (Some {| Azure.symbol := Some "$"; Azure.amount := 100 |})
      (Some "$100.00") (Some 0.95%float) None None None)].

Definition itemised_invoice : Azure.AnalyzeResult :=
  {| Azure.documents :=
       Some [{| Azure.fields :=
                  Some [("Items",
                         Azure.Field None None None None None (Some 0.9%float) None
                           (Some [Azure.Field None None None None None None None None
                                    (Some first_item)])
                           None)] |}];
     Azure.pages := None;
     Azure.tables := None |}.

End InvoiceSamples.

(* ===================================================================== *)
(** ** pathlib: the suffix of a file name *)
(* ===================================================================== *)

(** [Path(filename).suffix] on a POSIX path. *)
Module Pathlib.

(** [s.split(sep)] for a one-character separator. *)
Fixpoint split (sep : ascii) (s : string) : list string :=
  match s with
  | EmptyString => [EmptyString]
  | String c s' =>
      if Ascii.eqb c sep then EmptyString :: split sep s'
      else match split sep s' with
           | x :: rest => String c x :: rest
           | [] => [String c EmptyString]
           end
  end.

(** The final component: the last part between slashes that is neither
    empty nor a single period; the empty text when there is none. *)
Definition name (path : string) : string :=
  List.last
    (List.filter (fun x => negb (String.eqb x "") && negb (String.eqb x "."))
       (split "/" path))
    "".

(** [s.rfind(".")], when the character occurs. *)
Fixpoint rfind_dot (s : string) : option nat :=
  match s with
  | EmptyString => None
  | String c s' =>
      match rfind_dot s' with
      | Some i => Some (S i)
      | None => if Ascii.eqb c "." then Some O else None
      end
  end.

(** [i = name.rfind('.'); name[i:] if 0 < i < len(name) - 1 else ''] *)
Definition suffix (path : string) : string :=
  let name := name path in
  match rfind_dot name with
  | Some i =>
      if ((0 <? i)%nat && (i <? String.length name - 1)%nat)%bool then Re.drop i name else ""
  | None => ""
  end.

End Pathlib.

(* ===================================================================== *)
(** ** utils/helpers.py, config.py and the classifier's media types *)
(* ===================================================================== *)

Module Helpers.

(** [s.lstrip(".")] *)
Fixpoint lstrip_dots (s : string) : string :=
  match s with
  | String c s' => if Ascii.eqb c "." then lstrip_dots s' else s
  | EmptyString => EmptyString
  end.

Definition validate_file_extension (filename : string) (allowed : list string) : bool :=
  let ext := lstrip_dots (Py.lower (Pathlib.suffix filename)) in
  Py.in_list ext allowed.

(** [get_file_size_mb(file_bytes) > max_file_size_mb]: the size is the
    quotient of the length by 2^20, which binary64 holds exactly for every
    length below 2^53, so that the comparison is the one of the integers. *)
Definition exceeds_size (file_bytes : list Byte.byte) (max_file_size_mb : Z) : bool :=
  (max_file_size_mb * 1048576 <? Z.of_nat (length file_bytes))%Z.

(** [Settings.allowed_extensions_list] *)
Definition allowed_extensions_list (allowed_extensions : string) : list string :=
  List.map (fun ext => Py.lower (Py.strip ext)) (Pathlib.split "," allowed_extensions).

(** The default of [Settings.allowed_extensions]. *)
Definition default_allowed_extensions : string := "pdf,png,jpg,jpeg,tiff,bmp".

Definition media_types : list (string * string) :=
  [(".pdf", "application/pdf");
   (".png", "image/png");
   (".jpg", "image/jpeg");
   (".jpeg", "image/jpeg");
   (".tiff", "image/tiff");
   (".bmp", "image/bmp")].

(** [DocumentClassifier._get_media_type] *)
Definition _get_media_type (filename : string) : string :=
  let ext := Py.lower (Pathlib.suffix filename) in
  match List.find (fun '(key, _) => String.eqb key ext) media_types with
  | Some (_, media_type) => media_type
  | None => "application/octet-stream"
  end.

(** [s.endswith(suffix)] *)
Fixpoint endswith (s suffix : string) : bool :=
  String.eqb s suffix
  || match s with
     | EmptyString => false
     | String _ s' => endswith s' suffix
     end.

End Helpers.

(* ===================================================================== *)
(** ** routers/documents.py *)
(* ===================================================================== *)

Module Router.

Inductive DocumentType :=
| INVOICE | CHEQUE | ID_CARD | KYC_FORM | TRADE_FINANCE | RECEIPT | BANK_STATEMENT | UNKNOWN.

(** [doc_type.value] *)
Definition DocumentType_value (t : DocumentType) : string :=
  match t with
  | INVOICE => "invoice"
  | CHEQUE => "cheque"
  | ID_CARD => "id_card"
  | KYC_FORM => "kyc_form"
  | TRADE_FINANCE => "trade_finance"
  | RECEIPT => "receipt"
  | BANK_STATEMENT => "bank_statement"
  | UNKNOWN => "unknown"
  end.

(** [DocumentType(s)]: the member of that value, [ValueError] when there
    is none. *)
Definition DocumentType_of (s : string) : outcome DocumentType :=
  match List.find (fun t => String.eqb (DocumentType_value t) s)
          [INVOICE; CHEQUE; ID_CARD; KYC_FORM; TRADE_FINANCE; RECEIPT; BANK_STATEMENT; UNKNOWN]
  with
  | Some t => Ret t
  | None => Raise ValueError
  end.

(** [MODEL_MAPPING.get(document_type, "prebuilt-layout")] of the extractor. *)
Definition model_id (t : DocumentType) : string :=
  match t with
  | INVOICE => "prebuilt-invoice"
  | RECEIPT => "prebuilt-receipt"
  | ID_CARD => "prebuilt-idDocument"
  | CHEQUE | KYC_FORM | TRADE_FINANCE | BANK_STATEMENT | UNKNOWN => "prebuilt-layout"
  end.

Inductive ProcessingStatus :=
| PENDING | CLASSIFYING | EXTRACTING | VALIDATING | COMPLETED | FAILED | NEEDS_REVIEW.

Inductive extraction :=
| OfInvoice (r : InvoiceResult)
| OfCheque (r : ChequeResult)
| OfKYCForm (r : KYCForm.KYCFormResult).

(** The response, without [created_at] and [raw_text], which the router
    leaves at their defaults. *)
Record DocumentProcessResponse := {
  document_id : string;
  status : ProcessingStatus;
  document_type : DocumentType;
  classification_confidence : float;
  extracted_fields : list ExtractedField;
  extraction_result : option extraction;
  validation : option ValidationResult;
  processing_time_ms : float;
  pages_processed : nat;
  needs_human_review : bool;
  review_reason : option string;
}.

(** [DocumentProcessResponse(...)]: the model checks the bounds [ge=0.0]
    and [le=1.0] of the classification confidence and raises
    [ValidationError], a [ValueError], on one below 0.0 or above 1.0. *)
Definition new_DocumentProcessResponse (r : DocumentProcessResponse)
  : outcome DocumentProcessResponse :=
  if PrimFloat.ltb (classification_confidence r) 0.0
     || PrimFloat.ltb 1.0 (classification_confidence r)
  then Raise ValueError else Ret r.

Record UploadFile := {
  filename : option string;
  content_type : option string;
  read : outcome (list Byte.byte);
}.

(** What a call can raise: [HTTPException], or one of the other exceptions. *)
Inductive raised :=
| HTTPException (status_code : Z) (detail : string)
| Exception (e : exn).

Inductive result (A : Type) :=
| Returned (a : A)
| Raised (r : raised).
Arguments Returned {A} a.
Arguments Raised {A} r.

Definition and_then {A B} (m : result A) (k : A -> result B) : result B :=
  match m with
  | Returned a => k a
  | Raised r => Raised r
  end.

Definition of_outcome {A} (o : outcome A) : result A :=
  match o with
  | Ret a => Returned a
  | Raise e => Raised (Exception e)
  end.

Notation "'let*' x := m 'in' k" := (and_then m (fun x => k))
  (at level 10, x pattern, m at level 100, k at level 200).

(** The settings, the clock and the services behind the router. *)
Record Services := {
  allowed_extensions : string;
  max_file_size_mb : Z;
  confidence_threshold : float;
  today : Datetime.date;
  (** [classifier.classify], which handles every exception itself *)
  classify : list Byte.byte -> string -> DocumentType * float * string;
  preprocess_cheque : list Byte.byte -> outcome (list Byte.byte);
  preprocess_id_card : list Byte.byte -> outcome (list Byte.byte);
  preprocess_form : list Byte.byte -> outcome (list Byte.byte);
  (** [begin_analyze_document(model_id=.., ..).result()] *)
  analyze : string -> list Byte.byte -> outcome Azure.AnalyzeResult;
  _extract_amount_figures : string -> option ExtractedField;
  _extract_amount_words : string -> option ExtractedField;
  _extract_date : string -> option ExtractedField;
  _extract_payee : string -> option ExtractedField;
  _detect_signature_region : Azure.AnalyzeResult -> bool;
  completion : string -> outcome (gmap string (option string));
  save_result : DocumentProcessResponse -> outcome string;
  py_float : string -> option float;
  format_2f : float -> string;
  format_float : float -> string;
  table_str : list Azure.DocumentTableCell -> string;
  (** [str(e)], [f"{allowed}"] and the text on the size of a file *)
  exception_str : exn -> string;
  list_repr : list string -> string;
  size_detail : list Byte.byte -> Z -> string;
  (** [round((time.time() - start_time) * 1000, 2)] at the two places *)
  completed_ms : float;
  failed_ms : float;
}.

Section WithServices.

Variable sv : Services.

Definition image_suffixes : list string := [".png"; ".jpg"; ".jpeg"; ".tiff"; ".bmp"].

(** Step 7: the review status from the gate and the validation. *)
Definition review_status (confidence_ok : bool) (low_fields : list string)
    (validation_result : option ValidationResult) : bool * option string :=
  if negb confidence_ok
  then (true, Some ("Low confidence fields: " +:+ Py.join ", " low_fields))
  else
    match validation_result with
    | Some v =>
        match Schemas.status v with
        | PASSED => (false, None)
        | _ => (true, Some ("Validation: " +:+ recommendation v))
        end
    | None => (false, None)
    end.

(** Step 1: the file name and the bytes of a file that passes the checks. *)
Definition checked_upload (file : UploadFile) : result (string * list Byte.byte) :=
  let* name := of_outcome (match filename file with
                           | Some name => Ret name
                           | None => Raise TypeError
                           end) in
  let allowed := Helpers.allowed_extensions_list (allowed_extensions sv) in
  if negb (Helpers.validate_file_extension name allowed)
  then Raised (HTTPException 400
                 ("Unsupported file type. Allowed: " +:+ list_repr sv allowed))
  else
  let* file_bytes := of_outcome (read file) in
  if Helpers.exceeds_size file_bytes (max_file_size_mb sv)
  then Raised (HTTPException 400 (size_detail sv file_bytes (max_file_size_mb sv)))
  else Returned (name, file_bytes).

(** Step 2: the document type and the confidence of the classification. *)
Definition classification (name : string) (file_bytes : list Byte.byte)
    (document_type : option string) : result (DocumentType * float) :=
  match document_type with
  | Some (String c s) =>
      let* doc_type := of_outcome (DocumentType_of (String c s)) in
      Returned (doc_type, 1.0%float)
  | _ =>
      let '(doc_type, confidence, _) := classify sv file_bytes name in
      Returned (doc_type, confidence)
  end.

(** Step 3: the bytes sent to the analysis. *)
Definition preprocessed (file : UploadFile) (name : string) (file_bytes : list Byte.byte)
    (doc_type : DocumentType) : outcome (list Byte.byte) :=
  if Py.contains "image" (Py.or_empty (content_type file))
     || existsb (Helpers.endswith (Py.lower name)) image_suffixes
  then match doc_type with
       | CHEQUE => preprocess_cheque sv file_bytes
       | ID_CARD => preprocess_id_card sv file_bytes
       | KYC_FORM | TRADE_FINANCE => preprocess_form sv file_bytes
       | _ => Ret file_bytes
       end
  else Ret file_bytes.

(** Step 5: the processing that depends on the type. *)
Definition type_specific (doc_type : DocumentType) (extracted_fields : list ExtractedField)
    (raw_result : Azure.AnalyzeResult) : outcome (option extraction) :=
  match doc_type with
  | INVOICE =>
      match fst (InvoiceForm.process (py_float sv) (format_float sv)
                   extracted_fields (Some raw_result) []) with
      | Ret r => Ret (Some (OfInvoice r))
      | Raise e => Raise e
      end
  | CHEQUE =>
      Ret (Some (OfCheque
                   (ChequeProcessor.process Azure.AnalyzeResult
                      (_extract_amount_figures sv) (_extract_amount_words sv)
                      (_extract_date sv) (_extract_payee sv) (_detect_signature_region sv)
                      extracted_fields raw_result)))
  | KYC_FORM => Ret (Some (OfKYCForm (KYCForm.process (completion sv) extracted_fields)))
  | _ => Ret None
  end.

(** Step 6: the validation, for the two types that have one. *)
Definition validation_of (doc_type : DocumentType) (extracted_fields : list ExtractedField)
  : outcome (option ValidationResult) :=
  match doc_type with
  | KYC_FORM | ID_CARD =>
      match Validator.validate_kyc (today sv) extracted_fields (DocumentType_value doc_type) with
      | Ret v => Ret (Some v)
      | Raise e => Raise e
      end
  | _ => Ret None
  end.

(** Steps 3 to 9, on a file of a known type. *)
Definition process_classified (doc_id : string) (file : UploadFile) (name : string)
    (file_bytes : list Byte.byte) (doc_type : DocumentType) (classification_confidence : float)
  : result DocumentProcessResponse :=
  let* processed_bytes := of_outcome (preprocessed file name file_bytes doc_type) in
  let* extracted :=
    of_outcome (Extractor.extract (format_float sv) (table_str sv)
                  (analyze sv (model_id doc_type) processed_bytes)) in
  let '(extracted_fields, raw_result) := extracted in
  let* extraction_result := of_outcome (type_specific doc_type extracted_fields raw_result) in
  let '(confidence_ok, low_fields) :=
    DocumentExtractor.check_confidence (confidence_threshold sv) (format_2f sv)
      (format_float sv) extracted_fields in
  let* validation_result := of_outcome (validation_of doc_type extracted_fields) in
  let '(needs_review, review_reason) :=
    review_status confidence_ok low_fields validation_result in
  let* response :=
    of_outcome
      (new_DocumentProcessResponse
         {| document_id := doc_id;
            status := COMPLETED;
            document_type := doc_type;
            classification_confidence := classification_confidence;
            extracted_fields := extracted_fields;
            extraction_result := extraction_result;
            validation := validation_result;
            processing_time_ms := completed_ms sv;
            pages_processed :=
              match Azure.pages raw_result with
              | Some ((_ :: _) as pages) => length pages
              | _ => 1%nat
              end;
            needs_human_review := needs_review;
            review_reason := review_reason |}) in
  let* _ := of_outcome (save_result sv response) in
  Returned response.

(** The body of the [try] of [process_document]. *)
Definition try_body (doc_id : string) (file : UploadFile) (document_type : option string)
  : result DocumentProcessResponse :=
  let* upload := checked_upload file in
  let '(name, file_bytes) := upload in
  let* classified := classification name file_bytes document_type in
  let '(doc_type, classification_confidence) := classified in
  process_classified doc_id file name file_bytes doc_type classification_confidence.

(** What the handler of [except Exception] returns. *)
Definition failed_response (doc_id : string) (e : exn) : DocumentProcessResponse :=
  {| document_id := doc_id;
     status := FAILED;
     document_type := UNKNOWN;
     classification_confidence := 0.0;
     extracted_fields := [];
     extraction_result := None;
     validation := None;
     processing_time_ms := failed_ms sv;
     pages_processed := 1;
     needs_human_review := true;
     review_reason := Some ("Processing error: " +:+ exception_str sv e) |}.

(** [process_document]; [doc_id] is the identifier generated for the call. *)
Definition process_document (doc_id : string) (file : UploadFile)
    (document_type : option string) : result DocumentProcessResponse :=
  match try_body doc_id file document_type with
  | Returned response => Returned response
  | Raised (HTTPException status_code detail) => Raised (HTTPException status_code detail)
  | Raised (Exception e) => Returned (failed_response doc_id e)
  end.

End WithServices.

(** The counters of [batch_process] and the responses collected. *)
Record BatchProcessResponse := {
  total_documents : nat;
  results : list DocumentProcessResponse;
  success_count : nat;
  failure_count : nat;
  review_count : nat;
}.

Section Batch.

(** [process_document(file=file, document_type=document_type)] on the
    file of a given position. *)
Variable process : nat -> UploadFile -> result DocumentProcessResponse.

(** The body of the [for file in files] loop. *)
Definition batch_step (acc : BatchProcessResponse) (item : nat * UploadFile)
  : BatchProcessResponse :=
  match process (fst item) (snd item) with
  | Returned r =>
      {| total_documents := total_documents acc;
         results := (results acc ++ [r])%list;
         success_count :=
           match status r with
           | COMPLETED => S (success_count acc)
           | _ => success_count acc
           end;
         failure_count := failure_count acc;
         review_count :=
           if needs_human_review r then S (review_count acc) else review_count acc |}
  | Raised _ =>
      {| total_documents := total_documents acc;
         results := results acc;
         success_count := success_count acc;
         failure_count := S (failure_count acc);
         review_count := review_count acc |}
  end.

(** [batch_process], without the batch identifier and the total time. *)
Definition batch_process (files : list UploadFile) : BatchProcessResponse :=
  fold_left batch_step (List.combine (List.seq 0 (length files)) files)
    {| total_documents := length files; results := [];
       success_count := 0; failure_count := 0; review_count := 0 |}.

End Batch.

End Router.

(* ===================================================================== *)
(** ** What the router does with a file *)
(* ===================================================================== *)

(** The file is turned away: its name has no allowed extension, or its
    bytes are read and too many. *)
Definition turned_away (sv : Router.Services) (file : Router.UploadFile) : bool :=
  match Router.filename file with
  | Some name =>
      negb (Helpers.validate_file_extension name
              (Helpers.allowed_extensions_list (Router.allowed_extensions sv)))
      || match Router.read file with
         | Ret file_bytes => Helpers.exceeds_size file_bytes (Router.max_file_size_mb sv)
         | Raise _ => false
         end
  | None => false
  end.

Definition completed (r : Router.DocumentProcessResponse) : bool :=
  match Router.status r with
  | Router.COMPLETED => true
  | _ => false
  end.

Definition crashed (r : Router.DocumentProcessResponse) : bool :=
  match Router.status r with
  | Router.FAILED => true
  | _ => false
  end.

(** Services that classify every file as a KYC form and analyse it to the
    sample layout, and two uploads. *)
Module RouterSamples.

Definition services : Router.Services :=
  {| Router.allowed_extensions := Helpers.default_allowed_extensions;
     Router.max_file_size_mb := 50;
     Router.confidence_threshold := 0.85;
     Router.today := Examples.today;
     Router.classify := fun _ _ => (Router.KYC_FORM, 0.9%float, "account opening form");
     Router.preprocess_cheque := Ret;
     Router.preprocess_id_card := Ret;
     Router.preprocess_form := Ret;
     Router.analyze := fun _ _ => Ret Samples.layout_result;
     Router._extract_amount_figures := fun _ => None;
     Router._extract_amount_words := fun _ => None;
     Router._extract_date := fun _ => None;
     Router._extract_payee := fun _ => None;
     Router._detect_signature_region := fun _ => false;
     Router.completion := fun _ => Raise KeyError;
     Router.save_result := fun r => Ret (Router.document_id r);
     Router.py_float := fun _ => None;
     Router.format_2f := fun _ => "";
     Router.format_float := fun _ => "";
     Router.table_str := fun _ => "";
     Router.exception_str := fun _ => "";
     Router.list_repr := fun _ => "";
     Router.size_detail := fun _ _ => "";
     Router.completed_ms := 12.5;
     Router.failed_ms := 0.5 |}.

Definition form_upload : Router.UploadFile :=
  {| Router.filename := Some "account-opening.pdf";
     Router.content_type := Some "application/pdf";
     Router.read := Ret [] |}.

Definition script_upload : Router.UploadFile :=
  {| Router.filename := Some "form.pdf.exe";
     Router.content_type := Some "application/pdf";
     Router.read := Ret [] |}.

(** The response to the form. *)
Definition form_response : Router.DocumentProcessResponse :=
  Eval vm_compute in
    match Router.process_document services "DOC-1" form_upload None with
    | Router.Returned response => response
    | Router.Raised _ => Router.failed_response services "DOC-1" KeyError
    end.

End RouterSamples.

(* ===================================================================== *)
(** ** The validator's checks, one entry each *)
(* ===================================================================== *)

Section ValidatorFacts.

Import Datetime.
Variable today : date.

Lemma bind_records {A} (m : M Validator.Lists bool) (k : bool -> M Validator.Lists A) e st :
  m st = records e st -> bind m k st = k (passes e) (after e st).
Proof. intros H. unfold bind. rewrite H. reflexivity. Qed.

Lemma read_value_cases (fm : gmap string ExtractedField) first second :
  match Py.or_obj (fm !! first) (fm !! second) with
  | Some f =>
      match value f with
      | Some (String c v) => Entries.read_value fm first second = Some (String c v)
      | _ => Entries.read_value fm first second = None
      end
  | None => Entries.read_value fm first second = None
  end.
Proof.
  unfold Entries.read_value.
  destruct (Py.or_obj (fm !! first) (fm !! second)) as [f|]; [|reflexivity].
  destruct (value f) as [[|c v]|]; reflexivity.
Qed.

Lemma completeness_records fm st :
  Validator._check_field_completeness fm st = records (Entries.completeness fm) st.
Proof.
  unfold Validator._check_field_completeness, Entries.completeness.
  fold (Entries.missing_fields fm).
  destruct (Entries.missing_fields fm); reflexivity.
Qed.

Lemma strptime_raises_ValueError text fmt e :
  strptime text fmt = Raise e -> e = ValueError.
Proof.
  unfold strptime.
  destruct (re_match fmt text _) as [[d [|c r]]|]; try congruence.
  destruct (_ && _)%bool; congruence.
Qed.

Lemma try_formats_records text fmts st :
  Validator.try_formats today text fmts st
  = records (Entries.expiry_entry today text (Entries.first_parse text fmts)) st.
Proof.
  induction fmts as [|fmt rest IH]; [reflexivity|].
  cbn [Validator.try_formats Entries.first_parse].
  unfold try_except, bind, lift.
  destruct (strptime text fmt) as [d|e] eqn:E.
  - cbn [Entries.expiry_entry]. destruct (date_ltb d today); reflexivity.
  - apply strptime_raises_ValueError in E. subst e. cbn [is_ValueError]. exact IH.
Qed.

Lemma id_validity_records fm st :
  Validator._check_id_validity today fm st = records (Entries.id_validity today fm) st.
Proof.
  unfold Validator._check_id_validity, Entries.id_validity.
  pose proof (read_value_cases fm "expiry_date" "id_expiry") as H.
  destruct (Py.or_obj (fm !! "expiry_date") (fm !! "id_expiry")) as [f|].
  - destruct (value f) as [[|c v]|]; rewrite H; try reflexivity.
    unfold try_except. fold Entries.expiry_formats.
    rewrite try_formats_records. reflexivity.
  - rewrite H. reflexivity.
Qed.

Lemma sanctions_loop_records name kws st :
  Validator.sanctions_loop name (Py.lower name) kws st
  = records (if existsb (fun k => Py.contains (Py.lower k) (Py.lower name)) kws
             then Fails ("SANCTIONS MATCH: " +:+ name) (Some "SANCTIONS_HIT")
             else Passes "Sanctions screening: CLEAR") st.
Proof.
  induction kws as [|k rest IH]; [reflexivity|].
  cbn [Validator.sanctions_loop existsb].
  destruct (Py.contains (Py.lower k) (Py.lower name)); [reflexivity|exact IH].
Qed.

Lemma sanctions_records fm st :
  Validator._check_sanctions fm st = records (Entries.sanctions fm) st.
Proof.
  unfold Validator._check_sanctions, Entries.sanctions.
  pose proof (read_value_cases fm "customer_name" "full_name") as H.
  destruct (Py.or_obj (fm !! "customer_name") (fm !! "full_name")) as [f|].
  - destruct (value f) as [[|c v]|]; rewrite H; try reflexivity.
    apply sanctions_loop_records.
  - rewrite H. reflexivity.
Qed.

Lemma jurisdiction_records fm st :
  Validator._check_jurisdiction fm st = records (Entries.jurisdiction fm) st.
Proof.
  unfold Validator._check_jurisdiction, Entries.jurisdiction.
  pose proof (read_value_cases fm "nationality" "nationality") as H.
  assert (Hor : Py.or_obj (fm !! "nationality") (fm !! "nationality") = fm !! "nationality")
    by (destruct (fm !! "nationality"); reflexivity).
  rewrite Hor in H.
  destruct (fm !! "nationality") as [f|].
  - destruct (value f) as [[|c v]|]; rewrite H; try reflexivity.
    cbv zeta.
    destruct (Py.in_list _ Validator.FATF_HIGH_RISK); [reflexivity|].
    destruct (Py.in_list _ Validator.FATF_INCREASED_MONITORING); reflexivity.
  - rewrite H. reflexivity.
Qed.

Lemma pep_status_records fm st :
  Validator._check_pep_status fm st = records (Entries.pep_status fm) st.
Proof.
  unfold Validator._check_pep_status, Entries.pep_status.
  pose proof (read_value_cases fm "politically_exposed" "politically_exposed") as H.
  assert (Hor : Py.or_obj (fm !! "politically_exposed") (fm !! "politically_exposed")
                = fm !! "politically_exposed")
    by (destruct (fm !! "politically_exposed"); reflexivity).
  rewrite Hor in H.
  destruct (fm !! "politically_exposed") as [f|].
  - destruct (value f) as [[|c v]|]; rewrite H; try reflexivity.
    unfold Entries.pep_truthy.
    destruct (Py.in_list _ _); reflexivity.
  - rewrite H. reflexivity.
Qed.

Lemma confidence_levels_records fields st :
  Validator._check_confidence_levels fields st = records (Entries.confidence_levels fields) st.
Proof.
  unfold Validator._check_confidence_levels, Entries.confidence_levels.
  change (fun f : ExtractedField =>
            (PrimFloat.ltb (confidence f) 0.80
             && Py.in_list (field_name f) Validator.REQUIRED_KYC_FIELDS)%bool)
    with Entries.low_confidence.
  destruct (List.filter Entries.low_confidence fields); reflexivity.
Qed.

(** [validate_kyc] returns, and its result is the six entries recorded in
    order on empty lists, with the clamped score of the six verdicts. *)
Lemma validate_kyc_entries fields document_type :
  Validator.validate_kyc today fields document_type
  = let fm := build_field_map fields in
    let e1 := Entries.completeness fm in
    let e2 := Entries.id_validity today fm in
    let e3 := Entries.sanctions fm in
    let e4 := Entries.jurisdiction fm in
    let e5 := Entries.pep_status fm in
    let e6 := Entries.confidence_levels fields in
    Ret (finish (clamped_score (passes e1) (passes e2) (passes e3)
                               (passes e4) (passes e5) (passes e6))
                (after e6 (after e5 (after e4 (after e3 (after e2 (after e1 empty_lists))))))).
Proof.
  cbv zeta. unfold Validator.validate_kyc, Validator.validate_kyc_body.
  cbv zeta.
  rewrite (bind_records _ _ _ _ (completeness_records _ _)).
  rewrite (bind_records _ _ _ _ (id_validity_records _ _)).
  rewrite (bind_records _ _ _ _ (sanctions_records _ _)).
  rewrite (bind_records _ _ _ _ (jurisdiction_records _ _)).
  rewrite (bind_records _ _ _ _ (pep_status_records _ _)).
  rewrite (bind_records _ _ _ _ (confidence_levels_records _ _)).
  unfold bind, get, ret, finish, clamped_score, empty_lists. cbn [fst snd].
  destruct (Validator.failed _); [reflexivity|].
  destruct (PrimFloat.leb 0.5 _); reflexivity.
Qed.

End ValidatorFacts.

(* ===================================================================== *)
(** ** The lists after a run of entries *)
(* ===================================================================== *)

Lemma lists_after_entries (es : list entry) (st : Validator.Lists) :
  let st' := fold_left (fun st e => after e st) es st in
  Validator.passed st' = (Validator.passed st ++ List.map entry_msg (List.filter passes es))%list
  /\ Validator.failed st' = (Validator.failed st ++ List.map entry_msg (List.filter fails es))%list
  /\ Validator.flags st' = (Validator.flags st ++ List.concat (List.map entry_flags es))%list.
Proof.
  revert st. induction es as [|e es IH]; intros st; cbn [fold_left].
  - cbn. rewrite !app_nil_r. auto.
  - destruct (IH (after e st)) as (Hp & Hf & Hfl). cbv zeta.
    rewrite Hp, Hf, Hfl. clear.
    destruct e as [m|m [f|]]; cbn; rewrite <- ?app_assoc, ?app_nil_r; auto.
Qed.

Lemma flagged_entry_fails (es : list entry) :
  List.concat (List.map entry_flags es) <> [] -> List.filter fails es <> [].
Proof.
  induction es as [|e es IH]; cbn; [congruence|].
  destruct e as [m|m fl]; cbn; [exact IH|discriminate].
Qed.

Lemma partition_length (es : list entry) :
  (length (List.filter passes es) + length (List.filter fails es) = length es)%nat.
Proof.
  induction es as [|e es IH]; [reflexivity|].
  unfold fails in *. cbn. destruct (passes e); cbn; lia.
Qed.

Lemma records_appends_one (check : M Validator.Lists bool) :
  (forall st, exists e, check st = records e st) -> appends_exactly_one check.
Proof.
  intros H st. destruct (H st) as [e He]. exists (entry_msg e). rewrite He.
  destruct e as [m|m [f|]]; cbn.
  - left. reflexivity.
  - right. exists [f]. split; [cbn; lia|reflexivity].
  - right. exists []. split; [cbn; lia|]. unfold records. cbn. rewrite app_nil_r. reflexivity.
Qed.

Lemma clamped_score_bounds b1 b2 b3 b4 b5 b6 :
  PrimFloat.leb 0 (clamped_score b1 b2 b3 b4 b5 b6) = true
  /\ PrimFloat.leb (clamped_score b1 b2 b3 b4 b5 b6) 1 = true.
Proof.
  destruct b1, b2, b3, b4, b5, b6; vm_compute; split; reflexivity.
Qed.

(** The result of a call, list by list. *)
Lemma validate_kyc_lists today fields document_type :
  exists r,
    Validator.validate_kyc today fields document_type = Ret r
    /\ checks_passed r = List.map entry_msg (List.filter passes (Entries.all today fields))
    /\ checks_failed r = List.map entry_msg (List.filter fails (Entries.all today fields))
    /\ flags r = List.concat (List.map entry_flags (Entries.all today fields))
    /\ risk_score r =
         match List.map passes (Entries.all today fields) with
         | [b1; b2; b3; b4; b5; b6] => clamped_score b1 b2 b3 b4 b5 b6
         | _ => 0%float
         end
    /\ r = finish (risk_score r)
             {| Validator.passed := checks_passed r;
                Validator.failed := checks_failed r;
                Validator.flags := flags r |}.
Proof.
  rewrite validate_kyc_entries. cbv zeta.
  eexists. split; [reflexivity|].
  pose proof (lists_after_entries (Entries.all today fields) empty_lists) as H.
  cbv zeta in H. unfold Entries.all in H at 1 2 3. cbn [fold_left] in H.
  destruct H as (Hp & Hf & Hfl). cbn [Validator.passed Validator.failed Validator.flags empty_lists app] in *.
  unfold finish at 1 2 3 4.
  cbn [checks_passed checks_failed flags risk_score].
  repeat split; assumption.
Qed.

(* ===================================================================== *)
(** ** Float comparisons *)
(* ===================================================================== *)



(* ===================================================================== *)
(** ** Properties of [validate_kyc] *)
(* ===================================================================== *)

(** C1: [validate_kyc] returns a result whose status is [passed] exactly
    when [checks_failed] is empty, with the approval recommendation; when
    [checks_failed] is not empty the status is [failed] with the
    reject-and-escalate recommendation if [risk_score >= 0.5], and
    [needs_manual_review] with the review recommendation otherwise. *)
Theorem validate_kyc_verdict today fields document_type :
  exists r,
    Validator.validate_kyc today fields document_type = Ret r
    /\ (status r = PASSED <-> checks_failed r = [])
    /\ match checks_failed r with
       | [] =>
           status r = PASSED
           /\ recommendation r = "APPROVED — All compliance checks passed."
       | _ :: _ =>
           if PrimFloat.leb 0.5 (risk_score r)
           then status r = FAILED
                /\ recommendation r
                   = "REJECT — High-risk indicators detected. Escalate to compliance."
           else status r = NEEDS_MANUAL_REVIEW
                /\ recommendation r
                   = "REVIEW — Some checks failed. Manual review required by compliance officer."
       end.
Proof.
  destruct (validate_kyc_lists today fields document_type) as (r & Hr & _ & _ & _ & _ & Hfin).
  exists r. split; [exact Hr|].
  rewrite Hfin. unfold finish.
  cbn [status checks_failed risk_score recommendation Validator.failed].
  destruct (checks_failed r) as [|m ms].
  - repeat split; reflexivity.
  - destruct (PrimFloat.leb 0.5 (risk_score r)); repeat split; congruence.
Qed.

Lemma validate_kyc_verdict_witness :
  exists r,
    Validator.validate_kyc Examples.today Examples.everything_fails "kyc_form" = Ret r
    /\ status r = FAILED
    /\ recommendation r = "REJECT — High-risk indicators detected. Escalate to compliance.".
Proof.
  destruct (validate_kyc_verdict Examples.today Examples.everything_fails "kyc_form")
    as (r & Hr & _ & Hv).
  exists r. split; [exact Hr|].
  rewrite validate_kyc_entries in Hr. injection Hr as <-.
  exact Hv.
Defined.

(** C2: the [risk_score] of every result of [validate_kyc] lies in [0, 1].
    It is the clamped sum of the deltas of the failed checks; once
    sanctions, jurisdiction and PEP fail together the result is 1.0 whatever
    the other checks do, and the unclamped sum of all six deltas, about
    1.4, is above 1. *)
Theorem validate_kyc_risk_score_bounds today fields document_type :
  exists r,
    Validator.validate_kyc today fields document_type = Ret r
    /\ PrimFloat.leb 0 (risk_score r) = true
    /\ PrimFloat.leb (risk_score r) 1 = true
    /\ (let fm := build_field_map fields in
        risk_score r
        = clamped_score (passes (Entries.completeness fm))
                        (passes (Entries.id_validity today fm))
                        (passes (Entries.sanctions fm))
                        (passes (Entries.jurisdiction fm))
                        (passes (Entries.pep_status fm))
                        (passes (Entries.confidence_levels fields)))
    /\ (forall b1 b2 b6, clamped_score b1 b2 false false false b6 = 1%float)
    /\ (0 + 0.15 + 0.1 + 0.5 + 0.3 + 0.25 + 0.1 = 1.4000000000000001)%float
    /\ (exists r', Validator.validate_kyc Examples.today Examples.everything_fails document_type
                   = Ret r'
                   /\ checks_passed r' = [] /\ risk_score r' = 1%float).
Proof.
  destruct (validate_kyc_lists today fields document_type) as (r & Hr & _ & _ & _ & Hrs & _).
  exists r. split; [exact Hr|].
  cbn [Entries.all List.map] in Hrs. rewrite Hrs.
  split; [apply clamped_score_bounds|].
  split; [apply clamped_score_bounds|].
  split; [reflexivity|].
  split; [intros [] [] []; vm_compute; reflexivity|].
  split; [vm_compute; reflexivity|].
  rewrite validate_kyc_entries.
  eexists. split; [reflexivity|]. split; vm_compute; reflexivity.
Qed.

(** C5: in every result of [validate_kyc] the two lists together hold
    exactly six entries: each of the six checks appends exactly one line, to
    [checks_passed] when it passes or skips and to [checks_failed] when it
    fails, and never to both. *)
Theorem validate_kyc_six_entries today fields document_type :
  (exists r,
     Validator.validate_kyc today fields document_type = Ret r
     /\ (length (checks_passed r) + length (checks_failed r) = 6)%nat
     /\ checks_passed r = List.map entry_msg (List.filter passes (Entries.all today fields))
     /\ checks_failed r = List.map entry_msg (List.filter fails (Entries.all today fields)))
  /\ (forall fm,
        appends_exactly_one (Validator._check_field_completeness fm)
        /\ appends_exactly_one (Validator._check_id_validity today fm)
        /\ appends_exactly_one (Validator._check_sanctions fm)
        /\ appends_exactly_one (Validator._check_jurisdiction fm)
        /\ appends_exactly_one (Validator._check_pep_status fm))
  /\ appends_exactly_one (Validator._check_confidence_levels fields).
Proof.
  split.
  - destruct (validate_kyc_lists today fields document_type) as (r & Hr & Hp & Hf & _).
    exists r. split; [exact Hr|]. split; [|split; assumption].
    rewrite Hp, Hf, !length_map, partition_length. reflexivity.
  - split; [intros fm; repeat split|]; apply records_appends_one; intros st; eexists.
    + apply completeness_records.
    + apply id_validity_records.
    + apply sanctions_records.
    + apply jurisdiction_records.
    + apply pep_status_records.
    + apply confidence_levels_records.
Qed.

Lemma completeness_no_flag fm : entry_flags (Entries.completeness fm) = [].
Proof. unfold Entries.completeness. destruct (Entries.missing_fields fm); reflexivity. Qed.

Lemma id_validity_no_flag today fm : entry_flags (Entries.id_validity today fm) = [].
Proof.
  unfold Entries.id_validity, Entries.expiry_entry.
  destruct (Entries.read_value _ _ _); [|reflexivity].
  destruct (Entries.first_parse _ _) as [d|]; [|reflexivity].
  destruct (Datetime.date_ltb d today); reflexivity.
Qed.

Lemma confidence_levels_no_flag fields : entry_flags (Entries.confidence_levels fields) = [].
Proof. unfold Entries.confidence_levels. destruct (List.filter _ fields); reflexivity. Qed.

Lemma sanctions_flag fm :
  entry_flags (Entries.sanctions fm) = [] \/ entry_flags (Entries.sanctions fm) = ["SANCTIONS_HIT"].
Proof.
  unfold Entries.sanctions. destruct (Entries.read_value _ _ _) as [name|]; [|left; reflexivity].
  destruct (Entries.sanctions_hit name); [right|left]; reflexivity.
Qed.

Lemma jurisdiction_flag fm :
  entry_flags (Entries.jurisdiction fm) = []
  \/ entry_flags (Entries.jurisdiction fm) = ["FATF_HIGH_RISK"]
  \/ entry_flags (Entries.jurisdiction fm) = ["FATF_MONITORING"].
Proof.
  unfold Entries.jurisdiction. destruct (Entries.read_value _ _ _) as [text|]; [|left; reflexivity].
  cbv zeta. destruct (Py.in_list _ Validator.FATF_HIGH_RISK); [right; left; reflexivity|].
  destruct (Py.in_list _ Validator.FATF_INCREASED_MONITORING);
    [right; right|left]; reflexivity.
Qed.

Lemma pep_status_flag fm :
  entry_flags (Entries.pep_status fm) = [] \/ entry_flags (Entries.pep_status fm) = ["PEP_IDENTIFIED"].
Proof.
  unfold Entries.pep_status. destruct (Entries.read_value _ _ _) as [text|]; [|left; reflexivity].
  destruct (Entries.pep_truthy text); [right|left]; reflexivity.
Qed.

(** C10: the flags of every result of [validate_kyc] are among
    SANCTIONS_HIT, FATF_HIGH_RISK, FATF_MONITORING and PEP_IDENTIFIED, each at
    most once; the two FATF flags never occur together; and a flag is only
    ever emitted along with an entry in [checks_failed]. *)
Theorem validate_kyc_flags today fields document_type :
  exists r,
    Validator.validate_kyc today fields document_type = Ret r
    /\ incl (flags r) ["SANCTIONS_HIT"; "FATF_HIGH_RISK"; "FATF_MONITORING"; "PEP_IDENTIFIED"]
    /\ List.NoDup (flags r)
    /\ ~ (In "FATF_HIGH_RISK" (flags r) /\ In "FATF_MONITORING" (flags r))
    /\ (flags r <> [] -> checks_failed r <> [])
    /\ (length (flags r) <= length (checks_failed r))%nat.
Proof.
  destruct (validate_kyc_lists today fields document_type) as (r & Hr & _ & Hf & Hfl & _).
  exists r. split; [exact Hr|].
  assert (Hlen : forall es, (length (List.concat (List.map entry_flags es))
                             <= length (List.map entry_msg (List.filter fails es)))%nat).
  { induction es as [|e es IH]; [cbn; lia|].
    destruct e as [m|m [f|]]; cbn in *; lia. }
  assert (Hne : flags r <> [] -> checks_failed r <> []).
  { rewrite Hfl, Hf. intros H E. apply (flagged_entry_fails _ H).
    destruct (List.filter fails _); [reflexivity|discriminate]. }
  assert (Hle : (length (flags r) <= length (checks_failed r))%nat).
  { rewrite Hfl, Hf. apply Hlen. }
  clear Hlen. revert Hne Hle. generalize (checks_failed r). intros cf Hne Hle.
  revert Hne Hle. rewrite Hfl. clear Hfl Hf Hr.
  cbn [Entries.all List.map List.concat].
  rewrite completeness_no_flag, id_validity_no_flag, confidence_levels_no_flag.
  destruct (sanctions_flag (build_field_map fields)) as [-> | ->];
    destruct (jurisdiction_flag (build_field_map fields)) as [-> | [-> | ->]];
    destruct (pep_status_flag (build_field_map fields)) as [-> | ->];
    cbn [app]; intros Hne Hle;
    (split; [intros x Hx; cbn in *; tauto|]);
    (split; [repeat (constructor; cbn); intuition discriminate|]);
    (split; [cbn; intuition discriminate|]);
    (split; assumption).
Qed.

Lemma validate_kyc_flags_witness :
  exists r,
    Validator.validate_kyc Examples.today Examples.everything_fails "kyc_form" = Ret r
    /\ flags r = ["SANCTIONS_HIT"; "FATF_HIGH_RISK"; "PEP_IDENTIFIED"]
    /\ checks_failed r <> [].
Proof.
  destruct (validate_kyc_flags Examples.today Examples.everything_fails "kyc_form")
    as (r & Hr & _ & _ & _ & Hne & _).
  exists r. split; [exact Hr|].
  rewrite validate_kyc_entries in Hr. injection Hr as <-.
  split; [reflexivity|].
  apply Hne. discriminate.
Defined.

Lemma in_list_In x l : Py.in_list x l = true <-> In x l.
Proof.
  unfold Py.in_list. rewrite existsb_exists. split.
  - intros (y & Hy & E). apply String.eqb_eq in E. subst. exact Hy.
  - intros H. exists x. split; [exact H|apply String.eqb_refl].
Qed.






(* ===================================================================== *)
(** ** The ID-validity check *)
(* ===================================================================== *)





(* ===================================================================== *)
(** ** The KYC pre-screen *)
(* ===================================================================== *)

Lemma occupation_loop_once occupation occs rs :
  KYCProcessor.occupation_loop occupation occs rs
  = if existsb (fun occ => Py.contains occ occupation) occs then (rs + 0.3)%float else rs.
Proof.
  induction occs as [|occ rest IH]; [reflexivity|].
  cbn. destruct (Py.contains occ occupation); [reflexivity|exact IH].
Qed.

Lemma penalty_loop_count {A} (p : A -> bool) (d : float) (l : list A) (rs : float) :
  fold_left (fun rs x => if p x then (rs + d)%float else rs) l rs
  = Nat.iter (length (List.filter p l)) (fun rs => (rs + d)%float) rs.
Proof.
  revert rs. induction l as [|x l IH]; intros rs; [reflexivity|].
  cbn [fold_left List.filter]. rewrite IH. destruct (p x); [|reflexivity].
  cbn [length]. rewrite Nat.iter_succ_r. reflexivity.
Qed.


(* ===================================================================== *)
(** ** The confidence gate *)
(* ===================================================================== *)

Lemma collect_loop {A B} (p : A -> bool) (g : A -> B) (l : list A) (acc : list B) :
  fold_left (fun acc x => if p x then (acc ++ [g x])%list else acc) l acc
  = (acc ++ List.map g (List.filter p l))%list.
Proof.
  revert acc. induction l as [|x l IH]; intros acc; cbn [fold_left List.filter List.map].
  - rewrite app_nil_r. reflexivity.
  - rewrite IH. destruct (p x); [|reflexivity].
    cbn [List.map]. rewrite <- app_assoc. reflexivity.
Qed.

(** C9: [check_confidence] returns the descriptions of exactly the fields
    that are not named [text_line] and whose confidence is below the
    threshold, one each and in input order, and [all_ok] is true exactly when
    there is none; [text_line] fields never contribute, whatever their
    confidence. *)
Theorem check_confidence_spec threshold format_2f format_float fields :
  let low f := (PrimFloat.ltb (confidence f) threshold
                && negb (String.eqb (field_name f) "text_line"))%bool in
  let res := DocumentExtractor.check_confidence threshold format_2f format_float fields in
  snd res
  = List.map (DocumentExtractor.low_confidence_entry threshold format_2f format_float)
      (List.filter low fields)
  /\ (fst res = true <-> snd res = [])
  /\ length (snd res) = length (List.filter low fields)
  /\ res = DocumentExtractor.check_confidence threshold format_2f format_float
             (List.filter (fun f => negb (String.eqb (field_name f) "text_line")) fields).
Proof.
  intros low res.
  assert (H : forall l,
             DocumentExtractor.check_confidence threshold format_2f format_float l
             = (Nat.eqb (length (List.filter low l)) 0,
                List.map (DocumentExtractor.low_confidence_entry threshold format_2f format_float)
                  (List.filter low l))).
  { intros l. unfold DocumentExtractor.check_confidence.
    rewrite (collect_loop low). cbn [app]. rewrite length_map. reflexivity. }
  subst res. rewrite !H. cbn [fst snd].
  split; [reflexivity|].
  split.
  { destruct (List.filter low fields); cbn; split; congruence. }
  split; [apply length_map|].
  assert (E : List.filter low (List.filter
                (fun f => negb (String.eqb (field_name f) "text_line")) fields)
              = List.filter low fields).
  { clear H. induction fields as [|f l IH]; [reflexivity|].
    cbn [List.filter]. unfold low at 2.
    destruct (String.eqb (field_name f) "text_line") eqn:E.
    - rewrite andb_false_r. cbn [negb]. exact IH.
    - cbn [negb List.filter]. unfold low at 1. rewrite E, IH. reflexivity. }
  rewrite E. reflexivity.
Qed.

(* ===================================================================== *)
(** ** The invoice totals cross-check *)
(* ===================================================================== *)

(** C8: [_validate_totals] returns normally and leaves the invoice result as
    it was, on every input. When subtotal, tax and total are all present and
    their values parse once commas and dollar signs are removed, a difference
    above 0.01 between subtotal + tax and total produces one logged warning
    and nothing else; when a field is absent, has no value, or does not
    parse, nothing is logged. *)
Theorem validate_totals_frame py_float format_float st :
  let inv := InvoiceProcessor.result st in
  let amount := InvoiceProcessor.parsed_amount py_float in
  InvoiceProcessor._validate_totals py_float format_float st
  = (Ret tt,
     {| InvoiceProcessor.result := InvoiceProcessor.result st;
        InvoiceProcessor.logged :=
          (InvoiceProcessor.logged st
           ++ match subtotal inv, tax_amount inv, total_amount inv with
              | Some _, Some _, Some _ =>
                  match amount (subtotal inv), amount (tax_amount inv),
                        amount (total_amount inv) with
                  | Some s, Some t, Some tot =>
                      if InvoiceProcessor.totals_mismatch s t tot
                      then [InvoiceProcessor.Warning
                              (InvoiceProcessor.mismatch_message format_float
                                 s t (s + t)%float tot)]
                      else []
                  | _, _, _ => []
                  end
              | _, _, _ => []
              end)%list |})
  /\ InvoiceProcessor.totals_mismatch 100 5 105 = false
  /\ InvoiceProcessor.totals_mismatch 100 5 110 = true.
Proof.
  cbv zeta. split; [|split; vm_compute; reflexivity].
  destruct st as [inv lg]. cbn [InvoiceProcessor.result InvoiceProcessor.logged].
  unfold InvoiceProcessor._validate_totals, try_except, bind, get.
  cbn [InvoiceProcessor.result InvoiceProcessor.logged].
  destruct (subtotal inv) as [fs|]; [|cbn; rewrite app_nil_r; reflexivity].
  destruct (tax_amount inv) as [ft|]; [|cbn; rewrite app_nil_r; reflexivity].
  destruct (total_amount inv) as [ftot|]; [|cbn; rewrite app_nil_r; reflexivity].
  unfold InvoiceProcessor.amount_of, InvoiceProcessor.cleaned, InvoiceProcessor.float_of_str,
    InvoiceProcessor.parsed_amount, InvoiceProcessor.totals_mismatch,
    InvoiceProcessor.logger_warning, bind, lift, modify, ret.
  destruct (value fs) as [vs|]; [|cbn; rewrite app_nil_r; reflexivity].
  destruct (py_float _) as [s|]; [|cbn; rewrite app_nil_r; reflexivity].
  destruct (value ft) as [vt|]; [|cbn; rewrite app_nil_r; reflexivity].
  destruct (py_float _) as [t|]; [|cbn; rewrite app_nil_r; reflexivity].
  destruct (value ftot) as [vtot|]; [|cbn; rewrite app_nil_r; reflexivity].
  destruct (py_float _) as [tot|]; [|cbn; rewrite app_nil_r; reflexivity].
  destruct (PrimFloat.ltb _ _); cbn; rewrite ?app_nil_r; reflexivity.
Qed.

(* ===================================================================== *)
(** ** The MICR extractor *)
(* ===================================================================== *)

















(* ===================================================================== *)
(** ** The field map *)
(* ===================================================================== *)

Lemma find_app {A} (p : A -> bool) (l1 l2 : list A) :
  List.find p (l1 ++ l2)
  = match List.find p l1 with Some x => Some x | None => List.find p l2 end.
Proof.
  induction l1 as [|x l1 IH]; [reflexivity|].
  cbn. destruct (p x); [reflexivity|exact IH].
Qed.

Lemma fold_insert_lookup (fields : list ExtractedField) (m : gmap string ExtractedField) name :
  fold_left (fun m f => <[field_name f := f]> m) fields m !! name
  = match List.find (fun f => String.eqb (field_name f) name) (rev fields) with
    | Some f => Some f
    | None => m !! name
    end.
Proof.
  revert m. induction fields as [|x l IH]; intros m; [reflexivity|].
  cbn [fold_left rev]. rewrite IH, find_app. cbn [List.find].
  destruct (List.find _ (rev l)); [reflexivity|].
  destruct (String.eqb (field_name x) name) eqn:E.
  - apply String.eqb_eq in E. subst. apply lookup_insert_eq.
  - apply String.eqb_neq in E. apply lookup_insert_ne. exact E.
Qed.

Lemma build_field_map_find (fields : list ExtractedField) (name : string) :
  build_field_map fields !! name
  = List.find (fun f => String.eqb (field_name f) name) (rev fields).
Proof.
  unfold build_field_map. rewrite fold_insert_lookup, lookup_empty.
  destruct (List.find _ _); reflexivity.
Qed.

Lemma build_field_map_absent (fields : list ExtractedField) (name : string) :
  (forall f, In f fields -> field_name f <> name) ->
  build_field_map fields !! name = None.
Proof.
  intros Hall. rewrite build_field_map_find.
  destruct (List.find _ _) as [f|] eqn:E; [|reflexivity].
  apply List.find_some in E as [Hin Heq]. apply String.eqb_eq in Heq.
  apply in_rev in Hin. destruct (Hall f Hin Heq).
Qed.

(** X1: the field map answers a name with the last field of the list that
    carries it, and with nothing when no field does; on a list without
    repeated names every field is found under its own name. *)
Theorem build_field_map_last_wins (fields : list ExtractedField) (name : string) :
  build_field_map fields !! name
  = List.find (fun f => String.eqb (field_name f) name) (rev fields)
  /\ (build_field_map fields !! name = None
      <-> forall f, In f fields -> field_name f <> name)
  /\ (forall f, build_field_map fields !! name = Some f -> In f fields /\ field_name f = name)
  /\ (List.NoDup (List.map field_name fields) ->
      forall f, In f fields -> build_field_map fields !! field_name f = Some f).
Proof.
  pose proof (build_field_map_find fields name) as H.
  split; [exact H|].
  split.
  { split; [|apply build_field_map_absent]. rewrite H.
    intros Hn f Hf E.
    assert (Hin : In f (rev fields)) by (apply in_rev; rewrite rev_involutive; exact Hf).
    pose proof (List.find_none _ _ Hn f Hin) as Hx. cbn in Hx.
    rewrite E, String.eqb_refl in Hx. discriminate Hx. }
  split.
  { rewrite H. intros f E. apply List.find_some in E as [Hin Heq].
    apply String.eqb_eq in Heq. apply in_rev in Hin. auto. }
  clear H. intros Hnd f Hf.
  unfold build_field_map. rewrite fold_insert_lookup, lookup_empty.
  assert (G : forall l, List.NoDup (List.map field_name l) -> In f l ->
                        List.find (fun g => String.eqb (field_name g) (field_name f)) l = Some f).
  { induction l as [|x l IH]; intros Hn Hi; [destruct Hi|].
    cbn in *. inversion Hn as [|? ? Hx Hl]; subst.
    destruct Hi as [->|Hi].
    - rewrite String.eqb_refl. reflexivity.
    - destruct (String.eqb (field_name x) (field_name f)) eqn:E.
      + apply String.eqb_eq in E. exfalso. apply Hx. rewrite E. apply in_map. exact Hi.
      + apply IH; assumption. }
  rewrite (G (rev fields)).
  - reflexivity.
  - rewrite map_rev. apply List.NoDup_rev. exact Hnd.
  - apply in_rev. rewrite rev_involutive. exact Hf.
Qed.

(* ===================================================================== *)
(** ** What a failing check leaves in the result *)
(* ===================================================================== *)

Lemma clamped_score_at_least b1 b2 b3 b4 b5 b6 :
  let s := clamped_score b1 b2 b3 b4 b5 b6 in
  (b1 || PrimFloat.leb 0.15 s) && (b2 || PrimFloat.leb 0.1 s) && (b3 || PrimFloat.leb 0.5 s)
  && (b4 || PrimFloat.leb 0.3 s) && (b5 || PrimFloat.leb 0.25 s) && (b6 || PrimFloat.leb 0.1 s)
  = true.
Proof. destruct b1, b2, b3, b4, b5, b6; vm_compute; reflexivity. Qed.

Lemma missing_fields_filter fm :
  Entries.missing_fields fm
  = List.filter (fun name => negb (has_value fm name)) Validator.REQUIRED_KYC_FIELDS.
Proof.
  unfold Entries.missing_fields.
  assert (G : forall l acc,
             fold_left
               (fun missing field =>
                  match fm !! field with
                  | None => (missing ++ [field])%list
                  | Some f =>
                      if negb (Py.truthy (value f)) then (missing ++ [field])%list else missing
                  end) l acc
             = (acc ++ List.filter (fun name => negb (has_value fm name)) l)%list).
  { induction l as [|x l IH]; intros acc; cbn [fold_left List.filter].
    - rewrite app_nil_r. reflexivity.
    - rewrite IH. unfold has_value at 2.
      destruct (fm !! x) as [f|]; [destruct (Py.truthy (value f))|]; cbn [negb];
        rewrite <- ?app_assoc; reflexivity. }
  apply (G _ []).
Qed.

(** The lists of a result against the six entries. *)
Lemma entry_traces today fields document_type :
  exists r,
    Validator.validate_kyc today fields document_type = Ret r
    /\ risk_score r
       = (let fm := build_field_map fields in
          clamped_score (passes (Entries.completeness fm))
                        (passes (Entries.id_validity today fm))
                        (passes (Entries.sanctions fm))
                        (passes (Entries.jurisdiction fm))
                        (passes (Entries.pep_status fm))
                        (passes (Entries.confidence_levels fields)))
    /\ (status r = PASSED <-> checks_failed r = [])
    /\ (status r = FAILED <-> checks_failed r <> [] /\ PrimFloat.leb 0.5 (risk_score r) = true)
    /\ checks_failed r = List.map entry_msg (List.filter fails (Entries.all today fields))
    /\ (status r = FAILED ->
        recommendation r = "REJECT — High-risk indicators detected. Escalate to compliance.")
    /\ forall e, In e (Entries.all today fields) ->
         if passes e then In (entry_msg e) (checks_passed r)
         else In (entry_msg e) (checks_failed r) /\ incl (entry_flags e) (flags r).
Proof.
  destruct (validate_kyc_lists today fields document_type)
    as (r & Hr & Hp & Hf & Hfl & Hrs & Hfin).
  exists r. split; [exact Hr|].
  split; [exact Hrs|].
  split.
  { rewrite Hfin. unfold finish. cbn [status checks_failed Validator.failed].
    destruct (checks_failed r); [split; reflexivity|].
    destruct (PrimFloat.leb 0.5 (risk_score r)); split; discriminate. }
  split.
  { rewrite Hfin at 1. unfold finish. cbn [status checks_failed Validator.failed].
    destruct (checks_failed r).
    - split; [discriminate|intros [H _]; destruct (H eq_refl)].
    - destruct (PrimFloat.leb 0.5 (risk_score r)); split; try discriminate; auto.
      intros [_ H]. discriminate H. }
  split; [exact Hf|].
  split.
  { rewrite Hfin at 1 2. unfold finish. cbn [status recommendation Validator.failed].
    destruct (checks_failed r); [discriminate|].
    destruct (PrimFloat.leb 0.5 (risk_score r)); [reflexivity|discriminate]. }
  intros e He. destruct (passes e) eqn:Ep.
  - rewrite Hp. apply in_map. apply List.filter_In. auto.
  - split.
    + rewrite Hf. apply in_map. apply List.filter_In. unfold fails. rewrite Ep. auto.
    + rewrite Hfl. intros x Hx. apply List.in_concat. exists (entry_flags e).
      split; [apply in_map; exact He|exact Hx].
Qed.

Ltac score_bound Hrs :=
  rewrite Hrs; cbv zeta;
  repeat match goal with
         | E : passes ?x = false |- context [passes ?x] => rewrite E
         end;
  match goal with
  | |- context [clamped_score ?a ?b ?c ?d ?e ?f] =>
      let H := fresh in
      pose proof (clamped_score_at_least a b c d e f) as H;
      cbv zeta in H;
      repeat (apply andb_true_iff in H; destruct H as [H ?]);
      cbn [orb] in *; assumption
  end.

(** X2: a required field that is missing or empty is reported first in
    [checks_failed], by name and in the order of the required list; the
    result is then never passed and its score is at least 0.15. *)
Theorem missing_required_fields_reported today fields document_type :
  let fm := build_field_map fields in
  let missing :=
    List.filter (fun name => negb (has_value fm name)) Validator.REQUIRED_KYC_FIELDS in
  missing <> [] ->
  exists r,
    Validator.validate_kyc today fields document_type = Ret r
    /\ hd_error (checks_failed r)
       = Some ("Missing required fields: " +:+ Py.join ", " missing)
    /\ status r <> PASSED
    /\ PrimFloat.leb 0.15 (risk_score r) = true.
Proof.
  intros fm missing Hm.
  destruct (entry_traces today fields document_type) as (r & Hr & Hrs & Hpass & _ & Hf & _ & _).
  exists r. split; [exact Hr|].
  assert (E1 : Entries.completeness fm
               = Fails ("Missing required fields: " +:+ Py.join ", " missing) None).
  { unfold Entries.completeness. rewrite missing_fields_filter. fold fm. fold missing.
    destruct missing; [destruct (Hm eq_refl)|reflexivity]. }
  assert (Hhd : hd_error (checks_failed r)
                = Some ("Missing required fields: " +:+ Py.join ", " missing)).
  { rewrite Hf. unfold Entries.all. cbv zeta. fold fm. rewrite E1. reflexivity. }
  split; [exact Hhd|].
  split.
  { intros Hs. apply Hpass in Hs. rewrite Hs in Hhd. discriminate Hhd. }
  assert (Ep : passes (Entries.completeness (build_field_map fields)) = false)
    by (fold fm; rewrite E1; reflexivity).
  score_bound Hrs.
Qed.

Lemma missing_required_fields_reported_witness :
  exists r,
    Validator.validate_kyc Examples.today Tests.missing_fields "kyc_form" = Ret r
    /\ hd_error (checks_failed r)
       = Some "Missing required fields: date_of_birth, nationality, source_of_funds, occupation"
    /\ status r <> PASSED
    /\ PrimFloat.leb 0.15 (risk_score r) = true.
Proof.
  apply (missing_required_fields_reported Examples.today Tests.missing_fields "kyc_form").
  vm_compute. discriminate.
Defined.

Lemma read_value_or_obj (fm : gmap string ExtractedField) first second f :
  Py.or_obj (fm !! first) (fm !! second) = Some f ->
  Py.truthy (value f) = true ->
  Entries.read_value fm first second = Some (Py.or_empty (value f)).
Proof.
  intros Hf Ht. unfold Entries.read_value. rewrite Hf, Ht.
  destruct (value f); [reflexivity|discriminate Ht].
Qed.

(** X3: a name that contains a sanctions keyword, whatever its case, is
    always rejected: the field screened is [customer_name], or [full_name]
    when there is no [customer_name] field; the result carries SANCTIONS_HIT,
    its status is failed and its score is at least 0.5, whatever the other
    five checks find. *)
Theorem sanctions_hit_is_rejected today fields document_type (f : ExtractedField) :
  let fm := build_field_map fields in
  Py.or_obj (fm !! "customer_name") (fm !! "full_name") = Some f ->
  Py.truthy (value f) = true ->
  existsb (fun keyword => Py.contains (Py.lower keyword) (Py.lower (Py.or_empty (value f))))
          Validator.SANCTIONS_KEYWORDS = true ->
  exists r,
    Validator.validate_kyc today fields document_type = Ret r
    /\ status r = FAILED
    /\ recommendation r = "REJECT — High-risk indicators detected. Escalate to compliance."
    /\ In "SANCTIONS_HIT" (flags r)
    /\ In ("SANCTIONS MATCH: " +:+ Py.or_empty (value f)) (checks_failed r)
    /\ PrimFloat.leb 0.5 (risk_score r) = true.
Proof.
  intros fm Hf Ht Hhit.
  destruct (entry_traces today fields document_type) as (r & Hr & Hrs & _ & Hfail & _ & Hrec & Htr).
  exists r. split; [exact Hr|].
  assert (E : Entries.sanctions fm
              = Fails ("SANCTIONS MATCH: " +:+ Py.or_empty (value f)) (Some "SANCTIONS_HIT")).
  { unfold Entries.sanctions. rewrite (read_value_or_obj _ _ _ _ Hf Ht).
    unfold Entries.sanctions_hit. rewrite Hhit. reflexivity. }
  assert (Ep : passes (Entries.sanctions (build_field_map fields)) = false)
    by (fold fm; rewrite E; reflexivity).
  specialize (Htr (Entries.sanctions fm)).
  rewrite E in Htr. cbn [passes entry_msg entry_flags] in Htr.
  destruct Htr as [Hin Hfl]; [unfold Entries.all; cbn; fold fm; rewrite E; auto|].
  assert (Hs : PrimFloat.leb 0.5 (risk_score r) = true) by score_bound Hrs.
  assert (Hst : status r = FAILED).
  { apply Hfail. split; [|exact Hs]. intros Hn. rewrite Hn in Hin. destruct Hin. }
  split; [exact Hst|].
  split; [exact (Hrec Hst)|].
  split; [apply Hfl; cbn; auto|].
  split; assumption.
Qed.

Lemma sanctions_hit_is_rejected_witness :
  exists r,
    Validator.validate_kyc Examples.today
      [mkField "full_name" (Some "Holding of SANCTIONED_ENTITY_2") 0.95] "id_card" = Ret r
    /\ status r = FAILED
    /\ In "SANCTIONS_HIT" (flags r).
Proof.
  destruct (sanctions_hit_is_rejected Examples.today
              [mkField "full_name" (Some "Holding of SANCTIONED_ENTITY_2") 0.95] "id_card"
              (mkField "full_name" (Some "Holding of SANCTIONED_ENTITY_2") 0.95)
              eq_refl eq_refl eq_refl) as (r & Hr & Hs & _ & Hf & _).
  exists r. auto.
Defined.

(** X4: a nationality on a FATF list (surrounding blanks aside) fails the
    jurisdiction check: the result carries FATF_HIGH_RISK for the high-risk
    list and FATF_MONITORING for the increased-monitoring list, never both,
    it is never passed, and its score is at least 0.3. *)
Theorem fatf_nationality_is_flagged today fields document_type (f : ExtractedField) :
  let fm := build_field_map fields in
  let country := Py.strip (Py.or_empty (value f)) in
  fm !! "nationality" = Some f ->
  Py.truthy (value f) = true ->
  In country (Validator.FATF_HIGH_RISK ++ Validator.FATF_INCREASED_MONITORING) ->
  exists r,
    Validator.validate_kyc today fields document_type = Ret r
    /\ (In country Validator.FATF_HIGH_RISK ->
        In "FATF_HIGH_RISK" (flags r) /\ ~ In "FATF_MONITORING" (flags r)
        /\ In ("FATF High-Risk Jurisdiction: " +:+ country) (checks_failed r))
    /\ (In country Validator.FATF_INCREASED_MONITORING ->
        In "FATF_MONITORING" (flags r) /\ ~ In "FATF_HIGH_RISK" (flags r)
        /\ In ("FATF Increased Monitoring: " +:+ country) (checks_failed r))
    /\ status r <> PASSED
    /\ PrimFloat.leb 0.3 (risk_score r) = true.
Proof.
  intros fm country Hf Ht Hin.
  destruct (entry_traces today fields document_type)
    as (r & Hr & Hrs & Hpass & _ & _ & _ & Htr).
  exists r. split; [exact Hr|].
  assert (Hrv : Entries.read_value fm "nationality" "nationality"
                = Some (Py.or_empty (value f))).
  { apply read_value_or_obj; [rewrite Hf; reflexivity|exact Ht]. }
  assert (Hmem : In (Entries.jurisdiction fm) (Entries.all today fields))
    by (unfold Entries.all; cbn; auto).
  specialize (Htr _ Hmem).
  assert (Hno : forall x y, In x (flags r) -> In y (flags r) ->
                            x = "FATF_HIGH_RISK" -> y = "FATF_MONITORING" -> False).
  { destruct (validate_kyc_lists today fields document_type) as (r' & Hr' & _ & _ & Hfl & _).
    rewrite Hr in Hr'. injection Hr' as <-. rewrite Hfl. clear.
    cbn [Entries.all List.map List.concat].
    rewrite completeness_no_flag, id_validity_no_flag, confidence_levels_no_flag.
    intros x y Hx Hy -> ->.
    destruct (sanctions_flag (build_field_map fields)) as [E | E]; rewrite E in *;
      destruct (jurisdiction_flag (build_field_map fields)) as [E' | [E' | E']];
      rewrite E' in *;
      destruct (pep_status_flag (build_field_map fields)) as [E'' | E'']; rewrite E'' in *;
      cbn in Hx, Hy; intuition discriminate. }
  assert (Ecases :
            (In country Validator.FATF_HIGH_RISK
             /\ Entries.jurisdiction fm
                = Fails ("FATF High-Risk Jurisdiction: " +:+ country) (Some "FATF_HIGH_RISK"))
            \/ (In country Validator.FATF_INCREASED_MONITORING
                /\ ~ In country Validator.FATF_HIGH_RISK
                /\ Entries.jurisdiction fm
                   = Fails ("FATF Increased Monitoring: " +:+ country)
                       (Some "FATF_MONITORING"))).
  { unfold Entries.jurisdiction. rewrite Hrv. cbv zeta. fold country.
    destruct (Py.in_list country Validator.FATF_HIGH_RISK) eqn:Eh.
    - left. split; [apply in_list_In; exact Eh|reflexivity].
    - right. apply in_app_or in Hin as [Hin|Hin].
      + apply in_list_In in Hin. congruence.
      + split; [exact Hin|]. split.
        * intros Hx. apply in_list_In in Hx. congruence.
        * apply in_list_In in Hin. rewrite Hin. reflexivity. }
  assert (Ep : passes (Entries.jurisdiction (build_field_map fields)) = false).
  { fold fm. destruct Ecases as [[_ E] | (_ & _ & E)]; rewrite E; reflexivity. }
  fold fm in Htr, Ep. rewrite Ep in Htr. destruct Htr as [Hmsg Hflag].
  split.
  { intros Hh. destruct Ecases as [[_ E] | (_ & Hn & _)]; [|destruct (Hn Hh)].
    rewrite E in Hmsg, Hflag. cbn in Hmsg, Hflag.
    assert (Hx : In "FATF_HIGH_RISK" (flags r)) by (apply Hflag; cbn; auto).
    repeat split; [exact Hx| |exact Hmsg].
    intros Hy. exact (Hno _ _ Hx Hy eq_refl eq_refl). }
  split.
  { intros Hm. destruct Ecases as [[Hh _] | (_ & _ & E)].
    - exfalso. clear -Hh Hm. unfold country in *.
      cbn in Hh, Hm. intuition congruence.
    - rewrite E in Hmsg, Hflag. cbn in Hmsg, Hflag.
      assert (Hx : In "FATF_MONITORING" (flags r)) by (apply Hflag; cbn; auto).
      repeat split; [exact Hx| |exact Hmsg].
      intros Hy. exact (Hno _ _ Hy Hx eq_refl eq_refl). }
  split.
  { intros Hs. apply Hpass in Hs. rewrite Hs in Hmsg. destruct Hmsg. }
  unfold fm in Ep. score_bound Hrs.
Qed.

Lemma fatf_nationality_is_flagged_witness :
  exists r,
    Validator.validate_kyc Examples.today Tests.high_risk_country "kyc_form" = Ret r
    /\ In "FATF_HIGH_RISK" (flags r)
    /\ PrimFloat.leb 0.3 (risk_score r) = true.
Proof.
  destruct (fatf_nationality_is_flagged Examples.today Tests.high_risk_country "kyc_form"
              (mkField "nationality" (Some "Iran") 0.90) eq_refl eq_refl)
    as (r & Hr & Hh & _ & _ & Hs).
  - cbn. auto.
  - exists r. split; [exact Hr|]. split; [|exact Hs].
    apply Hh. cbn. auto.
Defined.

(** X5: a [politically_exposed] answer of yes, true or 1, in any case, fails
    the PEP check: the result carries PEP_IDENTIFIED, is never passed, and
    its score is at least 0.25. *)
Theorem pep_answer_is_flagged today fields document_type (f : ExtractedField) :
  let fm := build_field_map fields in
  fm !! "politically_exposed" = Some f ->
  In (Py.lower (Py.or_empty (value f))) ["yes"; "true"; "1"] ->
  exists r,
    Validator.validate_kyc today fields document_type = Ret r
    /\ In "PEP_IDENTIFIED" (flags r)
    /\ In "Customer is a Politically Exposed Person (PEP)" (checks_failed r)
    /\ status r <> PASSED
    /\ PrimFloat.leb 0.25 (risk_score r) = true.
Proof.
  intros fm Hf Hin.
  destruct (entry_traces today fields document_type)
    as (r & Hr & Hrs & Hpass & _ & _ & _ & Htr).
  exists r. split; [exact Hr|].
  assert (Ht : Py.truthy (value f) = true).
  { destruct (value f) as [[|c v]|]; try reflexivity; cbn in Hin; intuition discriminate. }
  assert (E : Entries.pep_status fm
              = Fails "Customer is a Politically Exposed Person (PEP)" (Some "PEP_IDENTIFIED")).
  { unfold Entries.pep_status.
    rewrite (read_value_or_obj fm _ _ f) by (rewrite ?Hf; auto).
    unfold Entries.pep_truthy. apply in_list_In in Hin. rewrite Hin. reflexivity. }
  assert (Ep : passes (Entries.pep_status (build_field_map fields)) = false)
    by (fold fm; rewrite E; reflexivity).
  specialize (Htr (Entries.pep_status fm)). rewrite E in Htr.
  cbn [passes entry_msg entry_flags] in Htr.
  destruct Htr as [Hmsg Hflag]; [unfold Entries.all; cbn; fold fm; rewrite E; auto 10|].
  split; [apply Hflag; cbn; auto|].
  split; [exact Hmsg|].
  split.
  { intros Hs. apply Hpass in Hs. rewrite Hs in Hmsg. destruct Hmsg. }
  score_bound Hrs.
Qed.

Lemma pep_answer_is_flagged_witness :
  exists r,
    Validator.validate_kyc Examples.today Tests.pep_identified "kyc_form" = Ret r
    /\ In "PEP_IDENTIFIED" (flags r)
    /\ PrimFloat.leb 0.25 (risk_score r) = true.
Proof.
  destruct (pep_answer_is_flagged Examples.today Tests.pep_identified "kyc_form"
              (mkField "politically_exposed" (Some "yes") 0.90) eq_refl)
    as (r & Hr & Hf & _ & _ & Hs).
  - cbn. auto.
  - exists r. auto.
Defined.

(** X6: a field with a required name and a confidence below 0.80 fails the
    confidence check, even when a later field of the same name replaces it
    in the field map: [checks_failed] names every such field in list order,
    the result is never passed, and its score is at least 0.1. *)
Theorem low_confidence_is_reported today fields document_type (f : ExtractedField) :
  In f fields ->
  In (field_name f) Validator.REQUIRED_KYC_FIELDS ->
  PrimFloat.ltb (confidence f) 0.80 = true ->
  let low :=
    List.filter
      (fun g => PrimFloat.ltb (confidence g) 0.80
                && Py.in_list (field_name g) Validator.REQUIRED_KYC_FIELDS) fields in
  exists r,
    Validator.validate_kyc today fields document_type = Ret r
    /\ In f low
    /\ In ("Low confidence on critical fields: " +:+ Py.join ", " (List.map field_name low))
          (checks_failed r)
    /\ status r <> PASSED
    /\ PrimFloat.leb 0.1 (risk_score r) = true.
Proof.
  intros Hin Hreq Hlow low.
  destruct (entry_traces today fields document_type)
    as (r & Hr & Hrs & Hpass & _ & _ & _ & Htr).
  exists r. split; [exact Hr|].
  assert (Hf : In f low).
  { apply List.filter_In. split; [exact Hin|].
    rewrite Hlow. apply in_list_In in Hreq. rewrite Hreq. reflexivity. }
  assert (E : Entries.confidence_levels fields
              = Fails ("Low confidence on critical fields: "
                       +:+ Py.join ", " (List.map field_name low)) None).
  { unfold Entries.confidence_levels.
    change (List.filter Entries.low_confidence fields) with low.
    destruct low; [destruct Hf|reflexivity]. }
  assert (Ep : passes (Entries.confidence_levels fields) = false) by (rewrite E; reflexivity).
  specialize (Htr (Entries.confidence_levels fields)). rewrite E in Htr.
  cbn [passes entry_msg] in Htr.
  destruct Htr as [Hmsg _]; [unfold Entries.all; cbn; rewrite E; auto 10|].
  split; [exact Hf|].
  split; [exact Hmsg|].
  split.
  { intros Hs. apply Hpass in Hs. rewrite Hs in Hmsg. destruct Hmsg. }
  score_bound Hrs.
Qed.

Lemma low_confidence_is_reported_witness :
  exists r,
    Validator.validate_kyc Examples.today Tests.low_confidence "kyc_form" = Ret r
    /\ In "Low confidence on critical fields: customer_name, date_of_birth, nationality"
          (checks_failed r).
Proof.
  destruct (low_confidence_is_reported Examples.today Tests.low_confidence "kyc_form"
              (mkField "date_of_birth" (Some "1990-01-01") 0.75))
    as (r & Hr & _ & Hm & _).
  - cbn. auto.
  - cbn. auto.
  - vm_compute. reflexivity.
  - exists r. split; [exact Hr|]. exact Hm.
Defined.

Lemma sanctions_failure_is_flagged fm :
  passes (Entries.sanctions fm) = false -> entry_flags (Entries.sanctions fm) = ["SANCTIONS_HIT"].
Proof.
  unfold Entries.sanctions. destruct (Entries.read_value _ _ _) as [name|]; [|discriminate].
  destruct (Entries.sanctions_hit name); [reflexivity|discriminate].
Qed.

Lemma lone_failure_score b1 b2 b4 b5 b6 :
  (length (List.filter negb [b1; b2; b4; b5; b6]) <= 1)%nat ->
  PrimFloat.leb 0.5 (clamped_score b1 b2 true b4 b5 b6) = false.
Proof.
  destruct b1, b2, b4, b5, b6; cbn; intros H; try lia; vm_compute; reflexivity.
Qed.

(** X7: short of a sanctions hit, one failed check alone never rejects: a
    result without SANCTIONS_HIT and with at most one entry in
    [checks_failed] is passed or sent to manual review. *)
Theorem lone_failure_is_reviewed today fields document_type r :
  Validator.validate_kyc today fields document_type = Ret r ->
  ~ In "SANCTIONS_HIT" (flags r) ->
  (length (checks_failed r) <= 1)%nat ->
  status r <> FAILED
  /\ (checks_failed r <> [] -> status r = NEEDS_MANUAL_REVIEW).
Proof.
  intros Hr Hflag Hlen.
  destruct (entry_traces today fields document_type)
    as (r' & Hr' & Hrs & Hpass & Hfail & Hf & _ & Htr).
  rewrite Hr in Hr'. injection Hr' as <-.
  assert (E3 : passes (Entries.sanctions (build_field_map fields)) = true).
  { destruct (passes (Entries.sanctions (build_field_map fields))) eqn:E; [reflexivity|].
    exfalso. apply Hflag.
    specialize (Htr (Entries.sanctions (build_field_map fields))).
    rewrite E in Htr. destruct Htr as [_ Hfl]; [unfold Entries.all; cbn; auto|].
    apply Hfl. rewrite (sanctions_failure_is_flagged _ E). cbn. auto. }
  assert (Hs : PrimFloat.leb 0.5 (risk_score r) = false).
  { rewrite Hrs. cbv zeta. rewrite E3. apply lone_failure_score.
    rewrite Hf, length_map in Hlen. unfold Entries.all in Hlen. cbv zeta in Hlen.
    cbn [List.filter] in Hlen. unfold fails in Hlen. rewrite E3 in Hlen. cbn [negb] in Hlen.
    cbn [List.filter].
    repeat match goal with
           | |- context [passes ?e] => destruct (passes e)
           end; cbn in *; lia. }
  assert (Hnf : status r <> FAILED).
  { intros H. apply Hfail in H as [_ H]. congruence. }
  split; [exact Hnf|].
  intros Hne. destruct (status r) eqn:Es; try reflexivity.
  - exfalso. apply Hne. apply Hpass. reflexivity.
  - destruct (Hnf eq_refl).
  - exfalso.
    destruct (validate_kyc_lists today fields document_type) as (r' & Hr' & _ & _ & _ & _ & Hfin).
    rewrite Hr in Hr'. injection Hr' as <-.
    rewrite Hfin in Es. unfold finish in Es. cbn [status Validator.failed] in Es.
    destruct (checks_failed r); [discriminate Es|].
    destruct (PrimFloat.leb 0.5 (risk_score r)); discriminate Es.
Qed.

Lemma lone_failure_is_reviewed_witness :
  exists r,
    Validator.validate_kyc Examples.today Tests.high_risk_country "kyc_form" = Ret r
    /\ status r = NEEDS_MANUAL_REVIEW.
Proof.
  eexists. split; [rewrite validate_kyc_entries; reflexivity|].
  refine (proj2 (lone_failure_is_reviewed Examples.today Tests.high_risk_country "kyc_form"
                   _ _ _ _) _).
  - rewrite validate_kyc_entries. reflexivity.
  - vm_compute. intuition discriminate.
  - vm_compute. lia.
  - vm_compute. discriminate.
Defined.

(* ===================================================================== *)
(** ** The verdict against exact arithmetic *)
(* ===================================================================== *)

(** X8: the verdict of [validate_kyc] is the one that decimal arithmetic
    without rounding gives. With the increments 0.15, 0.10, 0.50, 0.30, 0.25
    and 0.10 of the failed checks added up exactly and capped at 1, the
    status is passed exactly when the sum is 0, needs_manual_review exactly
    when it lies strictly between 0 and 0.50, and failed exactly from 0.50
    on: the rounding of the binary floating-point score never moves a result
    across the threshold. *)
Theorem validate_kyc_verdict_exact today fields document_type :
  exists r,
    Validator.validate_kyc today fields document_type = Ret r
    /\ let h := ExactScore.hundredths (List.map passes (Entries.all today fields)) in
       (status r = PASSED <-> h = 0%Z)
       /\ (status r = NEEDS_MANUAL_REVIEW <-> (0 < h < 50)%Z)
       /\ (status r = FAILED <-> (50 <= h)%Z)
       /\ (PrimFloat.leb 0.5 (risk_score r) = true <-> (50 <= h)%Z).
Proof.
  destruct (validate_kyc_lists today fields document_type)
    as (r & Hr & _ & Hf & _ & Hrs & Hfin).
  exists r. split; [exact Hr|].
  assert (Hs : status r
               = match checks_failed r with
                 | _ :: _ => if PrimFloat.leb 0.5 (risk_score r) then FAILED
                             else NEEDS_MANUAL_REVIEW
                 | [] => PASSED
                 end) by (rewrite Hfin at 1; reflexivity).
  rewrite Hs, Hf, Hrs. clear Hs Hf Hrs Hfin Hr.
  unfold Entries.all. cbv zeta.
  destruct (Entries.completeness _), (Entries.id_validity _ _), (Entries.sanctions _),
    (Entries.jurisdiction _), (Entries.pep_status _), (Entries.confidence_levels _);
    vm_compute; repeat split; intros; try discriminate; try reflexivity; try congruence;
    try (match goal with H : _ /\ _ |- _ => destruct H end; congruence).
Qed.

(* ===================================================================== *)
(** ** The matcher against what a pattern matches *)
(* ===================================================================== *)

Lemma string_app_cons (c : ascii) (a b : string) : String c a +:+ b = String c (a +:+ b).
Proof. reflexivity. Qed.

Lemma string_app_nil_l (s : string) : "" +:+ s = s.
Proof. reflexivity. Qed.

Lemma string_app_nil_r (s : string) : s +:+ "" = s.
Proof.
  induction s as [|c s IH]; [reflexivity|]. rewrite string_app_cons. now rewrite IH.
Qed.

Lemma string_app_assoc (a b c : string) : (a +:+ b) +:+ c = a +:+ (b +:+ c).
Proof.
  induction a as [|x a IH]; [reflexivity|]. rewrite !string_app_cons. now rewrite IH.
Qed.

Lemma string_app_length (a b : string) :
  String.length (a +:+ b) = (String.length a + String.length b)%nat.
Proof.
  induction a as [|x a IH]; [reflexivity|]. rewrite string_app_cons. simpl. now rewrite IH.
Qed.

Ltac strapp := rewrite ?string_app_cons, ?string_app_nil_l, ?string_app_nil_r in *.

Lemma prefix_app (lit s : string) :
  String.prefix lit s = true <-> exists s', s = lit +:+ s'.
Proof.
  revert s. induction lit as [|c lit IH]; intros s.
  - split; [intros _; now exists s | intros _; now destruct s].
  - destruct s as [|d s]; simpl.
    + split; [discriminate | intros [s' H]; discriminate H].
    + destruct (Ascii.ascii_dec c d) as [->|Hn].
      * rewrite IH. split; intros [s' H]; exists s'.
        -- strapp. now rewrite H.
        -- strapp. now injection H.
      * split; [discriminate | intros [s' H]; strapp; injection H as H1 _; congruence].
Qed.

Lemma drop_app (lit s : string) : Re.drop (String.length lit) (lit +:+ s) = s.
Proof. induction lit as [|c lit IH]; strapp; simpl; [now destruct s | exact IH]. Qed.

Lemma rep_match_stop {R} cls (k : string -> string -> option R) (hi lo : nat) acc s r :
  (if Nat.eqb lo 0 then k acc s else None) = Some r ->
  exists m s',
    s = m +:+ s' /\ ReSpec.all_in cls m = true
    /\ (lo <= String.length m <= hi)%nat /\ k (acc +:+ m) s' = Some r.
Proof.
  destruct (Nat.eqb lo 0) eqn:E; [|discriminate]. intros Hk.
  apply Nat.eqb_eq in E. exists "", s. strapp. simpl. repeat split; auto; lia.
Qed.

Lemma rep_match_sound {R} cls (k : string -> string -> option R) hi :
  forall lo acc s r,
    Re.rep_match cls k hi lo acc s = Some r ->
    exists m s',
      s = m +:+ s' /\ ReSpec.all_in cls m = true
      /\ (lo <= String.length m <= hi)%nat /\ k (acc +:+ m) s' = Some r.
Proof.
  induction hi as [|hi IH]; intros lo acc s r H; simpl in H.
  - now apply rep_match_stop.
  - destruct s as [|c s']; [now apply rep_match_stop|].
    destruct (cls c) eqn:Ec; [|now apply rep_match_stop].
    destruct (Re.rep_match cls k hi (Nat.pred lo) (acc +:+ String c "") s') as [r'|] eqn:Eg.
    + injection H as <-. apply IH in Eg as (m & s'' & -> & Hall & Hlen & Hk).
      exists (String c m), s''. simpl. rewrite Ec, Hall.
      rewrite string_app_assoc in Hk. strapp. repeat split; auto; lia.
    + now apply rep_match_stop.
Qed.

Lemma rep_match_complete {R} cls (k : string -> string -> option R) hi :
  forall lo acc m s',
    ReSpec.all_in cls m = true ->
    (lo <= String.length m <= hi)%nat ->
    is_Some (k (acc +:+ m) s') ->
    is_Some (Re.rep_match cls k hi lo acc (m +:+ s')).
Proof.
  induction hi as [|hi IH]; intros lo acc m s' Hall Hlen Hk.
  - destruct m; [|simpl in Hlen; lia]. strapp. simpl in *.
    replace (Nat.eqb lo 0) with true by (symmetry; apply Nat.eqb_eq; lia). exact Hk.
  - destruct m as [|c m].
    + simpl in Hlen. strapp. simpl.
      replace (Nat.eqb lo 0) with true by (symmetry; apply Nat.eqb_eq; lia).
      destruct s' as [|c s'']; [exact Hk|].
      destruct (cls c); [|exact Hk].
      destruct (Re.rep_match cls k hi (Nat.pred lo) (acc +:+ String c "") s''); [eauto | exact Hk].
    + simpl in Hall. apply andb_true_iff in Hall as [Ec Hall]. simpl in Hlen.
      strapp. simpl. rewrite Ec.
      destruct (IH (Nat.pred lo) (acc +:+ String c "") m s' Hall ltac:(lia)) as [r Hr].
      { rewrite string_app_assoc. strapp. exact Hk. }
      rewrite Hr. eauto.
Qed.

Lemma within_bound hi (m s' : string) :
  ReSpec.within hi (String.length m) ->
  (String.length m <= Re.bound hi (m +:+ s'))%nat.
Proof.
  destruct hi as [h|]; simpl; [auto|]. intros _. rewrite string_app_length. lia.
Qed.

Lemma bound_within hi (s : string) n :
  (n <= Re.bound hi s)%nat -> ReSpec.within hi n.
Proof. destruct hi; simpl; auto. Qed.

(** What [match_here] returns is a match of the pattern. *)
Lemma match_here_sound atoms :
  forall s acc gs r,
    Re.match_here atoms s acc = Some (gs, r) ->
    exists g, gs = (acc ++ g)%list /\ ReSpec.matches atoms s g r.
Proof.
  induction atoms as [|a atoms IH]; intros s acc gs r H.
  - simpl in H. injection H as <- <-. exists []. rewrite app_nil_r. simpl. auto.
  - destruct a as [lit|cls lo hi|cls lo hi]; simpl in H.
    + destruct (String.prefix lit s) eqn:Ep.
      * destruct (Re.match_here atoms (Re.drop (String.length lit) s) acc) as [[gs' r']|] eqn:E1.
        -- injection H as <- <-. apply prefix_app in Ep as [s' ->].
           rewrite drop_app in E1. apply IH in E1 as (g & -> & Hm).
           exists g. split; [reflexivity|]. simpl. left. eauto.
        -- apply IH in H as (g & -> & Hm). exists g. split; [reflexivity|]. simpl. now right.
      * apply IH in H as (g & -> & Hm). exists g. split; [reflexivity|]. simpl. now right.
    + apply rep_match_sound in H as (m & s' & -> & Hall & Hlen & Hk).
      apply IH in Hk as (g & -> & Hm). exists g. split; [reflexivity|].
      simpl. exists m, s'. repeat split; auto; [lia|]. eapply bound_within. apply Hlen.
    + apply rep_match_sound in H as (m & s' & -> & Hall & Hlen & Hk).
      apply IH in Hk as (g & -> & Hm). exists (m :: g). split.
      { now rewrite <- app_assoc. }
      simpl. exists m, s', g. repeat split; auto; [lia|]. eapply bound_within. apply Hlen.
Qed.

(** Whenever the pattern has a match at the head of the text, [match_here]
    finds one. *)
Lemma match_here_complete atoms :
  forall s g r acc,
    ReSpec.matches atoms s g r -> is_Some (Re.match_here atoms s acc).
Proof.
  induction atoms as [|a atoms IH]; intros s g r acc H.
  - simpl. eauto.
  - destruct a as [lit|cls lo hi|cls lo hi]; simpl in H |- *.
    + destruct H as [(s' & -> & Hm)|Hm].
      * replace (String.prefix lit (lit +:+ s')) with true
          by (symmetry; apply prefix_app; eauto).
        rewrite drop_app. destruct (IH _ _ _ acc Hm) as [x Hx]. rewrite Hx. eauto.
      * destruct (if String.prefix lit s
                  then Re.match_here atoms (Re.drop (String.length lit) s) acc else None);
          [eauto | eapply IH, Hm].
    + destruct H as (m & s' & -> & Hall & Hlo & Hhi & Hm).
      apply rep_match_complete; auto.
      * split; [exact Hlo | now apply within_bound].
      * eapply IH, Hm.
    + destruct H as (m & s' & g' & -> & Hall & Hlo & Hhi & -> & Hm).
      apply rep_match_complete; auto.
      * split; [exact Hlo | now apply within_bound].
      * eapply IH, Hm.
Qed.

Lemma search_sound atoms text :
  forall g, Re.search atoms text = Some g ->
  exists before s r, text = before +:+ s /\ ReSpec.matches atoms s g r.
Proof.
  induction text as [|c text IH]; intros g H; simpl in H.
  - destruct (Re.match_here atoms "" []) as [[gs r]|] eqn:E; [|discriminate].
    injection H as <-. apply match_here_sound in E as (g & -> & Hm).
    exists "", "", r. strapp. auto.
  - destruct (Re.match_here atoms (String c text) []) as [[gs r]|] eqn:E.
    + injection H as <-. apply match_here_sound in E as (g & -> & Hm).
      exists "", (String c text), r. strapp. auto.
    + apply IH in H as (before & s & r & -> & Hm).
      exists (String c before), s, r. strapp. auto.
Qed.

Lemma search_complete atoms before :
  forall s g r, ReSpec.matches atoms s g r -> is_Some (Re.search atoms (before +:+ s)).
Proof.
  induction before as [|c before IH]; intros s g r Hm.
  - strapp. destruct (match_here_complete atoms s g r [] Hm) as [[gs r'] E].
    destruct s; simpl; rewrite E; eauto.
  - strapp. simpl. destruct (Re.match_here atoms (String c (before +:+ s)) []) as [[gs r']|]; [eauto|].
    eapply IH, Hm.
Qed.

(* ===================================================================== *)
(** ** The MICR extractor on any text *)
(* ===================================================================== *)

Lemma matches_optlit lit atoms s g r :
  ReSpec.matches (Re.OptLit lit :: atoms) s g r <->
  exists o s', MicrShape.optional lit o /\ s = o +:+ s' /\ ReSpec.matches atoms s' g r.
Proof.
  simpl. split.
  - intros [(s' & -> & H)|H].
    + exists lit, s'. split; [now right | auto].
    + exists "", s. split; [now left | auto].
  - intros (o & s' & [->| ->] & -> & H).
    + now right.
    + left. eauto.
Qed.

Lemma matches_rep cls lo hi atoms s g r :
  ReSpec.matches (Re.Rep cls lo hi :: atoms) s g r <->
  exists m s',
    s = m +:+ s' /\ ReSpec.all_in cls m = true
    /\ (lo <= String.length m)%nat /\ ReSpec.within hi (String.length m)
    /\ ReSpec.matches atoms s' g r.
Proof. reflexivity. Qed.

Lemma matches_capture cls lo hi atoms s g r :
  ReSpec.matches (Re.Capture cls lo hi :: atoms) s g r <->
  exists m s' g',
    s = m +:+ s' /\ ReSpec.all_in cls m = true
    /\ (lo <= String.length m)%nat /\ ReSpec.within hi (String.length m)
    /\ g = m :: g' /\ ReSpec.matches atoms s' g' r.
Proof. reflexivity. Qed.

Lemma matches_MICR_PATTERN s g rest :
  ReSpec.matches ChequeProcessor.MICR_PATTERN s g rest <->
  exists c r a, g = [c; r; a] /\ MicrShape.micr_shaped s c r a rest.
Proof.
  unfold ChequeProcessor.MICR_PATTERN, MicrShape.micr_shaped, MicrShape.digit_string,
    MicrShape.blank.
  split.
  - intros H.
    apply matches_optlit in H as (o1 & s1 & Ho1 & -> & H).
    apply matches_capture in H as (c & s2 & g2 & -> & Hc & Hc1 & Hc2 & -> & H).
    apply matches_optlit in H as (o2 & s3 & Ho2 & -> & H).
    apply matches_rep in H as (w1 & s4 & -> & Hw1 & _ & _ & H).
    apply matches_optlit in H as (o3 & s5 & Ho3 & -> & H).
    apply matches_capture in H as (r & s6 & g6 & -> & Hr & Hr1 & Hr2 & -> & H).
    apply matches_optlit in H as (o4 & s7 & Ho4 & -> & H).
    apply matches_rep in H as (w2 & s8 & -> & Hw2 & _ & _ & H).
    apply matches_capture in H as (a & s9 & g9 & -> & Ha & Ha1 & Ha2 & -> & -> & ->).
    simpl in Hc2, Hr2, Ha2.
    exists c, r, a. split; [reflexivity|].
    exists o1, o2, w1, o3, o4, w2. repeat split; auto.
  - intros (c & r & a & -> & o1 & o2 & w1 & o3 & o4 & w2 & -> & Ho1 & [Hc Hc'] & Ho2 & Hw1
            & Ho3 & [Hr Hr'] & Ho4 & Hw2 & [Ha Ha']).
    apply matches_optlit. eexists o1, _. split; [exact Ho1|]. split; [reflexivity|].
    apply matches_capture. eexists c, _, _. repeat split; auto; try (simpl; lia).
    apply matches_optlit. eexists o2, _. split; [exact Ho2|]. split; [reflexivity|].
    apply matches_rep. eexists w1, _. repeat split; auto; try (simpl; lia).
    apply matches_optlit. eexists o3, _. split; [exact Ho3|]. split; [reflexivity|].
    apply matches_capture. eexists r, _, _. repeat split; auto; try (simpl; lia).
    apply matches_optlit. eexists o4, _. split; [exact Ho4|]. split; [reflexivity|].
    apply matches_rep. eexists w2, _. repeat split; auto; try (simpl; lia).
    apply matches_capture. exists a, rest, []. repeat split; auto; simpl; lia.
Qed.

(** A match of the alternative pattern is a match of [MICR_PATTERN]. *)
Lemma alt_pattern_subsumed s g rest :
  ReSpec.matches ChequeProcessor.alt_pattern s g rest ->
  ReSpec.matches ChequeProcessor.MICR_PATTERN s g rest.
Proof.
  unfold ChequeProcessor.alt_pattern. intros H.
  apply matches_capture in H as (c & s2 & g2 & -> & Hc & Hc1 & Hc2 & -> & H).
  apply matches_rep in H as (w1 & s4 & -> & Hw1 & _ & _ & H).
  apply matches_capture in H as (r & s6 & g6 & -> & Hr & Hr1 & Hr2 & -> & H).
  apply matches_rep in H as (w2 & s8 & -> & Hw2 & _ & _ & H).
  apply matches_capture in H as (a & s9 & g9 & -> & Ha & Ha1 & Ha2 & -> & -> & ->).
  simpl in Hc2, Hr2, Ha2.
  apply matches_MICR_PATTERN. exists c, r, a. split; [reflexivity|].
  exists "", "", w1, "", "", w2. rewrite ?string_app_nil_l.
  repeat split; auto; now left.
Qed.

Lemma search_alt_pattern_subsumed text :
  Re.search ChequeProcessor.MICR_PATTERN text = None ->
  Re.search ChequeProcessor.alt_pattern text = None.
Proof.
  intros Hnone. destruct (Re.search ChequeProcessor.alt_pattern text) as [g|] eqn:E; [|reflexivity].
  apply search_sound in E as (before & s & r & -> & Hm).
  apply alt_pattern_subsumed in Hm.
  destruct (search_complete ChequeProcessor.MICR_PATTERN before s g r Hm) as [x Hx].
  congruence.
Qed.





(** X11: the alternative pattern of [_extract_micr] never decides the
    result: every text it matches is matched by [MICR_PATTERN] already, so
    that the result is always the one of the first search. *)
Theorem extract_micr_fallback_unreachable text :
  ChequeProcessor._extract_micr text
  = match Re.search ChequeProcessor.MICR_PATTERN text with
    | Some groups => Some (ChequeProcessor.micr_of_match groups)
    | None => None
    end.
Proof.
  unfold ChequeProcessor._extract_micr.
  destruct (Re.search ChequeProcessor.MICR_PATTERN text) eqn:E; [reflexivity|].
  now rewrite (search_alt_pattern_subsumed text E).
Qed.

(* ===================================================================== *)
(** ** The MICR slots of a cheque *)
(* ===================================================================== *)


(* ===================================================================== *)
(** ** The KYC pre-screen and the form result *)
(* ===================================================================== *)

Lemma risk_score_prescreen kyc_data :
  KYCProcessor._calculate_risk_score kyc_data = PrescreenSpec.prescreen_score kyc_data.
Proof.
  unfold KYCProcessor._calculate_risk_score, PrescreenSpec.prescreen_score. cbv zeta.
  rewrite occupation_loop_once.
  rewrite (penalty_loop_count
             (fun field => negb (Py.truthy (KYCProcessor.dict_get kyc_data field)))).
  reflexivity.
Qed.



(** X14: when the call of the language model or the parsing of its reply
    raises, [process] returns a form result without any field and without
    identity documents, rated "high". *)
Theorem kyc_process_extraction_failure completion extracted_fields e :
  completion (KYCForm.full_text extracted_fields) = Raise e ->
  KYCForm.process completion extracted_fields = empty_form "high".
Proof.
  intros H. unfold KYCForm.process, KYCForm._extract_with_gpt. rewrite H.
  vm_compute. reflexivity.
Qed.

Lemma kyc_process_extraction_failure_witness :
  KYCForm.process (fun _ => Raise KeyError) Tests.missing_fields = empty_form "high".
Proof.
  apply (kyc_process_extraction_failure (fun _ => Raise KeyError) Tests.missing_fields KeyError).
  reflexivity.
Defined.

Lemma lower_char_preimage c x :
  Py.lower_char c = x ->
  c = x \/ (c = ascii_of_nat (nat_of_ascii x - 32)
            /\ Py.lower_char (ascii_of_nat (nat_of_ascii x - 32)) = x).
Proof.
  intros <-. destruct c as [[] [] [] [] [] [] [] []]; vm_compute; auto.
Qed.

Lemma lower_cons_inv v c s :
  Py.lower v = String c s ->
  exists c' v', v = String c' v'
    /\ (c' = c \/ (c' = ascii_of_nat (nat_of_ascii c - 32)
                    /\ Py.lower_char (ascii_of_nat (nat_of_ascii c - 32)) = c))
    /\ Py.lower v' = s.
Proof.
  destruct v as [|c' v']; [discriminate|]. simpl. intros H. injection H as Hc Hs.
  exists c', v'. split; [reflexivity|]. split; [now apply lower_char_preimage | exact Hs].
Qed.

Lemma lower_nil_inv v : Py.lower v = "" -> v = "".
Proof. destruct v; [reflexivity | discriminate]. Qed.

(** The texts whose lower-case form is the concrete text of [H] are
    enumerated, and the goal is computed on each. *)
Ltac enumerate_lower H :=
  repeat match type of H with
         | Py.lower ?v = String _ _ =>
             let c := fresh "c" in
             let v' := fresh "v" in
             let Hc := fresh "Hc" in
             apply lower_cons_inv in H as (c & v' & -> & Hc & H);
             destruct Hc as [-> | [-> Hc]];
             [|try (vm_compute in Hc; discriminate Hc); clear Hc]
         end;
  apply lower_nil_inv in H; subst.

Lemma placeholder_cases v :
  placeholder v = true ->
  Py.lower v = "null" \/ Py.lower v = "none" \/ Py.lower v = "n/a".
Proof.
  unfold placeholder, Py.in_list. cbn [existsb]. rewrite orb_false_r.
  intros H. apply orb_true_iff in H as [H|H]; [left; now apply String.eqb_eq|].
  apply orb_true_iff in H as [H|H]; [right; left | right; right]; now apply String.eqb_eq.
Qed.

(** A placeholder is not empty, is no high-risk country and holds no
    high-risk occupation. *)
Lemma placeholder_facts name v :
  placeholder v = true ->
  Py.truthy (Some v) = true
  /\ KYCForm._make_field name (Some v) = None
  /\ Py.in_list (Py.strip v) (KYCProcessor.high_risk_countries KYCProcessor.RISK_FACTORS) = false
  /\ existsb (fun occ => Py.contains occ (Py.lower v))
       (KYCProcessor.high_risk_occupations KYCProcessor.RISK_FACTORS) = false.
Proof.
  intros H. apply placeholder_cases in H as [H|[H|H]]; enumerate_lower H;
    vm_compute; repeat split; reflexivity.
Qed.

(** X15: [_make_field] and [_calculate_risk_rating] disagree on
    placeholders. When the reply answers each of the five critical fields
    with null, none or n/a as a text, in any case, and the PEP answer is not
    yes, true or 1, the form result keeps none of the five fields, yet none
    of them counts as absent and the rating is "low". *)
Theorem kyc_placeholders_rated_low completion extracted_fields kyc_data :
  completion (KYCForm.full_text extracted_fields) = Ret kyc_data ->
  (forall field, In field KYCProcessor.critical_fields ->
     exists v, KYCProcessor.dict_get kyc_data field = Some v /\ placeholder v = true) ->
  PrescreenSpec.pep_flag kyc_data = false ->
  let result := KYCForm.process completion extracted_fields in
  KYCForm.customer_name result = None
  /\ KYCForm.date_of_birth result = None
  /\ KYCForm.nationality result = None
  /\ KYCForm.source_of_funds result = None
  /\ KYCForm.occupation result = None
  /\ KYCForm.risk_rating result = Some "low".
Proof.
  intros Hc Hall Hpep result. subst result.
  unfold KYCForm.process, KYCForm._extract_with_gpt. rewrite Hc.
  cbn [KYCForm.customer_name KYCForm.date_of_birth KYCForm.nationality
       KYCForm.source_of_funds KYCForm.occupation KYCForm.risk_rating].
  destruct (Hall "customer_name") as (v1 & E1 & P1); [cbn; tauto|].
  destruct (Hall "date_of_birth") as (v2 & E2 & P2); [cbn; tauto|].
  destruct (Hall "nationality") as (v3 & E3 & P3); [cbn; tauto|].
  destruct (Hall "source_of_funds") as (v4 & E4 & P4); [cbn; tauto|].
  destruct (Hall "occupation") as (v5 & E5 & P5); [cbn; tauto|].
  rewrite E1, E2, E3, E4, E5.
  repeat (split; [now apply placeholder_facts|]).
  f_equal. unfold KYCProcessor._calculate_risk_rating. cbv zeta.
  rewrite risk_score_prescreen. unfold PrescreenSpec.prescreen_score. cbv zeta.
  rewrite Hpep.
  unfold PrescreenSpec.nationality_high_risk, PrescreenSpec.occupation_high_risk,
    PrescreenSpec.absent_count, PrescreenSpec.absent, KYCProcessor.critical_fields.
  cbn [List.filter]. rewrite E1, E2, E3, E4, E5. cbn [Py.or_empty].
  destruct (placeholder_facts "" v1 P1) as (T1 & _).
  destruct (placeholder_facts "" v2 P2) as (T2 & _).
  destruct (placeholder_facts "" v3 P3) as (T3 & _ & N3 & _).
  destruct (placeholder_facts "" v4 P4) as (T4 & _).
  destruct (placeholder_facts "" v5 P5) as (T5 & _ & _ & O5).
  rewrite T1, T2, T3, T4, T5, N3, O5. vm_compute. reflexivity.
Qed.

Lemma kyc_placeholders_rated_low_witness :
  KYCForm.risk_rating (KYCForm.process (fun _ => Ret Tests.not_available) []) = Some "low".
Proof.
  refine (proj2 (proj2 (proj2 (proj2 (proj2
    (kyc_placeholders_rated_low (fun _ => Ret Tests.not_available) [] Tests.not_available
       eq_refl _ _)))))).
  - intros field Hf. cbn in Hf.
    destruct Hf as [<-|[<-|[<-|[<-|[<-|[]]]]]]; eexists; split; vm_compute; reflexivity.
  - vm_compute. reflexivity.
Defined.

(* ===================================================================== *)
(** ** Extraction from a layout analysis *)
(* ===================================================================== *)

Lemma page_fields_layout pages f :
  In f (Extractor.page_fields pages) -> layout_field f.
Proof.
  unfold Extractor.page_fields. intros H.
  apply List.in_concat in H as (l & Hl & Hf).
  apply List.in_map_iff in Hl as (page & <- & _).
  apply List.in_map_iff in Hf as (line & <- & _).
  split; [left|]; reflexivity.
Qed.

Lemma table_fields_layout table_str tables f :
  In f (Extractor.table_fields table_str tables) -> layout_field f.
Proof.
  unfold Extractor.table_fields. intros H.
  apply List.in_map_iff in H as ([i table] & <- & _).
  split; [right|reflexivity].
  apply prefix_app. eexists. reflexivity.
Qed.

Lemma filter_nil {A} (p : A -> bool) (l : list A) :
  (forall x, In x l -> p x = false) -> List.filter p l = [].
Proof.
  induction l as [|x l IH]; intros H; [reflexivity|].
  cbn. rewrite (H x (or_introl eq_refl)). apply IH. intros y Hy. apply H. now right.
Qed.

(** What [extract] returns on a result, given what the documents convert to. *)
Lemma extract_fields float_str table_str result from_documents :
  Extractor.convert_documents float_str (default [] (Azure.documents result))
  = Ret from_documents ->
  Extractor.extract float_str table_str (Ret result)
  = Ret ((from_documents
          ++ Extractor.page_fields (default [] (Azure.pages result))
          ++ Extractor.table_fields table_str (default [] (Azure.tables result)))%list,
         result).
Proof. intros H. unfold Extractor.extract. rewrite H. reflexivity. Qed.

Lemma check_confidence_filter threshold format_2f format_float l :
  DocumentExtractor.check_confidence threshold format_2f format_float l
  = (Nat.eqb (length (List.filter
                        (fun f => PrimFloat.ltb (confidence f) threshold
                                  && negb (String.eqb (field_name f) "text_line")) l)) 0,
     List.map (DocumentExtractor.low_confidence_entry threshold format_2f format_float)
       (List.filter
          (fun f => PrimFloat.ltb (confidence f) threshold
                    && negb (String.eqb (field_name f) "text_line")) l)).
Proof.
  unfold DocumentExtractor.check_confidence.
  rewrite (collect_loop
             (fun f => PrimFloat.ltb (confidence f) threshold
                       && negb (String.eqb (field_name f) "text_line"))).
  cbn [app]. rewrite length_map. reflexivity.
Qed.

(** X16: the lines and the tables of an analysis never lower the verdict of
    the confidence gate. With a threshold of at most 1.0, [check_confidence]
    answers on the fields of [extract] what it answers on the converted
    document fields alone; on an analysis without document fields it answers
    that all fields pass. *)
Theorem layout_fields_pass_confidence_gate
    float_str table_str threshold format_2f format_float result from_documents :
  Extractor.convert_documents float_str (default [] (Azure.documents result))
  = Ret from_documents ->
  PrimFloat.ltb 1.0 threshold = false ->
  exists fields,
    Extractor.extract float_str table_str (Ret result) = Ret (fields, result)
    /\ DocumentExtractor.check_confidence threshold format_2f format_float fields
       = DocumentExtractor.check_confidence threshold format_2f format_float from_documents
    /\ (from_documents = [] ->
        DocumentExtractor.check_confidence threshold format_2f format_float fields
        = (true, [])).
Proof.
  intros Hd Ht. eexists. split; [apply extract_fields, Hd|].
  assert (E : DocumentExtractor.check_confidence threshold format_2f format_float
                (from_documents
                 ++ Extractor.page_fields (default [] (Azure.pages result))
                 ++ Extractor.table_fields table_str (default [] (Azure.tables result)))
              = DocumentExtractor.check_confidence threshold format_2f format_float
                  from_documents).
  { rewrite !check_confidence_filter, !List.filter_app.
    rewrite (filter_nil _ (Extractor.page_fields _)), (filter_nil _ (Extractor.table_fields _ _)).
    - rewrite !app_nil_r. reflexivity.
    - intros f Hf. apply table_fields_layout in Hf as [_ Hc]. rewrite Hc, Ht. reflexivity.
    - intros f Hf. apply page_fields_layout in Hf as [_ Hc]. rewrite Hc, Ht. reflexivity. }
  split; [exact E|].
  intros ->. rewrite E. reflexivity.
Qed.

Lemma layout_fields_pass_confidence_gate_witness :
  exists fields,
    Extractor.extract (fun _ => "") (fun _ => "") (Ret Samples.layout_result)
    = Ret (fields, Samples.layout_result)
    /\ DocumentExtractor.check_confidence 0.85 (fun _ => "") (fun _ => "") fields = (true, []).
Proof.
  destruct (layout_fields_pass_confidence_gate (fun _ => "") (fun _ => "") 0.85
              (fun _ => "") (fun _ => "") Samples.layout_result [] eq_refl eq_refl)
    as (fields & He & _ & Hc).
  exists fields. split; [exact He | exact (Hc eq_refl)].
Defined.

Lemma extract_layout float_str table_str result :
  default [] (Azure.documents result) = [] ->
  exists fields,
    Extractor.extract float_str table_str (Ret result) = Ret (fields, result)
    /\ forall f, In f fields -> layout_field f.
Proof.
  intros Hd. eexists. split.
  - apply extract_fields. rewrite Hd. reflexivity.
  - intros f Hf. cbn [app] in Hf. apply in_app_or in Hf as [Hf|Hf].
    + eapply page_fields_layout, Hf.
    + eapply table_fields_layout, Hf.
Qed.

Lemma layout_field_map_absent fields name :
  (forall f, In f fields -> layout_field f) ->
  String.eqb name "text_line" = false ->
  String.prefix "table_" name = false ->
  build_field_map fields !! name = None.
Proof.
  intros Hall Hn Hp. apply build_field_map_absent. intros f Hf <-.
  destruct (Hall f Hf) as [[E|E] _].
  - rewrite E in Hn. discriminate Hn.
  - rewrite E in Hp. discriminate Hp.
Qed.

Lemma read_value_absent fm first second :
  fm !! first = None -> fm !! second = None -> Entries.read_value fm first second = None.
Proof. intros H1 H2. unfold Entries.read_value. rewrite H1, H2. reflexivity. Qed.

(** Validation of fields that all come from lines and tables. *)
Lemma layout_fields_validation today fields document_type :
  (forall f, In f fields -> layout_field f) ->
  exists r,
    Validator.validate_kyc today fields document_type = Ret r
    /\ status r = NEEDS_MANUAL_REVIEW
    /\ checks_failed r
       = ["Missing required fields: customer_name, date_of_birth, nationality, source_of_funds, occupation"]
    /\ length (checks_passed r) = 5%nat
    /\ flags r = []
    /\ risk_score r = 0.15%float.
Proof.
  intros Hl.
  destruct (validate_kyc_lists today fields document_type)
    as (r & Hr & Hp & Hf & Hfl & Hrs & Hfin).
  exists r. split; [exact Hr|].
  assert (Hs : status r
               = match checks_failed r with
                 | _ :: _ => if PrimFloat.leb 0.5 (risk_score r) then FAILED
                             else NEEDS_MANUAL_REVIEW
                 | [] => PASSED
                 end) by (rewrite Hfin at 1; reflexivity).
  assert (Habs : forall name, String.eqb name "text_line" = false ->
                   String.prefix "table_" name = false ->
                   build_field_map fields !! name = None)
    by (intros; now apply layout_field_map_absent).
  assert (E1 : Entries.completeness (build_field_map fields)
               = Fails "Missing required fields: customer_name, date_of_birth, nationality, source_of_funds, occupation" None).
  { unfold Entries.completeness, Entries.missing_fields, Validator.REQUIRED_KYC_FIELDS.
    cbn [fold_left]. rewrite !Habs by reflexivity. reflexivity. }
  assert (E2 : Entries.id_validity today (build_field_map fields)
               = Passes "ID expiry check skipped — no expiry field found").
  { unfold Entries.id_validity. rewrite read_value_absent by (apply Habs; reflexivity).
    reflexivity. }
  assert (E3 : Entries.sanctions (build_field_map fields)
               = Passes "Sanctions screening skipped — no name found").
  { unfold Entries.sanctions. rewrite read_value_absent by (apply Habs; reflexivity).
    reflexivity. }
  assert (E4 : Entries.jurisdiction (build_field_map fields)
               = Passes "Jurisdiction check skipped — no nationality found").
  { unfold Entries.jurisdiction. rewrite read_value_absent by (apply Habs; reflexivity).
    reflexivity. }
  assert (E5 : Entries.pep_status (build_field_map fields)
               = Passes "PEP check skipped — no PEP field found").
  { unfold Entries.pep_status. rewrite read_value_absent by (apply Habs; reflexivity).
    reflexivity. }
  assert (E6 : Entries.confidence_levels fields
               = Passes "All critical fields meet confidence threshold").
  { unfold Entries.confidence_levels. rewrite filter_nil; [reflexivity|].
    intros f Hin. destruct (Hl f Hin) as [_ Hc]. unfold Entries.low_confidence.
    rewrite Hc. reflexivity. }
  unfold Entries.all in Hp, Hf, Hfl, Hrs. cbv zeta in Hp, Hf, Hfl, Hrs.
  rewrite E1, E2, E3, E4, E5, E6 in Hp, Hf, Hfl, Hrs.
  rewrite Hs, Hp, Hf, Hfl, Hrs. vm_compute. repeat split; reflexivity.
Qed.

(** X17: the fields of a layout analysis hold none of the fields that the
    validator reads. On the extraction of an analysis without document
    fields, [validate_kyc] reports all five required fields missing and
    nothing else: one failed entry, five passed entries, no flag, a score of
    0.15 and the status needs_manual_review, whatever the document says. *)
Theorem layout_extraction_fails_completeness today float_str table_str result document_type :
  default [] (Azure.documents result) = [] ->
  exists fields r,
    Extractor.extract float_str table_str (Ret result) = Ret (fields, result)
    /\ Validator.validate_kyc today fields document_type = Ret r
    /\ status r = NEEDS_MANUAL_REVIEW
    /\ checks_failed r
       = ["Missing required fields: customer_name, date_of_birth, nationality, source_of_funds, occupation"]
    /\ length (checks_passed r) = 5%nat
    /\ flags r = []
    /\ risk_score r = 0.15%float.
Proof.
  intros Hd. destruct (extract_layout float_str table_str result Hd) as (fields & He & Hl).
  destruct (layout_fields_validation today fields document_type Hl) as (r & Hr).
  exists fields, r. split; [exact He | exact Hr].
Qed.

Lemma layout_extraction_fails_completeness_witness :
  exists fields r,
    Extractor.extract (fun _ => "") (fun _ => "") (Ret Samples.layout_result)
    = Ret (fields, Samples.layout_result)
    /\ Validator.validate_kyc Examples.today fields "kyc_form" = Ret r
    /\ status r = NEEDS_MANUAL_REVIEW.
Proof.
  destruct (layout_extraction_fails_completeness Examples.today (fun _ => "") (fun _ => "")
              Samples.layout_result "kyc_form" eq_refl)
    as (fields & r & He & Hr & Hs & _).
  exists fields, r. auto.
Defined.

Lemma page_fields_texts pages :
  List.map (fun f => Py.or_empty (value f))
    (List.filter (fun f => Py.truthy (value f) && String.eqb (field_name f) "text_line")
       (Extractor.page_fields pages))
  = List.filter nonempty
      (List.concat
         (List.map (fun page => List.map Azure.line_content (default [] (Azure.lines page)))
            pages)).
Proof.
  unfold Extractor.page_fields.
  induction pages as [|page pages IH]; [reflexivity|].
  cbn [List.map List.concat]. rewrite !List.filter_app, List.map_app, IH. f_equal.
  clear IH. induction (default [] (Azure.lines page)) as [|line lines IH]; [reflexivity|].
  destruct line as [[|c s] polygon]; cbn; rewrite IH; reflexivity.
Qed.

Lemma table_name_not_text_line i : String.eqb (Extractor.table_name i) "text_line" = false.
Proof.
  apply String.eqb_neq. unfold Extractor.table_name. rewrite !string_app_cons.
  discriminate.
Qed.

(** X18: the text that the cheque and the KYC processors search is the
    non-empty lines of the analysis in reading order, page after page,
    joined by newlines: tables contribute nothing, and neither do document
    fields unless one is itself named [text_line]. *)
Theorem extracted_text_content float_str table_str result from_documents :
  Extractor.convert_documents float_str (default [] (Azure.documents result))
  = Ret from_documents ->
  (forall f, In f from_documents -> field_name f <> "text_line") ->
  exists fields,
    Extractor.extract float_str table_str (Ret result) = Ret (fields, result)
    /\ ChequeProcessor._build_text_content fields
       = Py.join Samples.newline (List.filter nonempty (line_texts result))
    /\ KYCForm.full_text fields = ChequeProcessor._build_text_content fields.
Proof.
  intros Hd Hn. eexists. split; [apply extract_fields, Hd|].
  split; [|reflexivity].
  unfold ChequeProcessor._build_text_content, line_texts.
  rewrite !List.filter_app, !List.map_app, page_fields_texts.
  rewrite (filter_nil _ from_documents), (filter_nil _ (Extractor.table_fields _ _)).
  - cbn [List.map app]. rewrite app_nil_r. reflexivity.
  - intros f Hf. unfold Extractor.table_fields in Hf.
    apply List.in_map_iff in Hf as ([i table] & <- & _).
    cbn [field_name mkField]. rewrite table_name_not_text_line. apply andb_false_r.
  - intros f Hf. apply Hn in Hf. apply String.eqb_neq in Hf. rewrite Hf. apply andb_false_r.
Qed.

Lemma extracted_text_content_witness :
  exists fields,
    Extractor.extract (fun _ => "") (fun _ => "") (Ret Samples.layout_result)
    = Ret (fields, Samples.layout_result)
    /\ ChequeProcessor._build_text_content fields
       = "Pay: Ahmed Ali or bearer" +:+ Samples.newline +:+ Examples.micr_line.
Proof.
  destruct (extracted_text_content (fun _ => "") (fun _ => "") Samples.layout_result []
              eq_refl (fun f (H : In f []) => match H with end))
    as (fields & He & Ht & _).
  exists fields. split; [exact He | exact Ht].
Defined.

(* ===================================================================== *)
(** ** Dates written by the extractor and read by the validator *)
(* ===================================================================== *)

Lemma digit_char_digit k :
  (0 <= k < 10)%Z ->
  Py.isdigit (Extractor.digit_char k) = true /\ Py.digit_val (Extractor.digit_char k) = k.
Proof.
  intros H.
  assert (E : (k = 0 \/ k = 1 \/ k = 2 \/ k = 3 \/ k = 4 \/ k = 5 \/ k = 6 \/ k = 7
              \/ k = 8 \/ k = 9)%Z) by lia.
  repeat (destruct E as [->|E]; [split; reflexivity|]). subst. split; reflexivity.
Qed.

Lemma first_some_one {A B} (f : A -> option B) (x : A) :
  Datetime.first_some f [x] = f x.
Proof. cbn. destruct (f x); reflexivity. Qed.

Lemma re_match_year y fmt s acc :
  (0 <= y <= 9999)%Z ->
  Datetime.re_match (Datetime.Dir_Y :: fmt) (Extractor.four_digits y +:+ s) acc
  = Datetime.re_match fmt s (Datetime.set_part Datetime.Dir_Y y acc).
Proof.
  intros Hy. unfold Extractor.four_digits, Extractor.two_digits.
  rewrite !string_app_cons, string_app_nil_l.
  cbn [Datetime.re_match Datetime.alternatives].
  destruct (digit_char_digit (y / 1000 mod 10)) as [D3 V3]; [apply Z.mod_pos_bound; lia|].
  destruct (digit_char_digit (y / 100 mod 10)) as [D2 V2]; [apply Z.mod_pos_bound; lia|].
  destruct (digit_char_digit (y / 10 mod 10)) as [D1 V1]; [apply Z.mod_pos_bound; lia|].
  destruct (digit_char_digit (y mod 10)) as [D0 V0]; [apply Z.mod_pos_bound; lia|].
  rewrite D3, D2, D1, D0, V3, V2, V1, V0. cbn [andb].
  rewrite first_some_one.
  replace (1000 * (y / 1000 mod 10) + 100 * (y / 100 mod 10) + 10 * (y / 10 mod 10)
           + y mod 10)%Z with y; [reflexivity|].
  Z.div_mod_to_equations. lia.
Qed.

Lemma re_match_month_day y m d :
  (1 <= m <= 12)%Z -> (1 <= d <= 31)%Z ->
  Datetime.re_match
    [Datetime.Lit "-"; Datetime.Dir_m; Datetime.Lit "-"; Datetime.Dir_d]
    ("-" +:+ Extractor.two_digits m +:+ "-" +:+ Extractor.two_digits d)
    {| Datetime.year := y; Datetime.month := 1; Datetime.day := 1 |}
  = Some ({| Datetime.year := y; Datetime.month := m; Datetime.day := d |}, "").
Proof.
  intros Hm Hd.
  assert (Em : (m = 1 \/ m = 2 \/ m = 3 \/ m = 4 \/ m = 5 \/ m = 6 \/ m = 7 \/ m = 8
               \/ m = 9 \/ m = 10 \/ m = 11 \/ m = 12)%Z) by lia.
  assert (Ed : (d = 1 \/ d = 2 \/ d = 3 \/ d = 4 \/ d = 5 \/ d = 6 \/ d = 7 \/ d = 8
               \/ d = 9 \/ d = 10 \/ d = 11 \/ d = 12 \/ d = 13 \/ d = 14 \/ d = 15
               \/ d = 16 \/ d = 17 \/ d = 18 \/ d = 19 \/ d = 20 \/ d = 21 \/ d = 22
               \/ d = 23 \/ d = 24 \/ d = 25 \/ d = 26 \/ d = 27 \/ d = 28 \/ d = 29
               \/ d = 30 \/ d = 31)%Z) by lia.
  clear Hm Hd.
  repeat (destruct Em as [->|Em]);
    repeat (destruct Ed as [->|Ed]); subst; vm_compute; reflexivity.
Qed.

Lemma valid_date_bounds d :
  Extractor.valid_date d = true ->
  (1 <= Datetime.year d <= 9999)%Z /\ (1 <= Datetime.month d <= 12)%Z
  /\ (1 <= Datetime.day d <= 31)%Z
  /\ (Datetime.day d <=? Datetime.days_in_month (Datetime.year d) (Datetime.month d))%Z = true.
Proof.
  unfold Extractor.valid_date. intros H.
  repeat (apply andb_true_iff in H as [H ?]).
  assert (Datetime.days_in_month (Datetime.year d) (Datetime.month d) <= 31)%Z.
  { unfold Datetime.days_in_month.
    repeat match goal with |- context [if ?b then _ else _] => destruct b end; lia. }
  repeat split; try lia; auto.
Qed.

Lemma strptime_isoformat d :
  Extractor.valid_date d = true ->
  Datetime.strptime (Extractor.isoformat d) Datetime.fmt_Ymd = Ret d.
Proof.
  intros Hv. apply valid_date_bounds in Hv as (Hy & Hm & Hd & Hdim).
  unfold Datetime.strptime, Datetime.fmt_Ymd, Extractor.isoformat.
  rewrite re_match_year by lia. cbn [Datetime.set_part Datetime.month Datetime.day].
  rewrite re_match_month_day by assumption.
  cbn [Datetime.year Datetime.month Datetime.day]. rewrite Hdim.
  replace (1 <=? Datetime.year d)%Z with true by (symmetry; apply Z.leb_le; lia).
  destruct d; reflexivity.
Qed.

(** X19: a date of the service is written by [_convert_field] and read
    back by the validator as the same date. For a field that has a date
    value and neither a text nor a number, the converted value is the ISO
    text of the date; [strptime] with the format [%Y-%m-%d] parses that text
    back to the date, for every day of the calendar in the years 1 to 9999;
    and the ID check on such an expiry value fails exactly when the date is
    before today, never ending in "format unrecognized". *)
Theorem converted_date_round_trip float_str field d :
  Extractor.valid_date d = true ->
  Azure.value_date field = Some d ->
  Py.truthy (Azure.value_string field) = false ->
  Azure.value_number field = None ->
  Extractor.converted_value float_str field = Some (Extractor.isoformat d)
  /\ Datetime.strptime (Extractor.isoformat d) Datetime.fmt_Ymd = Ret d
  /\ forall today field_map,
       Entries.read_value field_map "expiry_date" "id_expiry" = Some (Extractor.isoformat d) ->
       Entries.id_validity today field_map
       = if Datetime.date_ltb d today
         then Fails ("ID document expired: " +:+ Extractor.isoformat d) None
         else Passes "ID document is valid and not expired".
Proof.
  intros Hv Hd Hs Hn.
  split.
  { unfold Extractor.converted_value, Extractor.value_after_number. now rewrite Hs, Hn, Hd. }
  pose proof (strptime_isoformat d Hv) as Hp.
  split; [exact Hp|].
  intros today fm Hr. unfold Entries.id_validity. rewrite Hr.
  unfold Entries.expiry_formats. cbn [Entries.first_parse]. rewrite Hp. reflexivity.
Qed.

Lemma converted_date_round_trip_witness :
  Datetime.strptime "2030-01-31" Datetime.fmt_Ymd
  = Ret {| Datetime.year := 2030; Datetime.month := 1; Datetime.day := 31 |}.
Proof.
  exact (proj1 (proj2
    (converted_date_round_trip (fun _ => "") Samples.expiry_field
       {| Datetime.year := 2030; Datetime.month := 1; Datetime.day := 31 |}
       eq_refl eq_refl eq_refl eq_refl))).
Defined.

(* ===================================================================== *)
(** ** The confidence of extracted fields *)
(* ===================================================================== *)

Lemma new_ExtractedField_range name v c bb pn f :
  Extractor.new_ExtractedField name v c bb pn = Ret f -> in_unit_range (confidence f).
Proof.
  unfold Extractor.new_ExtractedField.
  destruct (PrimFloat.ltb c 0.0 || PrimFloat.ltb 1.0 c) eqn:E; [discriminate|].
  intros H. injection H as <-. apply orb_false_iff in E. exact E.
Qed.

Lemma convert_items_range float_str items :
  forall fields, Extractor.convert_items float_str items = Ret fields ->
  forall f, In f fields -> in_unit_range (confidence f).
Proof.
  induction items as [|[name field] items IH]; intros fields H f Hf; cbn in H.
  - injection H as <-. destruct Hf.
  - destruct (Extractor._convert_field float_str name field 1) as [x|] eqn:Ex; [|discriminate].
    destruct (Extractor.convert_items float_str items) as [more|]; [|discriminate].
    injection H as <-. destruct Hf as [<-|Hf].
    + unfold Extractor._convert_field in Ex. cbv zeta in Ex.
      eapply new_ExtractedField_range, Ex.
    + eapply IH; [reflexivity | exact Hf].
Qed.

Lemma convert_documents_range float_str docs :
  forall fields, Extractor.convert_documents float_str docs = Ret fields ->
  forall f, In f fields -> in_unit_range (confidence f).
Proof.
  induction docs as [|doc docs IH]; intros fields H f Hf; cbn in H.
  - injection H as <-. destruct Hf.
  - destruct (Extractor.convert_items float_str _) as [here|] eqn:Eh; [|discriminate].
    destruct (Extractor.convert_documents float_str docs) as [more|]; [|discriminate].
    injection H as <-. apply in_app_or in Hf as [Hf|Hf].
    + eapply convert_items_range; [exact Eh | exact Hf].
    + eapply IH; [reflexivity | exact Hf].
Qed.

(** X20: no field that [extract] returns has a confidence below 0.0 or
    above 1.0: a document field with such a confidence makes the
    construction of its [ExtractedField] raise, and with it [extract]; an
    exception of the service is raised again. *)
Theorem extract_confidence_in_range float_str table_str analysis fields result :
  Extractor.extract float_str table_str analysis = Ret (fields, result) ->
  analysis = Ret result
  /\ forall f, In f fields ->
       PrimFloat.ltb (confidence f) 0.0 = false /\ PrimFloat.ltb 1.0 (confidence f) = false.
Proof.
  unfold Extractor.extract. destruct analysis as [res|e]; [|discriminate].
  destruct (Extractor.convert_documents float_str _) as [docs|] eqn:Ed; [|discriminate].
  intros H. injection H as <- <-. split; [reflexivity|].
  intros f Hf. apply in_app_or in Hf as [Hf|Hf].
  - eapply convert_documents_range; [exact Ed | exact Hf].
  - apply in_app_or in Hf as [Hf|Hf].
    + apply page_fields_layout in Hf as [_ Hc]. rewrite Hc. split; reflexivity.
    + apply table_fields_layout in Hf as [_ Hc]. rewrite Hc. split; reflexivity.
Qed.

Lemma extract_confidence_in_range_witness :
  PrimFloat.ltb 0.97 0.0 = false /\ PrimFloat.ltb 1.0 0.97 = false.
Proof.
  exact (proj2 (extract_confidence_in_range (fun _ => "") (fun _ => "")
                  (Ret Samples.invoice_result) (fst Samples.invoice_fields)
                  Samples.invoice_result eq_refl)
           {| field_name := "SubTotal"; value := Some "100.00"; confidence := 0.97;
              bounding_box := None; page_number := Some 1%Z |}
           (or_introl eq_refl)).
Defined.



(* ===================================================================== *)
(** ** The invoice result *)
(* ===================================================================== *)

Lemma validate_totals_returns py_float format_float st :
  exists warnings,
    InvoiceProcessor._validate_totals py_float format_float st
    = (Ret tt,
       {| InvoiceProcessor.result := InvoiceProcessor.result st;
          InvoiceProcessor.logged := (InvoiceProcessor.logged st ++ warnings)%list |})
    /\ (length warnings <= 1)%nat
    /\ (warnings <> [] ->
        exists s t tot,
          InvoiceProcessor.parsed_amount py_float (subtotal (InvoiceProcessor.result st)) = Some s
          /\ InvoiceProcessor.parsed_amount py_float (tax_amount (InvoiceProcessor.result st))
             = Some t
          /\ InvoiceProcessor.parsed_amount py_float (total_amount (InvoiceProcessor.result st))
             = Some tot
          /\ InvoiceProcessor.totals_mismatch s t tot = true).
Proof.
  destruct st as [inv lg]. cbn [InvoiceProcessor.result InvoiceProcessor.logged].
  unfold InvoiceProcessor._validate_totals, try_except, bind, get.
  cbn [InvoiceProcessor.result InvoiceProcessor.logged].
  assert (Hnone : exists warnings : list InvoiceProcessor.log_record,
             (Ret tt, {| InvoiceProcessor.result := inv; InvoiceProcessor.logged := lg |})
             = (Ret tt, {| InvoiceProcessor.result := inv;
                           InvoiceProcessor.logged := (lg ++ warnings)%list |})
             /\ (length warnings <= 1)%nat
             /\ (warnings <> [] ->
                 exists s t tot,
                   InvoiceProcessor.parsed_amount py_float (subtotal inv) = Some s
                   /\ InvoiceProcessor.parsed_amount py_float (tax_amount inv) = Some t
                   /\ InvoiceProcessor.parsed_amount py_float (total_amount inv) = Some tot
                   /\ InvoiceProcessor.totals_mismatch s t tot = true)).
  { exists []. rewrite app_nil_r. split; [reflexivity|]. split; [cbn; lia|]. congruence. }
  destruct (subtotal inv) as [fs|] eqn:Es; [|exact Hnone].
  destruct (tax_amount inv) as [ft|] eqn:Et; [|exact Hnone].
  destruct (total_amount inv) as [ftot|] eqn:Etot; [|exact Hnone].
  unfold InvoiceProcessor.amount_of, InvoiceProcessor.cleaned, InvoiceProcessor.float_of_str,
    InvoiceProcessor.logger_warning, bind, lift, modify, ret.
  unfold InvoiceProcessor.parsed_amount in *.
  destruct (value fs) as [vs|]; [|exact Hnone].
  destruct (py_float (Py.remove_char "$" (Py.remove_char "," vs))) as [s|]; [|exact Hnone].
  destruct (value ft) as [vt|]; [|exact Hnone].
  destruct (py_float (Py.remove_char "$" (Py.remove_char "," vt))) as [t|]; [|exact Hnone].
  destruct (value ftot) as [vtot|]; [|exact Hnone].
  destruct (py_float (Py.remove_char "$" (Py.remove_char "," vtot))) as [tot|]; [|exact Hnone].
  destruct (PrimFloat.ltb 0.01 (PrimFloat.abs (s + t - tot))) eqn:El; [|exact Hnone].
  cbn [InvoiceProcessor.result InvoiceProcessor.logged].
  eexists [_]. split; [reflexivity|]. split; [cbn; lia|].
  intros _. exists s, t, tot. repeat split; auto.
Qed.

(** X22: [InvoiceProcessor.process] returns on every input. Each of the ten
    slots of its result is the last extracted field of the name that the
    invoice model gives it (VendorName, VendorAddress, InvoiceId,
    InvoiceDate, DueDate, SubTotal, TotalTax, InvoiceTotal, CurrencyCode,
    PurchaseOrder), or nothing; the line items are those of the raw result;
    and the cross-check of the totals adds at most one warning to the log
    and changes nothing in the result. *)
Theorem invoice_process_slots py_float format_float extracted_fields raw_result logged :
  exists r warnings,
    InvoiceForm.process py_float format_float extracted_fields raw_result logged
    = (Ret r, (logged ++ warnings)%list)
    /\ (length warnings <= 1)%nat
    /\ vendor_name r = last_named "VendorName" extracted_fields
    /\ vendor_address r = last_named "VendorAddress" extracted_fields
    /\ invoice_number r = last_named "InvoiceId" extracted_fields
    /\ invoice_date r = last_named "InvoiceDate" extracted_fields
    /\ due_date r = last_named "DueDate" extracted_fields
    /\ subtotal r = last_named "SubTotal" extracted_fields
    /\ tax_amount r = last_named "TotalTax" extracted_fields
    /\ total_amount r = last_named "InvoiceTotal" extracted_fields
    /\ currency r = last_named "CurrencyCode" extracted_fields
    /\ purchase_order r = last_named "PurchaseOrder" extracted_fields
    /\ line_items r = InvoiceForm._extract_line_items raw_result.
Proof.
  unfold InvoiceForm.process. cbv zeta.
  match goal with
  | |- context [InvoiceProcessor._validate_totals _ _ ?st] =>
      destruct (validate_totals_returns py_float format_float st) as (w & Hw & Hl & _)
  end.
  rewrite Hw. cbn [InvoiceProcessor.result InvoiceProcessor.logged].
  eexists _, w. split; [reflexivity|]. split; [exact Hl|].
  cbn. rewrite !build_field_map_find. repeat split; reflexivity.
Qed.

Lemma item_entry_nonempty val : InvoiceForm.item_entry val <> Some (IStr "").
Proof.
  unfold InvoiceForm.item_entry. cbv zeta.
  destruct (Azure.value_string val) as [[|c x]|]; cbn [Py.truthy option_map];
    try discriminate;
    destruct (Azure.value_number val) as [n|];
    try destruct (Extractor.float_truthy n); try discriminate;
    destruct (Azure.value_currency val); try discriminate;
    destruct (Azure.content val) as [[|c' y]|]; cbn [Py.truthy option_map]; discriminate.
Qed.

Lemma item_entry_number val x :
  InvoiceForm.item_entry val = Some (INum x) ->
  Azure.value_number val = Some x /\ Extractor.float_truthy x = true
  \/ exists c, Azure.value_currency val = Some c /\ Azure.amount c = x.
Proof.
  unfold InvoiceForm.item_entry. cbv zeta.
  destruct (Azure.value_string val) as [[|c s]|]; cbn [Py.truthy option_map];
    try discriminate;
    destruct (Azure.value_number val) as [n|];
    try (destruct (Extractor.float_truthy n) eqn:En;
         [intros H; injection H as <-; left; auto|]);
    (destruct (Azure.value_currency val) as [cur|];
     [intros H; injection H as <-; right; eauto|]);
    destruct (Azure.content val) as [[|c' y]|]; cbn [Py.truthy option_map]; discriminate.
Qed.

Lemma line_item_fold object :
  forall (m : gmap string item_value) key v,
    fold_left
      (fun line_item '(key, val) =>
         match InvoiceForm.item_entry val with
         | Some v => <[key := v]> line_item
         | None => line_item
         end)
      object m !! key = Some v ->
    m !! key = Some v
    \/ exists val, In (key, val) object /\ InvoiceForm.item_entry val = Some v.
Proof.
  induction object as [|[k val] object IH]; intros m key v H; cbn [fold_left] in H.
  - now left.
  - apply IH in H as [H|(val' & Hin & He)].
    + destruct (InvoiceForm.item_entry val) as [w|] eqn:E; [|now left].
      destruct (decide (k = key)) as [->|Hne].
      * rewrite lookup_insert_eq in H. injection H as <-.
        right. exists val. split; [now left | exact E].
      * rewrite lookup_insert_ne in H by exact Hne. now left.
    + right. exists val'. split; [now right | exact He].
Qed.

(** X23: where the entries of an invoice line item come from. Every line
    item that [_extract_line_items] returns is built from the non-empty
    object of one element of the [Items] array of one document; each of its
    entries is read from a field of the object under the same key; an entry
    is never an empty text, and a number entry is the non-zero number of the
    field or the amount of its currency value, so that a quantity of zero is
    never reported as the number 0. *)
Theorem extract_line_items_sound raw_result item :
  In item (InvoiceForm._extract_line_items raw_result) ->
  exists result doc field element object,
    raw_result = Some result
    /\ In doc (default [] (Azure.documents result))
    /\ InvoiceForm.items_field doc = Some field
    /\ In element (default [] (Azure.value_array field))
    /\ Azure.value_object element = Some object
    /\ object <> []
    /\ item = InvoiceForm.line_item object
    /\ forall key v,
         item !! key = Some v ->
         v <> IStr ""
         /\ exists val,
              In (key, val) object
              /\ InvoiceForm.item_entry val = Some v
              /\ forall x, v = INum x ->
                   Azure.value_number val = Some x /\ Extractor.float_truthy x = true
                   \/ exists c, Azure.value_currency val = Some c /\ Azure.amount c = x.
Proof.
  unfold InvoiceForm._extract_line_items. destruct raw_result as [result|]; [|intros []].
  intros H. apply List.in_concat in H as (l & Hl & Hi).
  apply List.in_map_iff in Hl as (doc & <- & Hdoc).
  unfold InvoiceForm.document_items in Hi.
  destruct (InvoiceForm.items_field doc) as [field|] eqn:Ef; [|destruct Hi].
  apply List.in_concat in Hi as (l & Hl & Hi).
  apply List.in_map_iff in Hl as (element & <- & Hel).
  destruct (Azure.value_object element) as [[|pair object]|] eqn:Eo;
    [destruct Hi | | destruct Hi].
  destruct Hi as [<-|[]].
  exists result, doc, field, element, (pair :: object).
  repeat split; auto; try discriminate.
  - intros ->. unfold InvoiceForm.line_item in H.
    apply line_item_fold in H as [H|(val & _ & He)].
    + rewrite lookup_empty in H. discriminate H.
    + exact (item_entry_nonempty val He).
  - unfold InvoiceForm.line_item in H.
    apply line_item_fold in H as [H|(val & Hin & He)].
    + rewrite lookup_empty in H. discriminate H.
    + exists val. split; [exact Hin|]. split; [exact He|].
      intros x ->. now apply item_entry_number.
Qed.

Lemma extract_line_items_sound_witness :
  exists object,
    InvoiceForm.line_item InvoiceSamples.first_item = InvoiceForm.line_item object
    /\ object <> [].
Proof.
  destruct (extract_line_items_sound (Some InvoiceSamples.itemised_invoice)
              (InvoiceForm.line_item InvoiceSamples.first_item))
    as (result & doc & field & element & object & _ & _ & _ & _ & _ & Hne & Hi & _).
  - left. reflexivity.
  - exists object. split; [exact Hi | exact Hne].
Defined.

(* ===================================================================== *)
(** ** The router *)
(* ===================================================================== *)

Lemma extract_returns_result float_str table_str analysis fields raw :
  Extractor.extract float_str table_str analysis = Ret (fields, raw) -> analysis = Ret raw.
Proof.
  unfold Extractor.extract. destruct analysis as [res|e]; [|discriminate].
  destruct (Extractor.convert_documents float_str _); [|discriminate].
  intros H. injection H as _ <-. reflexivity.
Qed.

(** A response of steps 3 to 9, taken apart. *)
Lemma process_classified_returned sv doc_id file name file_bytes doc_type confidence resp :
  Router.process_classified sv doc_id file name file_bytes doc_type confidence
  = Router.Returned resp ->
  exists processed fields raw extraction v,
    Router.preprocessed sv file name file_bytes doc_type = Ret processed
    /\ Router.analyze sv (Router.model_id doc_type) processed = Ret raw
    /\ Extractor.extract (Router.format_float sv) (Router.table_str sv) (Ret raw)
       = Ret (fields, raw)
    /\ Router.type_specific sv doc_type fields raw = Ret extraction
    /\ Router.validation_of sv doc_type fields = Ret v
    /\ in_unit_range confidence
    /\ resp
       = (let gate :=
            DocumentExtractor.check_confidence (Router.confidence_threshold sv)
              (Router.format_2f sv) (Router.format_float sv) fields in
          let review := Router.review_status (fst gate) (snd gate) v in
          {| Router.document_id := doc_id;
             Router.status := Router.COMPLETED;
             Router.document_type := doc_type;
             Router.classification_confidence := confidence;
             Router.extracted_fields := fields;
             Router.extraction_result := extraction;
             Router.validation := v;
             Router.processing_time_ms := Router.completed_ms sv;
             Router.pages_processed :=
               match Azure.pages raw with
               | Some ((_ :: _) as pages) => length pages
               | _ => 1%nat
               end;
             Router.needs_human_review := fst review;
             Router.review_reason := snd review |}).
Proof.
  unfold Router.process_classified, Router.and_then, Router.of_outcome.
  destruct (Router.preprocessed sv file name file_bytes doc_type) as [processed|] eqn:Ep;
    [|discriminate].
  destruct (Extractor.extract _ _ _) as [[fields raw]|] eqn:Ee; [|discriminate].
  pose proof (extract_returns_result _ _ _ _ _ Ee) as Ea.
  destruct (Router.type_specific sv doc_type fields raw) as [extraction|] eqn:Et;
    [|discriminate].
  destruct (DocumentExtractor.check_confidence _ _ _ fields) as [ok low] eqn:Eg.
  destruct (Router.validation_of sv doc_type fields) as [v|] eqn:Ev; [|discriminate].
  destruct (Router.review_status ok low v) as [needs reason] eqn:Er.
  unfold Router.new_DocumentProcessResponse. cbn [Router.classification_confidence].
  destruct (PrimFloat.ltb confidence 0.0 || PrimFloat.ltb 1.0 confidence) eqn:Ec;
    [discriminate|].
  destruct (Router.save_result sv _); [|discriminate].
  intros H. injection H as <-.
  exists processed, fields, raw, extraction, v.
  rewrite Ea in Ee. cbv zeta. rewrite Eg. cbn [fst snd]. rewrite Er. cbn [fst snd].
  apply orb_false_iff in Ec. repeat split; auto; apply Ec.
Qed.

Lemma process_classified_raised sv doc_id file name file_bytes doc_type confidence r :
  Router.process_classified sv doc_id file name file_bytes doc_type confidence
  = Router.Raised r ->
  exists e, r = Router.Exception e.
Proof.
  unfold Router.process_classified, Router.and_then, Router.of_outcome.
  destruct (Router.preprocessed sv file name file_bytes doc_type) as [processed|e];
    [|intros H; injection H as <-; eauto].
  destruct (Extractor.extract _ _ _) as [[fields raw]|e];
    [|intros H; injection H as <-; eauto].
  destruct (Router.type_specific sv doc_type fields raw) as [extraction|e];
    [|intros H; injection H as <-; eauto].
  destruct (DocumentExtractor.check_confidence _ _ _ fields) as [ok low].
  destruct (Router.validation_of sv doc_type fields) as [v|e];
    [|intros H; injection H as <-; eauto].
  destruct (Router.review_status ok low v) as [needs reason].
  destruct (Router.new_DocumentProcessResponse _) as [response|e];
    [|intros H; injection H as <-; eauto].
  destruct (Router.save_result sv _) as [_x|e]; [discriminate|].
  intros H; injection H as <-; eauto.
Qed.

Lemma classification_raised sv name file_bytes document_type r :
  Router.classification sv name file_bytes document_type = Router.Raised r ->
  exists e, r = Router.Exception e.
Proof.
  unfold Router.classification, Router.and_then, Router.of_outcome.
  destruct document_type as [[|c s]|].
  - destruct (Router.classify sv file_bytes name) as [[t c] x]. discriminate.
  - destruct (Router.DocumentType_of (String c s)) as [t|e]; [discriminate|].
    intros H; injection H as <-; eauto.
  - destruct (Router.classify sv file_bytes name) as [[t c] x]. discriminate.
Qed.

(** X24: the only exception that [process_document] lets out is the HTTP
    error 400 of a file that is turned away, and it raises it exactly when
    the file name has no allowed extension or the file is read and larger
    than the maximum; every other exception of the processing is turned
    into a response. *)
Theorem process_document_rejects sv doc_id file document_type :
  (forall r,
     Router.process_document sv doc_id file document_type = Router.Raised r ->
     exists detail, r = Router.HTTPException 400 detail)
  /\ ((exists r, Router.process_document sv doc_id file document_type = Router.Raised r)
      <-> turned_away sv file = true).
Proof.
  unfold turned_away, Router.process_document, Router.try_body, Router.checked_upload,
    Router.and_then, Router.of_outcome.
  destruct (Router.filename file) as [name|].
  2:{ split; [discriminate|]. split; [intros [r H]; discriminate H | discriminate]. }
  destruct (Helpers.validate_file_extension name _) eqn:Ev; cbn [negb orb].
  2:{ split; [intros r H; injection H as <-; eauto|]. split; [reflexivity | eauto]. }
  destruct (Router.read file) as [file_bytes|e].
  2:{ split; [discriminate|]. split; [intros [r H]; discriminate H | discriminate]. }
  destruct (Helpers.exceeds_size file_bytes _) eqn:Es.
  { split; [intros r H; injection H as <-; eauto|]. split; [reflexivity | eauto]. }
  assert (Hno : forall r,
             match
               match Router.classification sv name file_bytes document_type with
               | Router.Returned a =>
                   let '(doc_type, classification_confidence) := a in
                   Router.process_classified sv doc_id file name file_bytes doc_type
                     classification_confidence
               | Router.Raised r => Router.Raised r
               end
             with
             | Router.Returned response => Router.Returned response
             | Router.Raised (Router.HTTPException status_code detail) =>
                 Router.Raised (Router.HTTPException status_code detail)
             | Router.Raised (Router.Exception e) =>
                 Router.Returned (Router.failed_response sv doc_id e)
             end = Router.Raised r -> False).
  { intros r.
    destruct (Router.classification sv name file_bytes document_type) as [[t c]|r'] eqn:Ec.
    - destruct (Router.process_classified sv doc_id file name file_bytes t c) as [resp|r'']
        eqn:Ep; [discriminate|].
      apply process_classified_raised in Ep as [e ->]. discriminate.
    - apply classification_raised in Ec as [e ->]. discriminate. }
  split; [intros r H; destruct (Hno r H)|].
  split; [intros [r H]; destruct (Hno r H) | discriminate].
Qed.

(** X25: what a response of [process_document] says about the processing
    behind it. A response is either failed, and then of type unknown,
    without fields, extraction result and validation, and marked for human
    review; or completed, and then its classification confidence is
    neither below 0 nor above 1, its validation is the one of [validate_kyc] on its
    extracted fields for a KYC form or an ID card and absent for every other
    type, and it is marked for human review exactly when the confidence gate
    fails on its fields or the validation is not passed, with a reason
    whenever it is marked. Nothing else decides the review: not the
    type-specific result, and so not a mismatch of invoice totals. *)
Theorem process_document_response sv doc_id file document_type resp :
  Router.process_document sv doc_id file document_type = Router.Returned resp ->
  (Router.status resp = Router.FAILED
   /\ Router.document_type resp = Router.UNKNOWN
   /\ Router.needs_human_review resp = true
   /\ Router.validation resp = None
   /\ Router.extracted_fields resp = []
   /\ Router.extraction_result resp = None)
  \/ (Router.status resp = Router.COMPLETED
      /\ in_unit_range (Router.classification_confidence resp)
      /\ Router.validation_of sv (Router.document_type resp) (Router.extracted_fields resp)
         = Ret (Router.validation resp)
      /\ (Router.needs_human_review resp = true
          <-> fst (DocumentExtractor.check_confidence (Router.confidence_threshold sv)
                     (Router.format_2f sv) (Router.format_float sv)
                     (Router.extracted_fields resp)) = false
              \/ exists v, Router.validation resp = Some v /\ status v <> PASSED)
      /\ (Router.needs_human_review resp = false -> Router.review_reason resp = None)).
Proof.
  unfold Router.process_document, Router.try_body, Router.and_then.
  destruct (Router.checked_upload sv file) as [[name file_bytes]|[c d|e]];
    [|discriminate|intros H; injection H as <-; left; repeat split; reflexivity].
  destruct (Router.classification sv name file_bytes document_type) as [[t c]|[c d|e]];
    [|discriminate|intros H; injection H as <-; left; repeat split; reflexivity].
  destruct (Router.process_classified sv doc_id file name file_bytes t c) as [r|[c' d|e]] eqn:Ep;
    [|discriminate|intros H; injection H as <-; left; repeat split; reflexivity].
  intros H. injection H as <-. right.
  apply process_classified_returned in Ep
    as (processed & fields & raw & extraction & v & _ & _ & _ & _ & Hv & Hc & ->).
  cbv zeta. cbn [Router.status Router.classification_confidence Router.validation
                 Router.document_type Router.extracted_fields Router.needs_human_review
                 Router.review_reason].
  split; [reflexivity|]. split; [exact Hc|]. split; [exact Hv|].
  unfold Router.review_status.
  destruct (fst (DocumentExtractor.check_confidence _ _ _ fields)); cbn [negb fst snd].
  - destruct v as [v|].
    + destruct (status v) eqn:Es; cbn [fst snd]; split;
        try (split; [intros _; right; exists v; split; [reflexivity|congruence] | reflexivity]);
        try discriminate; try reflexivity.
      split; [discriminate|]. intros [H|(v' & Hv' & Hn)]; [discriminate H|].
      injection Hv' as <-. congruence.
    + cbn [fst snd]. split; [|reflexivity].
      split; [discriminate|]. intros [H|(v' & Hv' & _)]; discriminate.
  - split; [|discriminate]. split; [intros _; now left | reflexivity].
Qed.

(** X26: a KYC form that is processed to the end is always sent to human
    review. The router validates the extracted fields, not the fields that
    the KYC processor found; when the layout model returns no document
    fields, the validation of every KYC form is the one of a layout
    extraction: all five required fields missing, score 0.15, status
    needs_manual_review. *)
Theorem kyc_form_always_reviewed sv doc_id file document_type resp :
  (forall file_bytes raw,
     Router.analyze sv "prebuilt-layout" file_bytes = Ret raw ->
     default [] (Azure.documents raw) = []) ->
  Router.process_document sv doc_id file document_type = Router.Returned resp ->
  Router.document_type resp = Router.KYC_FORM ->
  Router.status resp = Router.COMPLETED
  /\ Router.needs_human_review resp = true
  /\ exists v,
       Router.validation resp = Some v
       /\ status v = NEEDS_MANUAL_REVIEW
       /\ checks_failed v
          = ["Missing required fields: customer_name, date_of_birth, nationality, source_of_funds, occupation"]
       /\ risk_score v = 0.15%float.
Proof.
  intros Hlayout. unfold Router.process_document, Router.try_body, Router.and_then.
  destruct (Router.checked_upload sv file) as [[name file_bytes]|[c d|e]];
    [|discriminate|intros H; injection H as <-; discriminate].
  destruct (Router.classification sv name file_bytes document_type) as [[t c]|[c d|e]];
    [|discriminate|intros H; injection H as <-; discriminate].
  destruct (Router.process_classified sv doc_id file name file_bytes t c) as [r|[c' d|e]] eqn:Ep;
    [|discriminate|intros H; injection H as <-; discriminate].
  intros H. injection H as <-.
  apply process_classified_returned in Ep
    as (processed & fields & raw & extraction & v & _ & Ha & He & _ & Hv & _ & ->).
  cbv zeta. cbn [Router.status Router.validation Router.document_type
                 Router.needs_human_review]. intros ->.
  apply Hlayout in Ha.
  destruct (extract_layout (Router.format_float sv) (Router.table_str sv) raw Ha)
    as (fields' & He' & Hl).
  rewrite He in He'. injection He' as <-.
  destruct (layout_fields_validation (Router.today sv) fields "kyc_form" Hl)
    as (r & Hr & Hs & Hf & _ & _ & Hrs).
  unfold Router.validation_of in Hv. cbn [Router.DocumentType_value] in Hv.
  rewrite Hr in Hv. injection Hv as <-.
  split; [reflexivity|]. split; [|eauto].
  unfold Router.review_status. rewrite Hs.
  destruct (fst (DocumentExtractor.check_confidence _ _ _ fields)); reflexivity.
Qed.

Lemma process_document_response_witness :
  Router.validation_of RouterSamples.services Router.KYC_FORM
    (Router.extracted_fields RouterSamples.form_response)
  = Ret (Router.validation RouterSamples.form_response).
Proof.
  assert (E : Router.process_document RouterSamples.services "DOC-1"
                RouterSamples.form_upload None
              = Router.Returned RouterSamples.form_response) by (vm_compute; reflexivity).
  destruct (process_document_response RouterSamples.services "DOC-1"
              RouterSamples.form_upload None RouterSamples.form_response E)
    as [(H & _)|(_ & _ & H & _)].
  - discriminate H.
  - exact H.
Defined.

Lemma kyc_form_always_reviewed_witness :
  Router.needs_human_review RouterSamples.form_response = true.
Proof.
  refine (proj1 (proj2 (kyc_form_always_reviewed RouterSamples.services "DOC-1"
                          RouterSamples.form_upload None RouterSamples.form_response _ _ _))).
  - intros file_bytes raw H. injection H as <-. reflexivity.
  - vm_compute. reflexivity.
  - reflexivity.
Defined.

(* ===================================================================== *)
(** ** The batch endpoint *)
(* ===================================================================== *)

Lemma batch_fold process items :
  forall acc,
    let b := fold_left (Router.batch_step process) items acc in
    Router.total_documents b = Router.total_documents acc
    /\ (length (Router.results b) + Router.failure_count b
        = length (Router.results acc) + Router.failure_count acc + length items)%nat
    /\ (Router.success_count acc = length (List.filter completed (Router.results acc)) ->
        Router.success_count b = length (List.filter completed (Router.results b)))
    /\ (Router.review_count acc
        = length (List.filter Router.needs_human_review (Router.results acc)) ->
        Router.review_count b
        = length (List.filter Router.needs_human_review (Router.results b)))
    /\ Router.failure_count b
       = (Router.failure_count acc
          + length (List.filter
                      (fun item => match process (fst item) (snd item) with
                                   | Router.Raised _ => true
                                   | Router.Returned _ => false
                                   end) items))%nat
    /\ exists added,
         Router.results b = (Router.results acc ++ added)%list
         /\ forall r, In r added ->
              exists item, In item items /\ process (fst item) (snd item) = Router.Returned r.
Proof.
  induction items as [|item items IH]; intros acc; cbn [fold_left].
  - cbv zeta. repeat split; auto; cbn; try lia.
    exists []. rewrite app_nil_r. split; [reflexivity | intros r []].
  - specialize (IH (Router.batch_step process acc item)). cbv zeta in IH |- *.
    remember (fold_left (Router.batch_step process) items
                (Router.batch_step process acc item)) as b eqn:Eb.
    clear Eb.
    destruct IH as (Ht & Hl & Hs & Hr & Hf & added & Ha & Hin).
    cbn [List.filter length].
    assert (E : Router.batch_step process acc item
                = match process (fst item) (snd item) with
                  | Router.Returned r =>
                      {| Router.total_documents := Router.total_documents acc;
                         Router.results := (Router.results acc ++ [r])%list;
                         Router.success_count :=
                           match Router.status r with
                           | Router.COMPLETED => S (Router.success_count acc)
                           | _ => Router.success_count acc
                           end;
                         Router.failure_count := Router.failure_count acc;
                         Router.review_count :=
                           if Router.needs_human_review r then S (Router.review_count acc)
                           else Router.review_count acc |}
                  | Router.Raised _ =>
                      {| Router.total_documents := Router.total_documents acc;
                         Router.results := Router.results acc;
                         Router.success_count := Router.success_count acc;
                         Router.failure_count := S (Router.failure_count acc);
                         Router.review_count := Router.review_count acc |}
                  end) by reflexivity.
    destruct (process (fst item) (snd item)) as [r|x] eqn:Ep;
      rewrite E in Ht, Hl, Hs, Hr, Hf, Ha;
      cbn [Router.total_documents Router.results Router.failure_count Router.success_count
           Router.review_count] in Ht, Hl, Hs, Hr, Hf, Ha.
    + split; [exact Ht|]. split; [rewrite Hl, length_app; cbn; lia|].
      split.
      { intros H. apply Hs. rewrite List.filter_app, length_app. cbn [List.filter].
        unfold completed at 2. destruct (Router.status r); cbn [length]; lia. }
      split.
      { intros H. apply Hr. rewrite List.filter_app, length_app. cbn [List.filter].
        destruct (Router.needs_human_review r); cbn [length]; lia. }
      split; [exact Hf|].
      exists (r :: added). split; [rewrite Ha, <- app_assoc; reflexivity|].
      intros r' [<-|H'].
      * exists item. split; [now left | exact Ep].
      * destruct (Hin r' H') as (it & Hit & Hp). exists it. split; [now right | exact Hp].
    + split; [exact Ht|]. split; [rewrite Hl; lia|].
      split; [exact Hs|]. split; [exact Hr|]. split; [rewrite Hf; cbn [length]; lia|].
      exists added. split; [exact Ha|].
      intros r' H'. destruct (Hin r' H') as (it & Hit & Hp).
      exists it. split; [now right | exact Hp].
Qed.

(** X27: the counters of [batch_process], whatever the processing of a file
    does: every file ends either in [results] or in [failure_count], so that
    the two add up to [total_documents], the number of files;
    [success_count] is the number of completed responses and [review_count]
    the number of responses marked for review among [results]; successes and
    failures together never exceed the number of files. *)
Theorem batch_process_counts process files :
  let b := Router.batch_process process files in
  Router.total_documents b = length files
  /\ (length (Router.results b) + Router.failure_count b = length files)%nat
  /\ Router.success_count b = length (List.filter completed (Router.results b))
  /\ Router.review_count b
     = length (List.filter Router.needs_human_review (Router.results b))
  /\ (Router.success_count b + Router.failure_count b <= length files)%nat.
Proof.
  unfold Router.batch_process.
  pose proof (batch_fold process (List.combine (List.seq 0 (length files)) files)
                {| Router.total_documents := length files; Router.results := [];
                   Router.success_count := 0; Router.failure_count := 0;
                   Router.review_count := 0 |}) as H.
  cbv zeta in H |- *. destruct H as (Ht & Hl & Hs & Hr & _).
  cbn [Router.total_documents Router.results Router.failure_count Router.success_count
       Router.review_count List.filter length] in *.
  rewrite length_combine, length_seq, Nat.min_id in Hl.
  specialize (Hs eq_refl). specialize (Hr eq_refl).
  repeat split; auto.
  rewrite Hs. pose proof (List.filter_length_le completed (Router.results
    (fold_left (Router.batch_step process) (List.combine (List.seq 0 (length files)) files)
       {| Router.total_documents := length files; Router.results := [];
          Router.success_count := 0; Router.failure_count := 0;
          Router.review_count := 0 |}))). lia.
Qed.

Lemma filter_combine_snd {A B} (p : B -> bool) (l1 : list A) (l2 : list B) :
  length l1 = length l2 ->
  length (List.filter (fun item => p (snd item)) (List.combine l1 l2))
  = length (List.filter p l2).
Proof.
  revert l2. induction l1 as [|a l1 IH]; intros [|b l2] H; try discriminate; [reflexivity|].
  cbn. injection H as H. destruct (p b); cbn; rewrite IH by exact H; reflexivity.
Qed.

Lemma process_document_raised_iff sv doc_id file document_type :
  match Router.process_document sv doc_id file document_type with
  | Router.Raised _ => true
  | Router.Returned _ => false
  end = turned_away sv file.
Proof.
  unfold turned_away, Router.process_document, Router.try_body, Router.checked_upload,
    Router.and_then, Router.of_outcome.
  destruct (Router.filename file) as [name|]; [|reflexivity].
  destruct (Helpers.validate_file_extension name _); cbn [negb orb]; [|reflexivity].
  destruct (Router.read file) as [file_bytes|e]; [|reflexivity].
  destruct (Helpers.exceeds_size file_bytes _); [reflexivity|].
  destruct (Router.classification sv name file_bytes document_type) as [[t c]|r'] eqn:Ec.
  - destruct (Router.process_classified sv doc_id file name file_bytes t c) as [resp|r'']
      eqn:Ep; [reflexivity|].
    apply process_classified_raised in Ep as [e ->]. reflexivity.
  - apply classification_raised in Ec as [e ->]. reflexivity.
Qed.

Lemma process_document_status sv doc_id file document_type resp :
  Router.process_document sv doc_id file document_type = Router.Returned resp ->
  (completed resp = true /\ crashed resp = false)
  \/ (completed resp = false /\ crashed resp = true /\ Router.needs_human_review resp = true).
Proof.
  unfold Router.process_document, Router.try_body, Router.and_then.
  destruct (Router.checked_upload sv file) as [[name file_bytes]|[c d|e]];
    [|discriminate|intros H; injection H as <-; right; repeat split; reflexivity].
  destruct (Router.classification sv name file_bytes document_type) as [[t c]|[c d|e]];
    [|discriminate|intros H; injection H as <-; right; repeat split; reflexivity].
  destruct (Router.process_classified sv doc_id file name file_bytes t c) as [r|[c' d|e]] eqn:Ep;
    [|discriminate|intros H; injection H as <-; right; repeat split; reflexivity].
  intros H. injection H as <-. left.
  apply process_classified_returned in Ep as (? & ? & ? & ? & ? & _ & _ & _ & _ & _ & _ & ->).
  split; reflexivity.
Qed.

Lemma filter_partition_length {A} (p q : A -> bool) (l : list A) :
  (forall x, In x l -> (p x = true /\ q x = false) \/ (p x = false /\ q x = true)) ->
  (length (List.filter p l) + length (List.filter q l) = length l)%nat.
Proof.
  induction l as [|x l IH]; intros H; [reflexivity|].
  cbn [List.filter length].
  destruct (H x (or_introl eq_refl)) as [[-> ->]|[-> ->]]; cbn [length];
    rewrite <- (IH (fun y Hy => H y (or_intror Hy))); lia.
Qed.

(** X28: in a batch, [failure_count] counts exactly the files that are
    turned away with HTTP 400. A document whose processing crashed is
    returned among [results] with status failed: it is counted neither as a
    success nor as a failure, but always in [review_count]; successes,
    failures and crashed documents add up to the number of files. *)
Theorem batch_process_failures sv doc_ids files document_type :
  let b := Router.batch_process
             (fun i file => Router.process_document sv (doc_ids i) file document_type) files in
  Router.failure_count b = length (List.filter (turned_away sv) files)
  /\ (Router.success_count b + Router.failure_count b
      + length (List.filter crashed (Router.results b)) = length files)%nat
  /\ (length (List.filter crashed (Router.results b)) <= Router.review_count b)%nat.
Proof.
  cbv zeta.
  pose proof (batch_fold
                (fun i file => Router.process_document sv (doc_ids i) file document_type)
                (List.combine (List.seq 0 (length files)) files)
                {| Router.total_documents := length files; Router.results := [];
                   Router.success_count := 0; Router.failure_count := 0;
                   Router.review_count := 0 |}) as H.
  cbv zeta in H. destruct H as (_ & Hl & Hs & Hr & Hf & added & Ha & Hin).
  fold (Router.batch_process
          (fun i file => Router.process_document sv (doc_ids i) file document_type) files)
    in Hl, Hs, Hr, Hf, Ha.
  cbn [Router.failure_count Router.results Router.success_count Router.review_count
       List.filter length app] in Hl, Hs, Hr, Hf, Ha.
  rewrite length_combine, length_seq, Nat.min_id in Hl.
  specialize (Hs eq_refl). specialize (Hr eq_refl).
  set (b := Router.batch_process _ files) in *.
  assert (Hst : forall r, In r (Router.results b) ->
                  (completed r = true /\ crashed r = false)
                  \/ (completed r = false /\ crashed r = true
                      /\ Router.needs_human_review r = true)).
  { intros r Hr'. rewrite Ha in Hr'. destruct (Hin r Hr') as (item & _ & Hp).
    eapply process_document_status, Hp. }
  split.
  { rewrite Hf. cbn [plus].
    rewrite <- (filter_combine_snd (turned_away sv) (List.seq 0 (length files)) files)
      by apply length_seq.
    f_equal. apply List.filter_ext. intros [i file]. cbn [fst snd].
    apply process_document_raised_iff. }
  split.
  { rewrite Hs.
    assert (Hp : (length (List.filter completed (Router.results b))
                  + length (List.filter crashed (Router.results b))
                  = length (Router.results b))%nat).
    { apply filter_partition_length.
      intros r Hr'. destruct (Hst r Hr') as [H|(H1 & H2 & _)]; auto. }
    cbn [plus] in Hl. lia. }
  rewrite Hr. clear - Hst.
  induction (Router.results b) as [|r l IH]; [reflexivity|].
  cbn [List.filter].
  destruct (Hst r (or_introl eq_refl)) as [[_ ->]|(_ & -> & ->)]; cbn [length].
  - destruct (Router.needs_human_review r); cbn [length];
      specialize (IH (fun y Hy => Hst y (or_intror Hy))); lia.
  - specialize (IH (fun y Hy => Hst y (or_intror Hy))). lia.
Qed.

(* ===================================================================== *)
(** ** File names *)
(* ===================================================================== *)

Lemma rfind_dot_drop n :
  forall i, Pathlib.rfind_dot n = Some i ->
  exists rest,
    Re.drop i n = String "." rest
    /\ Pathlib.rfind_dot rest = None
    /\ String.length n = (i + 1 + String.length rest)%nat.
Proof.
  induction n as [|c n IH]; intros i H; [discriminate|].
  cbn in H. destruct (Pathlib.rfind_dot n) as [j|] eqn:E.
  - injection H as <-. destruct (IH j eq_refl) as (rest & Hd & Hn & Hl).
    exists rest. cbn. rewrite Hd, Hl. auto.
  - destruct (Ascii.eqb c ".") eqn:Ec; [|discriminate]. injection H as <-.
    apply Ascii.eqb_eq in Ec. subst. exists n. cbn. auto.
Qed.

(** The suffix is empty, or a period and a non-empty text without period. *)
Lemma suffix_shape path :
  Pathlib.suffix path = ""
  \/ exists c rest,
       Pathlib.suffix path = String "." (String c rest)
       /\ Pathlib.rfind_dot (String c rest) = None.
Proof.
  unfold Pathlib.suffix. cbv zeta.
  destruct (Pathlib.rfind_dot (Pathlib.name path)) as [i|] eqn:E; [|now left].
  destruct ((0 <? i)%nat && (i <? String.length (Pathlib.name path) - 1)%nat) eqn:Eb;
    [|now left].
  apply andb_true_iff in Eb as [_ Hlt]. apply Nat.ltb_lt in Hlt.
  apply rfind_dot_drop in E as (rest & Hd & Hn & Hl).
  right. destruct rest as [|c rest]; [cbn in Hl; lia|].
  exists c, rest. auto.
Qed.

Lemma lower_char_dot c : Ascii.eqb (Py.lower_char c) "." = Ascii.eqb c ".".
Proof. destruct c as [[] [] [] [] [] [] [] []]; reflexivity. Qed.

Lemma lower_first_not_dot c rest :
  Pathlib.rfind_dot (String c rest) = None ->
  Helpers.lstrip_dots (Py.lower (String c rest)) = Py.lower (String c rest).
Proof.
  cbn. destruct (Pathlib.rfind_dot rest); [discriminate|].
  rewrite lower_char_dot. destruct (Ascii.eqb c "."); [discriminate | reflexivity].
Qed.

(** X29: the upload filter and the media types of the classifier agree.
    Under the default list of allowed extensions, a file name passes
    [validate_file_extension] exactly when [_get_media_type] knows a media
    type for it; names without extension, with a leading period only, or
    ending in a period pass neither. *)
Theorem accepted_files_have_media_type filename :
  Helpers.validate_file_extension filename
    (Helpers.allowed_extensions_list Helpers.default_allowed_extensions)
  = negb (String.eqb (Helpers._get_media_type filename) "application/octet-stream").
Proof.
  unfold Helpers.validate_file_extension, Helpers._get_media_type. cbv zeta.
  change (Helpers.allowed_extensions_list Helpers.default_allowed_extensions)
    with ["pdf"; "png"; "jpg"; "jpeg"; "tiff"; "bmp"].
  destruct (suffix_shape filename) as [->|(c & rest & -> & Hn)]; [reflexivity|].
  change (Py.lower (String "." (String c rest)))
    with (String "." (Py.lower (String c rest))).
  change (Helpers.lstrip_dots (String "." (Py.lower (String c rest))))
    with (Helpers.lstrip_dots (Py.lower (String c rest))).
  rewrite (lower_first_not_dot c rest Hn).
  generalize (Py.lower (String c rest)). intros ext.
  unfold Py.in_list, Helpers.media_types. cbn [existsb List.find].
  change (String.eqb ".pdf" (String "." ext)) with (String.eqb "pdf" ext).
  change (String.eqb ".png" (String "." ext)) with (String.eqb "png" ext).
  change (String.eqb ".jpg" (String "." ext)) with (String.eqb "jpg" ext).
  change (String.eqb ".jpeg" (String "." ext)) with (String.eqb "jpeg" ext).
  change (String.eqb ".tiff" (String "." ext)) with (String.eqb "tiff" ext).
  change (String.eqb ".bmp" (String "." ext)) with (String.eqb "bmp" ext).
  rewrite !(String.eqb_sym ext).
  destruct (String.eqb "pdf" ext); [reflexivity|].
  destruct (String.eqb "png" ext); [reflexivity|].
  destruct (String.eqb "jpg" ext); [reflexivity|].
  destruct (String.eqb "jpeg" ext); [reflexivity|].
  destruct (String.eqb "tiff" ext); [reflexivity|].
  destruct (String.eqb "bmp" ext); reflexivity.
Qed.

Lemma DocumentType_of_unknown s :
  (forall t, Router.DocumentType_value t <> s) -> Router.DocumentType_of s = Raise ValueError.
Proof.
  intros H. unfold Router.DocumentType_of.
  destruct (List.find _ _) as [t|] eqn:E; [|reflexivity].
  apply List.find_some in E as [_ E]. apply String.eqb_eq in E. destruct (H t E).
Qed.

(** X30: a document type that does not exist is answered by a failed
    response, not by an HTTP error. For a file that passes the upload checks
    and a non-empty [document_type] that is the value of no member of
    [DocumentType], [process_document] returns the response of its exception
    handler: status failed, type unknown, marked for human review. *)
Theorem unknown_document_type_fails sv doc_id file c s :
  turned_away sv file = false ->
  (exists name file_bytes, Router.filename file = Some name /\ Router.read file = Ret file_bytes) ->
  (forall t, Router.DocumentType_value t <> String c s) ->
  Router.process_document sv doc_id file (Some (String c s))
  = Router.Returned (Router.failed_response sv doc_id ValueError).
Proof.
  intros Ht (name & file_bytes & Hn & Hr) Hs.
  unfold turned_away in Ht. rewrite Hn, Hr in Ht. apply orb_false_iff in Ht as [Hv He].
  unfold Router.process_document, Router.try_body, Router.checked_upload, Router.and_then,
    Router.of_outcome. rewrite Hn, Hv, Hr, He.
  unfold Router.classification, Router.and_then, Router.of_outcome.
  rewrite (DocumentType_of_unknown _ Hs). reflexivity.
Qed.

Lemma unknown_document_type_fails_witness :
  Router.process_document RouterSamples.services "DOC-2" RouterSamples.form_upload
    (Some "passport")
  = Router.Returned (Router.failed_response RouterSamples.services "DOC-2" ValueError).
Proof.
  apply (unknown_document_type_fails RouterSamples.services "DOC-2" RouterSamples.form_upload
           "p" "assport").
  - vm_compute. reflexivity.
  - eexists _, _. split; reflexivity.
  - intros []; discriminate.
Defined.

